(** * document_scanner/services.py: the document processing pipeline

    A shallow embedding of the OCR adapter, the field extractor, the PDF
    merge and the two orchestration routines of
    [src/document_scanner/services.py], with the model fields of
    [src/document_scanner/models.py] they touch.

    Conventions.
    - Python [str] is modelled by [string]; a character is a code point
      below 256 (Latin-1), and the character classes below are Python's
      on that range.
    - Python [float] is idealised as a rational ([Q]).
    - A library call that can raise is a function into [result]; the
      libraries themselves (PyPDF2, pdf2image, PIL, pytesseract,
      reportlab, the Django ORM) are oracles collected in [World].
    - Mutable objects live in the state of a small state-and-exception
      monad, so that what a [try] block changed before raising is still
      there in its [except] handler. *)

From Stdlib Require Import List String Ascii Bool Arith ZArith QArith Lia.
From Stdlib Require Import DecimalString Lqa.
Import ListNotations.
Open Scope string_scope.

(* ================================================================== *)
(** * Python built-ins used by the source *)
(* ================================================================== *)

Module Py.

Definition code (c : ascii) : nat := nat_of_ascii c.

Definition between (lo hi : nat) (c : ascii) : bool :=
  (lo <=? code c)%nat && (code c <=? hi)%nat.

Definition is_code (n : nat) (c : ascii) : bool := (code c =? n)%nat.

(** [str.isspace] on one character. *)
Definition isspace (c : ascii) : bool :=
  between 9 13 c || between 28 32 c || is_code 133 c || is_code 160 c.

(** [str.isdigit] on one character (the superscripts count). *)
Definition isdigit (c : ascii) : bool :=
  between 48 57 c || is_code 178 c || is_code 179 c || is_code 185 c.

(** [str.lower] on one character. *)
Definition lower_char (c : ascii) : ascii :=
  if between 65 90 c || between 192 214 c || between 216 222 c
  then ascii_of_nat (code c + 32) else c.

Fixpoint lower (s : string) : string :=
  match s with
  | EmptyString => EmptyString
  | String c s' => String (lower_char c) (lower s')
  end.

Fixpoint lstrip (s : string) : string :=
  match s with
  | EmptyString => EmptyString
  | String c s' => if isspace c then lstrip s' else s
  end.

Fixpoint rstrip (s : string) : string :=
  match s with
  | EmptyString => EmptyString
  | String c s' =>
      match rstrip s' with
      | EmptyString => if isspace c then EmptyString else String c EmptyString
      | r => String c r
      end
  end.

(** [s.strip()] *)
Definition strip (s : string) : string := rstrip (lstrip s).

(** [s.split('\n')] *)
Fixpoint split_lines (s : string) : list string :=
  match s with
  | EmptyString => [EmptyString]
  | String c s' =>
      if is_code 10 c then EmptyString :: split_lines s'
      else match split_lines s' with
           | l :: ls => String c l :: ls
           | [] => [String c EmptyString]
           end
  end.

(** [s.split()]: the maximal runs of non-whitespace characters. *)
Fixpoint split (s : string) : list string :=
  match s with
  | EmptyString => []
  | String c s' =>
      if isspace c then split s'
      else match s' with
           | EmptyString => [String c EmptyString]
           | String c' _ =>
               if isspace c' then String c EmptyString :: split s'
               else match split s' with
                    | w :: ws => String c w :: ws
                    | [] => [String c EmptyString]
                    end
           end
  end.

(** [any(p(ch) for ch in s)] *)
Fixpoint any_char (p : ascii -> bool) (s : string) : bool :=
  match s with
  | EmptyString => false
  | String c s' => p c || any_char p s'
  end.

(** [s.startswith(sub)] *)
Fixpoint startswith (s sub : string) {struct sub} : bool :=
  match sub with
  | EmptyString => true
  | String a sub' =>
      match s with
      | EmptyString => false
      | String b s' => Ascii.eqb a b && startswith s' sub'
      end
  end.

(** [sub in s] *)
Fixpoint contains (sub s : string) : bool :=
  startswith s sub ||
  match s with
  | EmptyString => false
  | String _ s' => contains sub s'
  end.

(** [s.endswith(suffix)] *)
Definition endswith (s suffix : string) : bool :=
  (length suffix <=? length s)%nat &&
  (substring (length s - length suffix) (length suffix) s =? suffix).

(** [sep.join(items)] *)
Fixpoint join (sep : string) (items : list string) : string :=
  match items with
  | [] => EmptyString
  | [x] => x
  | x :: xs => x ++ sep ++ join sep xs
  end.

(** [str(n)] for a non-negative integer. *)
Definition str_of_nat (n : nat) : string :=
  NilEmpty.string_of_uint (Nat.to_uint n).

(** [s.rfind(c)] for a single character, [None] for [-1]. *)
Fixpoint rfind (c : ascii) (s : string) : option nat :=
  match s with
  | EmptyString => None
  | String a s' =>
      match rfind c s' with
      | Some i => Some (S i)
      | None => if Ascii.eqb a c then Some 0%nat else None
      end
  end.

(** The values the field extractor puts in its dictionaries, and the
    values of the text columns of a model row. *)
Inductive value : Type :=
| VNone
| VStr (s : string)
| VList (l : list string).

(** Truth value of an object, as [if value:] tests it. *)
Definition truthy (v : value) : bool :=
  match v with
  | VNone => false
  | VStr EmptyString => false
  | VStr _ => true
  | VList [] => false
  | VList _ => true
  end.

(** ** Dictionaries: insertion-ordered, one binding per key. *)

Definition dict := list (string * value).

Fixpoint lookup (d : dict) (k : string) : option value :=
  match d with
  | [] => None
  | (k', v) :: d' => if String.eqb k k' then Some v else lookup d' k
  end.

(** [d[k] = v] *)
Fixpoint setitem (d : dict) (k : string) (v : value) : dict :=
  match d with
  | [] => [(k, v)]
  | (k', v') :: d' =>
      if String.eqb k k' then (k', v) :: d' else (k', v') :: setitem d' k v
  end.

(** [d.update(other)] *)
Definition update (d other : dict) : dict :=
  fold_left (fun acc kv => setitem acc (fst kv) (snd kv)) other d.

Definition mem (d : dict) (k : string) : bool :=
  match lookup d k with Some _ => true | None => false end.

End Py.

(* ================================================================== *)
(** * The regular expressions of the field extractor

    A backtracking matcher for the fragment of Python's [re] that the
    three compiled patterns use: greedy quantifiers tried longest first,
    ordered alternation, the word boundary [\b] and one capturing group.
    Quantified subpatterns are single character classes except for [?],
    so no loop can spin on an empty match. *)
(* ================================================================== *)

Module Re.

Inductive regex : Type :=
| Chr (p : ascii -> bool)                       (* one character of a class *)
| WordB                                         (* \b *)
| Seq (r1 r2 : regex)
| Alt (r1 r2 : regex)                           (* r1|r2 *)
| Opt (r : regex)                               (* r? *)
| Rep (p : ascii -> bool) (lo : nat) (hi : option nat)   (* [..]{lo,hi} *)
| Group (r : regex).                            (* ( r ) *)

(** Where the matcher stands: the offset, the character before it and
    the text after it. *)
Record cursor : Type := Cursor
  { pos : nat; prev : option ascii; rest : string }.

(** Span of group 1, when it took part in the match. *)
Definition capture := option (nat * nat).

Definition outcome := option (nat * capture).

(** [\w] on one character. *)
Definition is_word (c : ascii) : bool :=
  Py.between 48 57 c || Py.between 65 90 c || Py.between 97 122 c
  || Py.is_code 95 c
  || Py.is_code 170 c || Py.is_code 178 c || Py.is_code 179 c
  || Py.is_code 181 c || Py.is_code 185 c || Py.is_code 186 c
  || Py.between 188 190 c
  || Py.between 192 214 c || Py.between 216 246 c || Py.between 248 255 c.

Definition is_word_opt (o : option ascii) : bool :=
  match o with Some c => is_word c | None => false end.

Definition next (s : string) : option ascii :=
  match s with String a _ => Some a | EmptyString => None end.

Definition at_boundary (c : cursor) : bool :=
  xorb (is_word_opt (prev c)) (is_word_opt (next (rest c))).

Definition may_take (n : nat) (hi : option nat) : bool :=
  match hi with None => true | Some h => (n <? h)%nat end.

(** Greedy repetition of a class: take as many as allowed, then give
    back one at a time until the continuation succeeds. *)
Fixpoint rep (p : ascii -> bool) (lo : nat) (hi : option nat) (n : nat)
    (ps : nat) (pv : option ascii) (s : string) (g : capture)
    (k : cursor -> capture -> outcome) : outcome :=
  let stop := if (lo <=? n)%nat then k (Cursor ps pv s) g else None in
  match s with
  | String a s' =>
      if p a && may_take n hi then
        match rep p lo hi (S n) (S ps) (Some a) s' g k with
        | Some x => Some x
        | None => stop
        end
      else stop
  | EmptyString => stop
  end.

Fixpoint run (r : regex) (c : cursor) (g : capture)
    (k : cursor -> capture -> outcome) : outcome :=
  match r with
  | Chr p =>
      match rest c with
      | String a s' =>
          if p a then k (Cursor (S (pos c)) (Some a) s') g else None
      | EmptyString => None
      end
  | WordB => if at_boundary c then k c g else None
  | Seq r1 r2 => run r1 c g (fun c' g' => run r2 c' g' k)
  | Alt r1 r2 =>
      match run r1 c g k with
      | Some x => Some x
      | None => run r2 c g k
      end
  | Opt r' =>
      match run r' c g k with
      | Some x => Some x
      | None => k c g
      end
  | Rep p lo hi => rep p lo hi 0 (pos c) (prev c) (rest c) g k
  | Group r' => run r' c g (fun c' _ => k c' (Some (pos c, pos c')))
  end.

(** [pattern.match] anchored at a cursor: end offset and group span. *)
Definition match_at (r : regex) (c : cursor) : outcome :=
  run r c None (fun c' g => Some (pos c', g)).

(** Left-to-right scan for non-overlapping matches; [skip] counts the
    characters still covered by the previous match. *)
Fixpoint scan (r : regex) (ps : nat) (pv : option ascii) (s : string)
    (skip : nat) : list (nat * nat * capture) :=
  match skip with
  | S k =>
      match s with
      | String a s' => scan r (S ps) (Some a) s' k
      | EmptyString => []
      end
  | O =>
      match match_at r (Cursor ps pv s) with
      | Some (e, g) =>
          (ps, e, g) ::
          match s with
          | String a s' => scan r (S ps) (Some a) s' (e - ps - 1)
          | EmptyString => []
          end
      | None =>
          match s with
          | String a s' => scan r (S ps) (Some a) s' 0
          | EmptyString => []
          end
      end
  end.

Fixpoint has_group (r : regex) : bool :=
  match r with
  | Chr _ | WordB | Rep _ _ _ => false
  | Seq r1 r2 | Alt r1 r2 => has_group r1 || has_group r2
  | Opt r' => has_group r'
  | Group _ => true
  end.

Definition slice (text : string) (a b : nat) : string :=
  substring a (b - a) text.

(** [pattern.findall(text)]: the whole match when the pattern has no
    group; with one group, the text of that group, empty when the
    group did not take part. *)
Definition findall (r : regex) (text : string) : list string :=
  map (fun m : nat * nat * capture =>
         let '(s, e, g) := m in
         if has_group r then
           match g with
           | Some (a, b) => slice text a b
           | None => EmptyString
           end
         else slice text s e)
      (scan r 0 None text 0).

(** [pattern.search(text) is not None] *)
Fixpoint search_from (r : regex) (ps : nat) (pv : option ascii)
    (s : string) : bool :=
  match match_at r (Cursor ps pv s) with
  | Some _ => true
  | None =>
      match s with
      | String a s' => search_from r (S ps) (Some a) s'
      | EmptyString => false
      end
  end.

Definition search (r : regex) (text : string) : bool :=
  search_from r 0 None text.

(** Abbreviations for writing the patterns. *)
Definition lit (a : ascii) : regex := Chr (Ascii.eqb a).
Definition one_of (cs : string) (c : ascii) : bool :=
  Py.any_char (Ascii.eqb c) cs.
Definition digit (c : ascii) : bool := Py.between 48 57 c.       (* \d *)
Definition upper (c : ascii) : bool := Py.between 65 90 c.       (* A-Z *)
Definition lowerc (c : ascii) : bool := Py.between 97 122 c.     (* a-z *)
Definition space (c : ascii) : bool := Py.isspace c.              (* \s *)
Definition plus (p : ascii -> bool) : regex := Rep p 1 None.
Definition exactly (p : ascii -> bool) (n : nat) : regex := Rep p n (Some n).
Definition opt_chr (p : ascii -> bool) : regex := Rep p 0 (Some 1%nat).

End Re.

(* ================================================================== *)
(** * class DataExtractionService *)
(* ================================================================== *)

Module DataExtractionService.
Import Py.

Definition nl : string := String "010" EmptyString.

(** An always-succeeding empty pattern, and concatenation of a list. *)
Definition eps : Re.regex := Re.Rep (fun _ => false) 0 (Some 0%nat).

Fixpoint cat (rs : list Re.regex) : Re.regex :=
  match rs with
  | [] => eps
  | [r] => r
  | r :: rs' => Re.Seq r (cat rs')
  end.

(** [[A-Za-z0-9._%+-]] *)
Definition email_local (c : ascii) : bool :=
  Re.upper c || Re.lowerc c || Re.digit c || Re.one_of "._%+-" c.
(** [[A-Za-z0-9.-]] *)
Definition email_domain (c : ascii) : bool :=
  Re.upper c || Re.lowerc c || Re.digit c || Re.one_of ".-" c.
(** [[A-Z|a-z]]: the bar is a member of the class. *)
Definition email_tld (c : ascii) : bool :=
  Re.upper c || Re.one_of "|" c || Re.lowerc c.
(** [[-.\s]] *)
Definition phone_sep (c : ascii) : bool := Re.one_of "-." c || Re.space c.
(** [[/-]] *)
Definition date_sep (c : ascii) : bool := Re.one_of "/-" c.

(** [r'\b[A-Za-z0-9._%+-]+@[A-Za-z0-9.-]+\.[A-Z|a-z]{2,}\b'] *)
Definition email_pattern : Re.regex :=
  cat [ Re.WordB; Re.plus email_local; Re.lit "@"; Re.plus email_domain;
        Re.lit "."; Re.Rep email_tld 2 None; Re.WordB ].

(** [r'(\+?\d{1,3}[-.\s]?)?\(?\d{3}\)?[-.\s]?\d{3}[-.\s]?\d{4}'] *)
Definition phone_pattern : Re.regex :=
  cat [ Re.Opt (Re.Group (cat [ Re.opt_chr (Ascii.eqb "+");
                                Re.Rep Re.digit 1 (Some 3%nat);
                                Re.opt_chr phone_sep ]));
        Re.opt_chr (Ascii.eqb "(");
        Re.exactly Re.digit 3;
        Re.opt_chr (Ascii.eqb ")");
        Re.opt_chr phone_sep;
        Re.exactly Re.digit 3;
        Re.opt_chr phone_sep;
        Re.exactly Re.digit 4 ].

(** [r'\b\d{1,2}[/-]\d{1,2}[/-]\d{2,4}\b|\b\d{4}[/-]\d{1,2}[/-]\d{1,2}\b'] *)
Definition date_pattern : Re.regex :=
  Re.Alt
    (cat [ Re.WordB; Re.Rep Re.digit 1 (Some 2%nat); Re.Chr date_sep;
           Re.Rep Re.digit 1 (Some 2%nat); Re.Chr date_sep;
           Re.Rep Re.digit 2 (Some 4%nat); Re.WordB ])
    (cat [ Re.WordB; Re.exactly Re.digit 4; Re.Chr date_sep;
           Re.Rep Re.digit 1 (Some 2%nat); Re.Chr date_sep;
           Re.Rep Re.digit 1 (Some 2%nat); Re.WordB ]).

Definition extract_contact_info (text : string) : dict :=
  let contact_info : dict := [] in
  let emails := Re.findall email_pattern text in
  let contact_info :=
    match emails with
    | e :: _ => setitem contact_info "email" (VStr e)
    | [] => contact_info
    end in
  let phones := Re.findall phone_pattern text in
  let contact_info :=
    match phones with
    | p :: _ => setitem contact_info "phone" (VStr p)
    | [] => contact_info
    end in
  contact_info.

(** The test of the two nested [if]s on a stripped line. *)
Definition looks_like_name (line : string) : bool :=
  (negb (line =? EmptyString)
   && (2 <=? List.length (split line))%nat
   && (String.length line <? 50)%nat)
  && (negb (any_char isdigit line) && negb (contains "@" line)).

(** [for line in lines[:5]: ... break] *)
Fixpoint name_loop (lines : list string) (personal_info : dict) : dict :=
  match lines with
  | [] => personal_info
  | line :: more =>
      let line := strip line in
      if looks_like_name line
      then setitem personal_info "full_name" (VStr line)
      else name_loop more personal_info
  end.

Definition extract_personal_info (text : string) : dict :=
  let lines := split_lines text in
  let personal_info : dict := [] in
  let personal_info := name_loop (firstn 5 lines) personal_info in
  let dates := Re.findall date_pattern text in
  let personal_info :=
    match dates with
    | _ :: _ => setitem personal_info "dates_found" (VList dates)
    | [] => personal_info
    end in
  personal_info.

Definition experience_keywords : list string :=
  ["experience"; "years"; "worked"; "employment"; "career"].
Definition skills_keywords : list string :=
  ["skills"; "technologies"; "programming"; "software"; "tools"].
Definition education_keywords : list string :=
  ["education"; "degree"; "university"; "college"; "bachelor"; "master";
   "phd"].

(** [any(keyword in line for keyword in keywords)] *)
Definition any_keyword (keywords : list string) (line : string) : bool :=
  existsb (fun keyword => contains keyword line) keywords.

Fixpoint skills_loop (lines : list string) (in_skills_section : bool)
    (skills : list string) : list string :=
  match lines with
  | [] => skills
  | line :: more =>
      if any_keyword skills_keywords line then skills_loop more true skills
      else if in_skills_section && negb (strip line =? EmptyString) then
        if any_keyword (education_keywords ++ experience_keywords) line
        then skills
        else skills_loop more in_skills_section (skills ++ [strip line])
      else skills_loop more in_skills_section skills
  end.

Fixpoint education_loop (lines : list string) (in_education_section : bool)
    (education : list string) : list string :=
  match lines with
  | [] => education
  | line :: more =>
      if any_keyword education_keywords line
      then education_loop more true (education ++ [strip line])
      else if in_education_section && negb (strip line =? EmptyString) then
        if any_keyword (skills_keywords ++ ["experience"]) line
        then education
        else education_loop more in_education_section
               (education ++ [strip line])
      else education_loop more in_education_section education
  end.

Definition extract_professional_info (text : string) : dict :=
  let professional_info : dict := [] in
  let lines := split_lines (lower text) in
  let skills := skills_loop lines false [] in
  let professional_info :=
    match skills with
    | _ :: _ => setitem professional_info "skills"
                  (VStr (join ", " (firstn 10 skills)))
    | [] => professional_info
    end in
  let education := education_loop lines false [] in
  let professional_info :=
    match education with
    | _ :: _ => setitem professional_info "education"
                  (VStr (join nl (firstn 5 education)))
    | [] => professional_info
    end in
  professional_info.

Definition extract_structured_data (text : string) : dict :=
  let extracted_data : dict := [] in
  let contact_info := extract_contact_info text in
  let personal_info := extract_personal_info text in
  let professional_info := extract_professional_info text in
  let extracted_data := update extracted_data contact_info in
  let extracted_data := update extracted_data personal_info in
  let extracted_data := update extracted_data professional_info in
  extracted_data.

End DataExtractionService.

(* ================================================================== *)
(** * Exceptions and the state-and-exception monad *)
(* ================================================================== *)

Inductive exn : Type :=
| ValueError (msg : string)
| FieldError (msg : string)        (* django.core.exceptions.FieldError *)
| LibraryError (msg : string).     (* anything a library call raises *)

(** [str(e)] *)
Definition str_of_exn (e : exn) : string :=
  match e with
  | ValueError msg | FieldError msg | LibraryError msg => msg
  end.

Inductive result (A : Type) : Type :=
| Ok (a : A)
| Raise (e : exn).
Arguments Ok {A} a.
Arguments Raise {A} e.

(** A computation over a mutable state [S]: it returns or raises, and the
    state it leaves behind is kept in both cases. *)
Definition M (S A : Type) : Type := S -> result A * S.

Section MonadOps.
Context {S : Type}.

Definition ret {A} (a : A) : M S A := fun s => (Ok a, s).

Definition raise {A} (e : exn) : M S A := fun s => (Raise e, s).

Definition bind {A B} (m : M S A) (f : A -> M S B) : M S B :=
  fun s =>
    match m s with
    | (Ok a, s') => f a s'
    | (Raise e, s') => (Raise e, s')
    end.

(** [try: body / except Exception as e: handler] *)
Definition try_except {A} (body : M S A) (handler : exn -> M S A) : M S A :=
  fun s =>
    match body s with
    | (Ok a, s') => (Ok a, s')
    | (Raise e, s') => handler e s'
    end.

Definition get : M S S := fun s => (Ok s, s).
Definition modify (f : S -> S) : M S unit := fun s => (Ok tt, f s).

(** The outcome of a library call, brought into the computation. *)
Definition call {A} (r : result A) : M S A := fun s => (r, s).

(** Run a computation over a part [T] of the state. *)
Definition zoom {T A} (proj : S -> T) (inj : T -> S -> S) (m : M T A)
  : M S A :=
  fun s => let (r, t) := m (proj s) in (r, inj t s).
End MonadOps.

Declare Scope monad_scope.
Delimit Scope monad_scope with monad.
Notation "x <- m ;; k" := (bind m (fun x => k))
  (at level 61, m at next level, right associativity) : monad_scope.
Notation "m ;;; k" := (bind m (fun _ => k))
  (at level 61, right associativity) : monad_scope.
Open Scope monad_scope.

(* ================================================================== *)
(** * models.py *)
(* ================================================================== *)

(** Opaque handles for a PIL image and a PDF page object. *)
Definition Image := nat.
Definition Page := nat.

(** [SCAN_STATUS] *)
Inductive scan_status_t : Type := pending | processing | completed | failed.

Module DocumentScan.
Record t : Type := Build
  { id : nat;
    original_document : string;            (* original_document.path *)
    extracted_text : option string;        (* null=True *)
    confidence_score : Q;
    scan_status : scan_status_t;
    error_message : option string;         (* null=True *)
    page_count : nat;
    processing_time : Q }.

Definition set_scan_status (v : scan_status_t) (d : t) : t :=
  Build (id d) (original_document d) (extracted_text d)
    (confidence_score d) v (error_message d) (page_count d)
    (processing_time d).
Definition set_extracted_text (v : string) (d : t) : t :=
  Build (id d) (original_document d) (Some v) (confidence_score d)
    (scan_status d) (error_message d) (page_count d) (processing_time d).
Definition set_confidence_score (v : Q) (d : t) : t :=
  Build (id d) (original_document d) (extracted_text d) v (scan_status d)
    (error_message d) (page_count d) (processing_time d).
Definition set_page_count (v : nat) (d : t) : t :=
  Build (id d) (original_document d) (extracted_text d)
    (confidence_score d) (scan_status d) (error_message d) v
    (processing_time d).
Definition set_processing_time (v : Q) (d : t) : t :=
  Build (id d) (original_document d) (extracted_text d)
    (confidence_score d) (scan_status d) (error_message d) (page_count d)
    v.
Definition set_error_message (v : string) (d : t) : t :=
  Build (id d) (original_document d) (extracted_text d)
    (confidence_score d) (scan_status d) (Some v) (page_count d)
    (processing_time d).
End DocumentScan.

Module ExtractedData.
(** A row is the dictionary of its column values; the columns a scan
    pipeline can write are the text ones. *)
Definition t := Py.dict.

(** Names [_meta.get_field] resolves, and the settable property [pk]:
    what [get_or_create] accepts as a key of [defaults]. *)
Definition field_names : list string :=
  [ "id"; "document_scan"; "document_scan_id";
    "full_name"; "email"; "phone"; "address"; "date_of_birth";
    "current_position"; "company"; "experience_years"; "skills";
    "education"; "certifications"; "additional_data";
    "created_at"; "updated_at"; "pk" ].

Definition is_field (name : string) : bool :=
  existsb (String.eqb name) field_names.

(** Columns of the data fields, all NULL: a row created with no
    defaults. *)
Definition blank : t :=
  map (fun name => (name, Py.VNone))
    [ "full_name"; "email"; "phone"; "address"; "date_of_birth";
      "current_position"; "company"; "experience_years"; "skills";
      "education"; "certifications" ].
End ExtractedData.

(** [GENERATION_STATUS] *)
Inductive generation_status_t : Type :=
| gen_pending | generating | gen_completed | gen_failed.

Module GeneratedCV.
Record t : Type := Build
  { id : nat;
    template_type : string;
    cv_file : option string;               (* stored path, when present *)
    application_form : option string;
    merged_document : option string;
    generation_status : generation_status_t;
    error_message : option string }.

Definition set_generation_status (v : generation_status_t) (c : t) : t :=
  Build (id c) (template_type c) (cv_file c) (application_form c)
    (merged_document c) v (error_message c).
Definition set_cv_file (v : string) (c : t) : t :=
  Build (id c) (template_type c) (Some v) (application_form c)
    (merged_document c) (generation_status c) (error_message c).
Definition set_application_form (v : string) (c : t) : t :=
  Build (id c) (template_type c) (cv_file c) (Some v) (merged_document c)
    (generation_status c) (error_message c).
Definition set_merged_document (v : string) (c : t) : t :=
  Build (id c) (template_type c) (cv_file c) (application_form c) (Some v)
    (generation_status c) (error_message c).
Definition set_error_message (v : string) (c : t) : t :=
  Build (id c) (template_type c) (cv_file c) (application_form c)
    (merged_document c) (generation_status c) (Some v).
End GeneratedCV.

(* ================================================================== *)
(** * The libraries, as oracles *)
(* ================================================================== *)

(** What the run can observe of its environment, in order. *)
Inductive event : Type :=
| PdfReader_opened (path : string)
| Rasterized (path : string) (dpi : nat)          (* convert_from_path *)
| Image_opened (path : string)                     (* Image.open *)
| Recognized (image : Image)                       (* pytesseract *)
| Scan_saved (d : DocumentScan.t)                  (* document_scan.save() *)
| Row_saved (row : ExtractedData.t)                (* ExtractedData save/create *)
| CV_saved (c : GeneratedCV.t).                    (* generated_cv.save() *)

Definition log := list event.

Definition emit {S} (proj : S -> log) (inj : log -> S -> S) (e : event)
  : M S unit :=
  modify (fun s => inj (proj s ++ [e])%list s).

Record World : Type :=
  { (* PyPDF2 *)
    PdfReader : string -> result (list Page);      (* PdfReader(path).pages *)
    extract_text : Page -> result string;          (* page.extract_text() *)
    (* pdf2image *)
    convert_from_path : string -> nat -> result (list Image);
    (* PIL *)
    Image_open : string -> result Image;
    (* cv2, numpy: the calls inside preprocess_image *)
    preprocess_image : Image -> result Image;
    (* pytesseract: the 'conf' column after int(), and the text *)
    image_to_data_conf : Image -> result (list Z);
    image_to_string : Image -> result string;
    (* reportlab: the two renderers, yielding the pages of their PDF *)
    _generate_modern_cv : ExtractedData.t -> result (list Page);
    generate_application_form : ExtractedData.t -> result (list Page);
    (* FieldFile storage: the path a new file of that name is stored at *)
    storage_save : string -> result string;
    (* time.time() - start_time *)
    elapsed : Q }.

(* ================================================================== *)
(** * os.path *)
(* ================================================================== *)

Module os_path.

Definition gt_index (dot sep : option nat) : bool :=
  match dot, sep with
  | None, _ => false
  | Some _, None => true
  | Some d, Some s => (s <? d)%nat
  end.

(** [posixpath.splitext]: the extension starts at the last dot of the
    last component, unless only dots precede it there. *)
Definition splitext (p : string) : string * string :=
  let sepIndex := Py.rfind "/" p in
  let dotIndex := Py.rfind "." p in
  if gt_index dotIndex sepIndex then
    let d := match dotIndex with Some d => d | None => 0%nat end in
    let filenameIndex :=
      match sepIndex with Some s => S s | None => 0%nat end in
    if Py.any_char (fun c => negb (Ascii.eqb c "."))
         (substring filenameIndex (d - filenameIndex) p)
    then (substring 0 d p, substring d (String.length p - d) p)
    else (p, EmptyString)
  else (p, EmptyString).

End os_path.

(* ================================================================== *)
(** * class OCRService *)
(* ================================================================== *)

Module OCRService.
Section WithWorld.
Variable w : World.

Definition nl : string := String "010" EmptyString.

Definition log_event (e : event) : M log unit :=
  emit (fun l => l) (fun l _ => l) e.

(** [sum(confidences) / len(confidences) if confidences else 0] *)
Definition average (confidences : list Z) : Q :=
  match confidences with
  | [] => 0%Q
  | _ :: _ =>
      (inject_Z (fold_left Z.add confidences 0%Z)
       / inject_Z (Z.of_nat (List.length confidences)))%Q
  end.

Definition extract_text_from_image (image : Image) : M log (string * Q) :=
  try_except
    (processed_image <- call (preprocess_image w image) ;;
     log_event (Recognized processed_image) ;;;
     data <- call (image_to_data_conf w processed_image) ;;
     let confidences := filter (fun conf => (0 <? conf)%Z) data in
     let avg_confidence := average confidences in
     text <- call (image_to_string w processed_image) ;;
     ret (Py.strip text, avg_confidence))
    (fun _ => ret (EmptyString, 0%Q)).

(** The local variables of [extract_text_from_pdf], and the log. *)
Record pdf_frame : Type := Frame
  { all_text : string;
    total_confidence : Q;
    page_count : nat;
    calls : log }.

Definition set_calls (l : log) (f : pdf_frame) : pdf_frame :=
  Frame (all_text f) (total_confidence f) (page_count f) l.
Definition set_page_count (n : nat) (f : pdf_frame) : pdf_frame :=
  Frame (all_text f) (total_confidence f) n (calls f).
Definition add_text (t : string) (f : pdf_frame) : pdf_frame :=
  Frame (all_text f ++ t) (total_confidence f) (page_count f) (calls f).
Definition add_confidence (c : Q) (f : pdf_frame) : pdf_frame :=
  Frame (all_text f) (total_confidence f + c)%Q (page_count f) (calls f).

Definition nonblank (s : string) : bool :=
  negb (Py.strip s =? EmptyString).

(** [for page in reader.pages: ...] *)
Fixpoint native_pages (pages : list Page) : M pdf_frame unit :=
  match pages with
  | [] => ret tt
  | page :: more =>
      text <- call (extract_text w page) ;;
      (if nonblank text then modify (add_text (text ++ nl)) else ret tt) ;;;
      native_pages more
  end.

(** The inner [try] block; [Some] is its [return]. *)
Definition native_phase (pdf_path : string)
  : M pdf_frame (option (string * Q * nat)) :=
  emit calls set_calls (PdfReader_opened pdf_path) ;;;
  pages <- call (PdfReader w pdf_path) ;;
  modify (set_page_count (List.length pages)) ;;;
  native_pages pages ;;;
  f <- get ;;
  if nonblank (all_text f)
  then ret (Some (Py.strip (all_text f), 95%Q, page_count f))
  else ret None.

(** [for i, image in enumerate(images): ...] *)
Fixpoint ocr_pages (images : list Image) (i : nat) : M pdf_frame unit :=
  match images with
  | [] => ret tt
  | image :: more =>
      r <- zoom calls set_calls (extract_text_from_image image) ;;
      modify (add_text (fst r ++ nl ++ "--- Page " ++ Py.str_of_nat (i + 1)
                        ++ " ---" ++ nl)) ;;;
      modify (add_confidence (snd r)) ;;;
      ocr_pages more (S i)
  end.

Definition pdf_body (pdf_path : string) : M pdf_frame (string * Q * nat) :=
  early <- try_except (native_phase pdf_path) (fun _ => ret None) ;;
  match early with
  | Some r => ret r
  | None =>
      emit calls set_calls (Rasterized pdf_path 300) ;;;
      images <- call (convert_from_path w pdf_path 300) ;;
      modify (set_page_count (List.length images)) ;;;
      ocr_pages images 0 ;;;
      f <- get ;;
      let avg_confidence :=
        match images with
        | [] => 0%Q
        | _ :: _ =>
            (total_confidence f
             / inject_Z (Z.of_nat (List.length images)))%Q
        end in
      ret (Py.strip (all_text f), avg_confidence, page_count f)
  end.

Definition extract_text_from_pdf (pdf_path : string)
  : M log (string * Q * nat) :=
  fun l =>
    let (r, f) :=
      try_except (pdf_body pdf_path)
        (fun _ => ret (EmptyString, 0%Q, 0%nat))
        (Frame EmptyString 0%Q 0 l) in
    (r, calls f).

Definition image_extensions : list string :=
  [".jpg"; ".jpeg"; ".png"; ".tiff"; ".bmp"].

Definition extract_text_from_document (document_path : string)
  : M log (string * Q * nat) :=
  let file_extension := Py.lower (snd (os_path.splitext document_path)) in
  if file_extension =? ".pdf" then extract_text_from_pdf document_path
  else if existsb (String.eqb file_extension) image_extensions then
    log_event (Image_opened document_path) ;;;
    image <- call (Image_open w document_path) ;;
    r <- extract_text_from_image image ;;
    ret (fst r, snd r, 1%nat)
  else raise (ValueError ("Unsupported file format: " ++ file_extension)).

End WithWorld.
End OCRService.

(* ================================================================== *)
(** * class CVGenerationService *)
(* ================================================================== *)

Module CVGenerationService.

Definition templates : list string :=
  ["modern"; "classic"; "professional"; "minimal"; "creative"].

(** Every entry of [self.templates] ends in [_generate_modern_cv]. *)
Definition generate_cv (w : World) (extracted_data : ExtractedData.t)
    (template_type : string) : result (list Page) :=
  let template_type :=
    if existsb (String.eqb template_type) templates
    then template_type else "modern" in
  _generate_modern_cv w extracted_data.

Section Merge.
(** [os.path.exists] and [PdfReader(path).pages] on the disk the
    merge runs against. *)
Variable path_exists : string -> bool.
Variable reader : string -> result (list Page).

(** [for page in reader.pages: writer.add_page(page)], the state
    being the pages of [writer]. *)
Fixpoint add_pages (pages : list Page) : M (list Page) unit :=
  match pages with
  | [] => ret tt
  | page :: more =>
      modify (fun writer => (writer ++ [page])%list) ;;; add_pages more
  end.

Definition merge_body (cv_path application_form_path
    original_doc_path : string) : M (list Page) (list Page) :=
  (if path_exists cv_path
   then cv_reader <- call (reader cv_path) ;; add_pages cv_reader
   else ret tt) ;;;
  (if path_exists application_form_path
   then app_reader <- call (reader application_form_path) ;;
        add_pages app_reader
   else ret tt) ;;;
  (if path_exists original_doc_path
      && Py.endswith original_doc_path ".pdf"
   then orig_reader <- call (reader original_doc_path) ;;
        add_pages orig_reader
   else ret tt) ;;;
  writer <- get ;;
  ret writer.

(** The bytes returned are those of a PDF with the writer's pages;
    they are identified with that page sequence. *)
Definition merge_documents (cv_path application_form_path
    original_doc_path : string) : result (list Page) :=
  fst (merge_body cv_path application_form_path original_doc_path []).
End Merge.

End CVGenerationService.

(* ================================================================== *)
(** * class DocumentProcessingService *)
(* ================================================================== *)

Module DocumentProcessingService.
Import Py.

(** ** process_document *)

(** The [document_scan] instance, the ExtractedData row of that scan
    (the relation is one-to-one) and the log. *)
Record pd_state : Type := PdState
  { document_scan : DocumentScan.t;
    table : option ExtractedData.t;
    history : log }.

Definition on_scan (f : DocumentScan.t -> DocumentScan.t) (s : pd_state)
  : pd_state := PdState (f (document_scan s)) (table s) (history s).
Definition set_table (row : ExtractedData.t) (s : pd_state) : pd_state :=
  PdState (document_scan s) (Some row) (history s).
Definition set_history (l : log) (s : pd_state) : pd_state :=
  PdState (document_scan s) (table s) l.

(** [document_scan.save()] *)
Definition save_scan : M pd_state unit :=
  s <- get ;; emit history set_history (Scan_saved (document_scan s)).

Fixpoint insert_sorted (x : string) (l : list string) : list string :=
  match l with
  | [] => [x]
  | y :: l' => if String.leb x y then x :: l else y :: insert_sorted x l'
  end.

(** [sorted(names)] *)
Definition sorted (names : list string) : list string :=
  fold_right insert_sorted [] names.

(** The keys of [defaults] that name no field of the model. *)
Definition invalid_keys (defaults : dict) : list string :=
  filter (fun name => negb (ExtractedData.is_field name)) (map fst defaults).

Definition field_error (invalid : list string) : exn :=
  FieldError ("Invalid field name(s) for model ExtractedData: '"
              ++ join "', '" (sorted invalid) ++ "'.").

(** [ExtractedData.objects.get_or_create(document_scan=..., defaults=...)]:
    the existing row, or a new one made of [defaults], whose keys must
    all name fields of the model. *)
Definition get_or_create (defaults : dict)
  : M pd_state (ExtractedData.t * bool) :=
  s <- get ;;
  match table s with
  | Some row => ret (row, false)
  | None =>
      match invalid_keys defaults with
      | _ :: _ => raise (field_error (invalid_keys defaults))
      | [] =>
          let row := update ExtractedData.blank defaults in
          modify (set_table row) ;;;
          emit history set_history (Row_saved row) ;;;
          ret (row, true)
      end
  end.

(** [hasattr(extracted_data, key)] on the keys the extractor yields:
    the model's fields are attributes, [dates_found] is not. *)
Definition hasattr (extracted_data : ExtractedData.t) (key : string)
  : bool := ExtractedData.is_field key.

(** [for key, value in structured_data.items(): ...] *)
Fixpoint update_fields (items : dict) (extracted_data : ExtractedData.t)
  : ExtractedData.t :=
  match items with
  | [] => extracted_data
  | (key, value) :: more =>
      if hasattr extracted_data key && truthy value
      then update_fields more (setitem extracted_data key value)
      else update_fields more extracted_data
  end.

Definition process_document (w : World) : M pd_state bool :=
  try_except
    (modify (on_scan (DocumentScan.set_scan_status processing)) ;;;
     save_scan ;;;
     s <- get ;;
     let document_path :=
       DocumentScan.original_document (document_scan s) in
     r <- zoom history set_history
            (OCRService.extract_text_from_document w document_path) ;;
     let '(text, confidence, page_count) := r in
     modify (on_scan (DocumentScan.set_extracted_text text)) ;;;
     modify (on_scan (DocumentScan.set_confidence_score confidence)) ;;;
     modify (on_scan (DocumentScan.set_page_count page_count)) ;;;
     modify (on_scan (DocumentScan.set_processing_time (elapsed w))) ;;;
     modify (on_scan (DocumentScan.set_scan_status completed)) ;;;
     save_scan ;;;
     let structured_data :=
       DataExtractionService.extract_structured_data text in
     rc <- get_or_create structured_data ;;
     let '(extracted_data, created) := rc in
     (if negb created then
        let extracted_data := update_fields structured_data extracted_data in
        modify (set_table extracted_data) ;;;
        emit history set_history (Row_saved extracted_data)
      else ret tt) ;;;
     ret true)
    (fun e =>
       modify (on_scan (DocumentScan.set_scan_status failed)) ;;;
       modify (on_scan (DocumentScan.set_error_message (str_of_exn e))) ;;;
       save_scan ;;;
       ret false).

(** ** generate_cv_and_forms *)

(** The media storage: what [PdfReader] finds at a path, if anything. *)
Definition disk := string -> option (result (list Page)).

Definition disk_exists (d : disk) (path : string) : bool :=
  match d path with Some _ => true | None => false end.

Definition disk_reader (d : disk) (path : string) : result (list Page) :=
  match d path with
  | Some r => r
  | None => Raise (LibraryError "No such file or directory")
  end.

Definition disk_write (path : string) (content : list Page) (d : disk)
  : disk := fun p => if String.eqb p path then Some (Ok content) else d p.

Record gen_state : Type := GenState
  { generated_cv : GeneratedCV.t;
    files : disk;
    saves : log }.

Definition on_cv (f : GeneratedCV.t -> GeneratedCV.t) (s : gen_state)
  : gen_state := GenState (f (generated_cv s)) (files s) (saves s).
Definition on_files (f : disk -> disk) (s : gen_state) : gen_state :=
  GenState (generated_cv s) (f (files s)) (saves s).
Definition set_saves (l : log) (s : gen_state) : gen_state :=
  GenState (generated_cv s) (files s) l.

(** [generated_cv.save()] *)
Definition save_cv : M gen_state unit :=
  s <- get ;; emit saves set_saves (CV_saved (generated_cv s)).

(** [generated_cv.<slot>.save(name, ContentFile(content))]: store the
    file, point the slot at it, save the instance. *)
Definition field_save (w : World)
    (slot : string -> GeneratedCV.t -> GeneratedCV.t)
    (name : string) (content : list Page) : M gen_state unit :=
  path <- call (storage_save w name) ;;
  modify (on_files (disk_write path content)) ;;;
  modify (on_cv (slot path)) ;;;
  save_cv.

(** [<slot>.path]: a [ValueError] when the slot holds no file. *)
Definition path_of (slot : option string) : result string :=
  match slot with
  | Some p => Ok p
  | None =>
      Raise (ValueError "The attribute has no file associated with it.")
  end.

(** [generated_cv.source_document.extracted_data]: the reverse
    one-to-one accessor raises when there is no row. *)
Definition related_extracted_data (row : option ExtractedData.t)
  : result ExtractedData.t :=
  match row with
  | Some r => Ok r
  | None => Raise (LibraryError "DocumentScan has no extracted_data.")
  end.

Definition generate_cv_and_forms (w : World)
    (source_document : DocumentScan.t)
    (source_row : option ExtractedData.t) : M gen_state bool :=
  try_except
    (modify (on_cv (GeneratedCV.set_generation_status generating)) ;;;
     save_cv ;;;
     extracted_data <- call (related_extracted_data source_row) ;;
     s <- get ;;
     let cv_id := str_of_nat (GeneratedCV.id (generated_cv s)) in
     cv_pdf <- call (CVGenerationService.generate_cv w extracted_data
                       (GeneratedCV.template_type (generated_cv s))) ;;
     let cv_filename := "cv_" ++ cv_id ++ ".pdf" in
     field_save w GeneratedCV.set_cv_file cv_filename cv_pdf ;;;
     app_form_pdf <- call (generate_application_form w extracted_data) ;;
     let app_filename := "application_" ++ cv_id ++ ".pdf" in
     field_save w GeneratedCV.set_application_form app_filename
       app_form_pdf ;;;
     s <- get ;;
     cv_path <- call (path_of (GeneratedCV.cv_file (generated_cv s))) ;;
     app_path <-
       call (path_of (GeneratedCV.application_form (generated_cv s))) ;;
     merged_pdf <-
       call (CVGenerationService.merge_documents
               (disk_exists (files s)) (disk_reader (files s))
               cv_path app_path
               (DocumentScan.original_document source_document)) ;;
     let merged_filename := "merged_" ++ cv_id ++ ".pdf" in
     field_save w GeneratedCV.set_merged_document merged_filename
       merged_pdf ;;;
     modify (on_cv (GeneratedCV.set_generation_status gen_completed)) ;;;
     save_cv ;;;
     ret true)
    (fun e =>
       modify (on_cv (GeneratedCV.set_generation_status gen_failed)) ;;;
       modify (on_cv (GeneratedCV.set_error_message (str_of_exn e))) ;;;
       save_cv ;;;
       ret false).

End DocumentProcessingService.

(* ================================================================== *)
(** * Observations on a run, and the specification's own notions *)
(* ================================================================== *)

Module Spec.
Import Py.

(** The statuses [document_scan.save()] wrote, in order. *)
Fixpoint saved_statuses (l : log) : list scan_status_t :=
  match l with
  | [] => []
  | Scan_saved d :: l' => DocumentScan.scan_status d :: saved_statuses l'
  | _ :: l' => saved_statuses l'
  end.

(** A computation whose state holds a log is quiet when it saves no
    DocumentScan: the OCR adapter is. *)
Definition quiet {S A : Type} (proj : S -> log) (m : M S A) : Prop :=
  forall s, saved_statuses (proj (snd (m s))) = saved_statuses (proj s).

(** The versions of the GeneratedCV row that were saved, in order. *)
Fixpoint saved_cvs (l : log) : list GeneratedCV.t :=
  match l with
  | [] => []
  | CV_saved c :: l' => c :: saved_cvs l'
  | _ :: l' => saved_cvs l'
  end.

(** The scan as the success path of [process_document] leaves it. *)
Definition scan_completed (w : World) (d : DocumentScan.t)
    (text : string) (confidence : Q) (page_count : nat) : DocumentScan.t :=
  DocumentScan.set_scan_status completed
    (DocumentScan.set_processing_time (elapsed w)
       (DocumentScan.set_page_count page_count
          (DocumentScan.set_confidence_score confidence
             (DocumentScan.set_extracted_text text
                (DocumentScan.set_scan_status processing d))))).

(** The scan as the [except] handler leaves it. *)
Definition scan_failed (d : DocumentScan.t) (e : exn) : DocumentScan.t :=
  DocumentScan.set_error_message (str_of_exn e)
    (DocumentScan.set_scan_status failed d).

Definition populated (slot : option string) : Prop := slot <> None.

(** The generation order on the three file slots of a row. *)
Definition ordered (c : GeneratedCV.t) : Prop :=
  (populated (GeneratedCV.merged_document c) ->
   populated (GeneratedCV.application_form c))
  /\ (populated (GeneratedCV.application_form c) ->
      populated (GeneratedCV.cv_file c)).

(** The row as the handler of [generate_cv_and_forms] leaves it. *)
Definition generation_failed (e : exn) (c : GeneratedCV.t) : GeneratedCV.t :=
  GeneratedCV.set_error_message (str_of_exn e)
    (GeneratedCV.set_generation_status gen_failed c).

(** Arithmetic mean of a list of rationals, [0] for the empty list. *)
Definition mean (l : list Q) : Q :=
  match l with
  | [] => 0%Q
  | _ :: _ =>
      (fold_right Qplus 0 l / inject_Z (Z.of_nat (List.length l)))%Q
  end.

(** The text layer of a PDF: the non-blank page texts, one per line. *)
Fixpoint text_layer (texts : list string) : string :=
  match texts with
  | [] => EmptyString
  | t :: more =>
      if OCRService.nonblank t
      then (t ++ OCRService.nl) ++ text_layer more
      else text_layer more
  end.

(** The PDF opens and every page yields its text. *)
Definition readable (w : World) (path : string) (pages : list Page)
    (texts : list string) : Prop :=
  PdfReader w path = Ok pages
  /\ Forall2 (fun page t => extract_text w page = Ok t) pages texts.

(** What one page contributes when OCRed, and what it logs. *)
Definition page_result (w : World) (image : Image) : string * Q :=
  match fst (OCRService.extract_text_from_image w image []) with
  | Ok r => r
  | Raise _ => (EmptyString, 0%Q)
  end.
Definition page_events (w : World) (image : Image) : log :=
  snd (OCRService.extract_text_from_image w image []).

(** The name heuristic in the specification's words, on a line. *)
Definition name_candidate (line : string) : Prop :=
  (2 <= List.length (split line))%nat
  /\ (String.length line < 50)%nat
  /\ (forall c, In c (list_ascii_of_string line) -> isdigit c = false)
  /\ ~ In "@"%char (list_ascii_of_string line).

(** The name heuristic as the specification words it: the first
    candidate among the first five non-empty lines. *)
Definition full_name_of_first_five_nonempty (text : string)
  : option string :=
  find DataExtractionService.looks_like_name
    (firstn 5
       (filter (fun line => negb (line =? EmptyString))
          (map strip (split_lines text)))).

(** The confidence the specification words: the mean of the reported
    values that are non-negative. *)
Definition mean_of_nonnegative (data : list Z) : Q :=
  mean (map inject_Z (filter (fun conf => (0 <=? conf)%Z) data)).

End Spec.

(** Concrete inputs used by the examples below. *)
Module Sample.
Definition nl := DataExtractionService.nl.

Definition jane : string :=
  "Jane Doe" ++ nl ++ "jane@x.com" ++ nl ++ "555-123-4567" ++ nl
  ++ "Skills: Python, SQL".

Definition jane_data : Py.dict :=
  DataExtractionService.extract_structured_data jane.

Definition born : string := "Jane Doe" ++ nl ++ "Born 01/02/1990".

Definition late_name : string :=
  nl ++ nl ++ nl ++ nl ++ nl ++ "Jane Doe".

(** A library environment: [resume.pdf] has one page of selectable
    text, every other PDF fails to open, every image fails to open. *)
Definition world (page_text : string) (conf : list Z) : World :=
  {| PdfReader := fun p =>
       if p =? "resume.pdf" then Ok [1%nat]
       else Raise (LibraryError "EOF marker not found");
     extract_text := fun _ => Ok page_text;
     convert_from_path := fun _ _ => Ok [7%nat; 8%nat];
     Image_open := fun p =>
       if p =? "photo.jpg" then Ok 3%nat
       else Raise (LibraryError "cannot identify image file");
     preprocess_image := fun i => Ok i;
     image_to_data_conf := fun _ => Ok conf;
     image_to_string := fun _ => Ok " page ";
     _generate_modern_cv := fun _ => Ok [10%nat; 11%nat];
     generate_application_form := fun _ => Ok [12%nat];
     storage_save := fun name => Ok ("media/" ++ name);
     elapsed := 1%Q |}.

Definition scan (path : string) : DocumentScan.t :=
  DocumentScan.Build 1 path None 0%Q pending None 1 0%Q.

(** A scan of [resume.pdf] with no ExtractedData row yet, and one with
    a hand-edited row. *)
Definition first_run : DocumentProcessingService.pd_state :=
  DocumentProcessingService.PdState (scan "resume.pdf") None [].

Definition stored_row : ExtractedData.t :=
  Py.setitem (Py.setitem ExtractedData.blank "skills" (Py.VStr "Python"))
    "phone" (Py.VStr "555-123-4567").

Definition rerun : DocumentProcessingService.pd_state :=
  DocumentProcessingService.PdState (scan "resume.pdf") (Some stored_row) [].


Definition fresh_cv : GeneratedCV.t :=
  GeneratedCV.Build 5 "modern" None None None gen_pending None.
End Sample.

(* ================================================================== *)
(** * What a pattern can match *)
(* ================================================================== *)

Module Lang.

(** [all(p(ch) for ch in s)] *)
Fixpoint all_chars (p : ascii -> bool) (s : string) : bool :=
  match s with
  | EmptyString => true
  | String c s' => p c && all_chars p s'
  end.

Definition within (hi : option nat) (n : nat) : Prop :=
  match hi with
  | None => True
  | Some h => (n <= h)%nat
  end.

(** The texts a pattern can consume, the word boundaries left aside. *)
Inductive matches : Re.regex -> string -> Prop :=
| MChr (p : ascii -> bool) (a : ascii) :
    p a = true -> matches (Re.Chr p) (String a EmptyString)
| MWordB : matches Re.WordB EmptyString
| MSeq (r1 r2 : Re.regex) (s1 s2 : string) :
    matches r1 s1 -> matches r2 s2 -> matches (Re.Seq r1 r2) (s1 ++ s2)
| MAltL (r1 r2 : Re.regex) (s : string) :
    matches r1 s -> matches (Re.Alt r1 r2) s
| MAltR (r1 r2 : Re.regex) (s : string) :
    matches r2 s -> matches (Re.Alt r1 r2) s
| MOptSome (r : Re.regex) (s : string) :
    matches r s -> matches (Re.Opt r) s
| MOptNone (r : Re.regex) : matches (Re.Opt r) EmptyString
| MRep (p : ascii -> bool) (lo : nat) (hi : option nat) (s : string) :
    all_chars p s = true -> (lo <= String.length s)%nat ->
    within hi (String.length s) -> matches (Re.Rep p lo hi) s
| MGroup (r : Re.regex) (s : string) :
    matches r s -> matches (Re.Group r) s.

(** The two parts of the phone pattern: the optional group and what
    follows it. *)
Definition country_code : Re.regex :=
  DataExtractionService.cat
    [ Re.opt_chr (Ascii.eqb "+"); Re.Rep Re.digit 1 (Some 3%nat);
      Re.opt_chr DataExtractionService.phone_sep ].

Definition national_number : Re.regex :=
  DataExtractionService.cat
    [ Re.opt_chr (Ascii.eqb "(");
      Re.exactly Re.digit 3;
      Re.opt_chr (Ascii.eqb ")");
      Re.opt_chr DataExtractionService.phone_sep;
      Re.exactly Re.digit 3;
      Re.opt_chr DataExtractionService.phone_sep;
      Re.exactly Re.digit 4 ].

(** A run of digits of a length between two bounds. *)
Definition digits (lo hi : nat) (s : string) : Prop :=
  all_chars Re.digit s = true
  /\ (lo <= String.length s)%nat /\ (String.length s <= hi)%nat.

(** local@domain.tld *)
Definition email_shaped (s : string) : Prop :=
  exists local domain tld,
    s = local ++ "@" ++ domain ++ "." ++ tld
    /\ all_chars DataExtractionService.email_local local = true
    /\ (1 <= String.length local)%nat
    /\ all_chars DataExtractionService.email_domain domain = true
    /\ (1 <= String.length domain)%nat
    /\ all_chars DataExtractionService.email_tld tld = true
    /\ (2 <= String.length tld)%nat.

(** The optional country-code group of the phone pattern: an optional
    plus sign, one to three digits, an optional separator. *)
Definition country_code_shaped (s : string) : Prop :=
  exists sign code sep,
    s = sign ++ code ++ sep
    /\ (sign = EmptyString \/ sign = "+")
    /\ digits 1 3 code
    /\ (sep = EmptyString
        \/ exists c, sep = String c EmptyString
                     /\ DataExtractionService.phone_sep c = true).

(** Day/month/year or year/month/day, with a slash or a hyphen. *)
Definition date_shaped (s : string) : Prop :=
  exists a b c s1 s2,
    s = a ++ String s1 EmptyString ++ b ++ String s2 EmptyString ++ c
    /\ DataExtractionService.date_sep s1 = true
    /\ DataExtractionService.date_sep s2 = true
    /\ ((digits 1 2 a /\ digits 1 2 b /\ digits 2 4 c)
        \/ (digits 4 4 a /\ digits 1 2 b /\ digits 1 2 c)).

End Lang.

(* ================================================================== *)
(** * What the keyword runs collect *)
(* ================================================================== *)

Module Runs.
Import Py DataExtractionService.

(** An entry of the skills run: a stripped non-blank line of the text
    that carries none of the keywords. *)
Definition skill_entry (lines : list string) (entry : string) : Prop :=
  entry <> EmptyString
  /\ exists line,
      In line lines /\ entry = strip line
      /\ any_keyword
           (skills_keywords ++ education_keywords ++ experience_keywords)%list
           line = false.

End Runs.

(* ================================================================== *)
(** * Uploads: forms.py and the upload paths of models.py *)
(* ================================================================== *)

Module Upload.

(** [s.split('.')] *)
Fixpoint split_dots (s : string) : list string :=
  match s with
  | EmptyString => [EmptyString]
  | String c s' =>
      if Ascii.eqb c "." then EmptyString :: split_dots s'
      else match split_dots s' with
           | l :: ls => String c l :: ls
           | [] => [String c EmptyString]
           end
  end.

(** [filename.split('.')[-1]] *)
Definition last_piece (filename : string) : string :=
  last (split_dots filename) EmptyString.

(** [posixpath.join] with one more component. *)
Definition join2 (path b : string) : string :=
  if Py.startswith b "/" then b
  else if (path =? EmptyString) || Py.endswith path "/" then path ++ b
  else path ++ "/" ++ b.

(** [os.path.join(a, *p)] *)
Definition join (a : string) (p : list string) : string :=
  fold_left join2 p a.

(** [str(uuid.uuid4())]: hexadecimal digits and hyphens. *)
Definition is_uuid (s : string) : bool :=
  negb (s =? EmptyString)
  && Lang.all_chars (Re.one_of "0123456789abcdef-") s.

(** [document_upload_path(instance, filename)], given the user id and
    the fresh identifier. *)
Definition document_upload_path (user_id : nat) (uuid filename : string)
  : string :=
  let ext := last_piece filename in
  let filename := uuid ++ "." ++ ext in
  join "documents" [Py.str_of_nat user_id; filename].

(** [cv_upload_path(instance, filename)] *)
Definition cv_upload_path (user_id : nat) (uuid filename : string)
  : string :=
  let ext := last_piece filename in
  let filename := "cv_" ++ uuid ++ "." ++ ext in
  join "generated_cvs" [Py.str_of_nat user_id; filename].

(** [FieldFile.path]: the stored name under the media root. *)
Definition media_path (media_root name : string) : string :=
  join media_root [name].

(** An uploaded file, as the form sees it. *)
Record uploaded_file : Type := File { name : string; size : N }.

(** The outcome of a [clean_<field>] method. *)
Inductive cleaned (A : Type) : Type :=
| Cleaned (a : A)
| ValidationError (msg : string).
Arguments Cleaned {A} a.
Arguments ValidationError {A} msg.

Definition allowed_extensions : list string :=
  ["pdf"; "jpg"; "jpeg"; "png"; "tiff"; "bmp"].

(** [DocumentUploadForm.clean_original_document]; a file object is
    truthy when its name is not empty. *)
Definition clean_original_document (file : option uploaded_file)
  : cleaned (option uploaded_file) :=
  match file with
  | Some f =>
      if negb (name f =? EmptyString) then
        if (10 * 1024 * 1024 <? size f)%N
        then ValidationError "File size cannot exceed 10MB."
        else
          let file_extension := Py.lower (last_piece (name f)) in
          if negb (existsb (String.eqb file_extension) allowed_extensions)
          then ValidationError
                 ("File type '" ++ file_extension ++ "' is not supported.")
          else Cleaned file
      else Cleaned file
  | None => Cleaned file
  end.

End Upload.

(* ================================================================== *)
(** * tasks.py

    The job runner's entry points. Time stamps of jobs and the bodies of
    the e-mails are left out; what is kept of an e-mail is that it was
    sent, with its subject. *)
(* ================================================================== *)

Module Tasks.
Import DocumentProcessingService.

(** [JOB_STATUS] *)
Inductive job_status_t : Type :=
| queued | job_processing | job_completed | job_failed | cancelled.

Inductive notification_type_t : Type :=
| n_info | n_success | n_warning | n_error.

Record Notification : Type := Notify
  { title : string;
    message : string;
    notification_type : notification_type_t }.

(** The fields of [core.models.Notification]; the user it is for is
    [recipient]. *)
Definition notification_fields : list string :=
  ["id"; "recipient"; "title"; "message"; "notification_type"; "is_read";
   "created_at"].

(** The keywords [Model.__init__] takes: a field name, the attribute name
    of the foreign key, or [pk]. *)
Definition accepted_keyword (k : string) : bool :=
  existsb (String.eqb k) (notification_fields ++ ["recipient_id"; "pk"]).

Definition unexpected_keywords (kwargs : list string) : list string :=
  filter (fun k => negb (accepted_keyword k)) kwargs.

(** The [TypeError] of [Model.__init__] on keywords it does not take, as
    Django 4.1 and later word it. *)
Definition unexpected_keyword_error (ks : list string) : exn :=
  LibraryError
    ("Notification() got unexpected keyword arguments: "
     ++ Py.join ", " (map (fun k => "'" ++ k ++ "'") ks)).

(** [Notification.objects.create] with keyword arguments, given the
    names of the keywords and the row they describe: the instance is
    built first, and [Model.__init__] raises on a keyword it does not
    take; only then is the row inserted, which needs a recipient. [add]
    stores the row. *)
Definition Notification_objects_create {S : Type}
    (add : Notification -> S -> S) (kwargs : list string)
    (n : Notification) : M S unit :=
  match unexpected_keywords kwargs with
  | [] =>
      if existsb (fun k => (k =? "recipient") || (k =? "recipient_id"))%string
           kwargs
      then modify (add n)
      else raise (LibraryError
                    "NOT NULL constraint failed: core_notification.recipient_id")
  | ks => raise (unexpected_keyword_error ks)
  end.

Record Job : Type := MkJob
  { job_type : string;
    status : job_status_t;
    progress_percentage : nat;
    error_details : option string;
    (* confidence_score, page_count, processing_time *)
    result_data : option (Q * nat * Q) }.

Definition set_status (v : job_status_t) (j : Job) : Job :=
  MkJob (job_type j) v (progress_percentage j) (error_details j)
    (result_data j).
Definition set_progress (v : nat) (j : Job) : Job :=
  MkJob (job_type j) (status j) v (error_details j) (result_data j).
Definition set_error_details (v : option string) (j : Job) : Job :=
  MkJob (job_type j) (status j) (progress_percentage j) v (result_data j).
Definition set_result_data (v : Q * nat * Q) (j : Job) : Job :=
  MkJob (job_type j) (status j) (progress_percentage j) (error_details j)
    (Some v).

(** A double quote, for the messages. *)
Definition quote : string := String (ascii_of_nat 34) EmptyString.

(** The scan and its row, the [job] variable when bound, and what was
    written: the saved versions of the job, the notifications created,
    the subjects of the e-mails sent. *)
Record task_state : Type := TaskState
  { document : pd_state;
    job : option Job;
    job_saves : list Job;
    notifications : list Notification;
    emails : list string }.

Definition set_document (d : pd_state) (s : task_state) : task_state :=
  TaskState d (job s) (job_saves s) (notifications s) (emails s).
Definition on_job (f : Job -> Job) (s : task_state) : task_state :=
  TaskState (document s) (option_map f (job s)) (job_saves s)
    (notifications s) (emails s).
Definition bind_job (j : Job) (s : task_state) : task_state :=
  TaskState (document s) (Some j) (job_saves s) (notifications s)
    (emails s).
Definition add_job_save (j : Job) (s : task_state) : task_state :=
  TaskState (document s) (job s) (job_saves s ++ [j])%list
    (notifications s) (emails s).
Definition add_notification (n : Notification) (s : task_state)
  : task_state :=
  TaskState (document s) (job s) (job_saves s) (notifications s ++ [n])%list
    (emails s).
Definition add_email (subject : string) (s : task_state) : task_state :=
  TaskState (document s) (job s) (job_saves s) (notifications s)
    (emails s ++ [subject])%list.

(** [job.save()]; a [NameError] when [job] was never bound. *)
Definition save_job : M task_state unit :=
  s <- get ;;
  match job s with
  | Some j => modify (add_job_save j)
  | None => raise (LibraryError "name 'job' is not defined")
  end.

(** [process_document_async(document_scan_id)]. [found] tells whether
    [DocumentScan.objects.get] finds the scan, which is then the one in
    the state; [name] is [original_document.name]; [send_email] is the
    test on the settings. The lookup is the first statement of the [try]
    and its [DoesNotExist] clause only returns [False]. Both
    notifications are created with the keyword [user], which the model
    does not have. *)
Definition process_document_async (w : World) (found : bool)
    (name : string) (send_email : bool) : M task_state bool :=
  if negb found then ret false
  else
    try_except
      (modify (bind_job (MkJob "scan" job_processing 0 None None)) ;;;
       save_job ;;;
       modify (on_job (set_progress 10)) ;;;
       save_job ;;;
       modify (on_job (set_progress 30)) ;;;
       save_job ;;;
       success <- zoom document set_document (process_document w) ;;
       s <- get ;;
       let document_scan := document_scan (document s) in
       (if success : bool then
          modify (on_job (set_status job_completed)) ;;;
          modify (on_job (set_progress 100)) ;;;
          modify (on_job (set_result_data
                            (DocumentScan.confidence_score document_scan,
                             DocumentScan.page_count document_scan,
                             DocumentScan.processing_time document_scan))) ;;;
          Notification_objects_create add_notification
            ["user"; "title"; "message"; "notification_type"]
            (Notify "Document Processing Complete"
               ("Your document " ++ quote ++ name ++ quote
                ++ " has been processed successfully.")
               n_success) ;;;
          (if send_email
           then modify (add_email "Document Processing Complete")
           else ret tt)
        else
          modify (on_job (set_status job_failed)) ;;;
          modify (on_job (set_error_details
                            (DocumentScan.error_message document_scan))) ;;;
          Notification_objects_create add_notification
            ["user"; "title"; "message"; "notification_type"]
            (Notify "Document Processing Failed"
               ("Failed to process document " ++ quote ++ name
                ++ quote ++ ". Please try again.")
               n_error)) ;;;
       save_job ;;;
       ret success)
      (fun e =>
         try_except
           (modify (on_job (set_status job_failed)) ;;;
            modify (on_job (set_error_details (Some (str_of_exn e)))) ;;;
            save_job)
           (fun _ => ret tt) ;;;
         ret false).

(** The four assignments that reset a scan before it is processed
    again, in [batch_reprocess_documents] and in the [reprocess_document]
    view. *)
Definition reset (d : DocumentScan.t) : DocumentScan.t :=
  DocumentScan.set_error_message EmptyString
    (DocumentScan.set_confidence_score 0%Q
       (DocumentScan.set_extracted_text EmptyString
          (DocumentScan.set_scan_status pending d))).

(** Reset, save, process: the body of the batch loop. *)
Definition reprocess (w : World) : M pd_state bool :=
  modify (on_scan reset) ;;;
  save_scan ;;;
  process_document w.








End Tasks.

(* ================================================================== *)
(** * Dictionaries *)
(* ================================================================== *)

Section DictFacts.
Import Py.

Lemma lookup_setitem_same (d : dict) (k : string) (v : value) :
  lookup (setitem d k v) k = Some v.
Proof.
  induction d as [|[k' v'] d IH]; simpl.
  - now rewrite String.eqb_refl.
  - destruct (String.eqb k k') eqn:E; simpl; rewrite E; auto.
Qed.

Lemma lookup_setitem_other (d : dict) (k k' : string) (v : value) :
  k <> k' -> lookup (setitem d k v) k' = lookup d k'.
Proof.
  intros Hne. induction d as [|[k0 v0] d IH]; simpl.
  - destruct (String.eqb k' k) eqn:E; auto.
    apply String.eqb_eq in E. congruence.
  - destruct (String.eqb k k0) eqn:E; simpl.
    + apply String.eqb_eq in E. subst k0.
      destruct (String.eqb k' k) eqn:E'; auto.
      apply String.eqb_eq in E'. congruence.
    + destruct (String.eqb k' k0); auto.
Qed.

Lemma lookup_setitem (d : dict) (k k' : string) (v : value) :
  lookup (setitem d k v) k' =
  if String.eqb k k' then Some v else lookup d k'.
Proof.
  destruct (String.eqb k k') eqn:E.
  - apply String.eqb_eq in E. subst. apply lookup_setitem_same.
  - apply String.eqb_neq in E. now apply lookup_setitem_other.
Qed.
End DictFacts.

(* ================================================================== *)
(** * The field extractor *)
(* ================================================================== *)

Section ExtractorFacts.
Import Py DataExtractionService.

Lemma any_char_true (p : ascii -> bool) (s : string) :
  any_char p s = true <->
  exists c, In c (list_ascii_of_string s) /\ p c = true.
Proof.
  induction s as [|a s IH]; simpl.
  - split; [discriminate | intros (c & [] & _)].
  - rewrite orb_true_iff, IH. split.
    + intros [H | (c & Hin & Hp)]; [exists a | exists c]; auto.
    + intros (c & [-> | Hin] & Hp); [left | right; exists c]; auto.
Qed.

Lemma contains_at (s : string) :
  contains "@" s = true <-> In "@"%char (list_ascii_of_string s).
Proof.
  induction s as [|a s IH].
  - simpl. split; [discriminate | tauto].
  - change (contains "@" (String a s))
      with ((Ascii.eqb "@" a && true) || contains "@" s).
    rewrite orb_true_iff, andb_true_r, IH, Ascii.eqb_eq. simpl. intuition auto.
Qed.

(** The two nested tests of the name loop say what the specification
    says of a candidate line. *)
Lemma looks_like_name_iff (line : string) :
  looks_like_name line = true <-> Spec.name_candidate line.
Proof.
  unfold looks_like_name, Spec.name_candidate.
  rewrite !andb_true_iff, !negb_true_iff, Nat.leb_le, Nat.ltb_lt.
  split.
  - intros [[[_ H2] H3] [H4 H5]]. repeat split; auto.
    + intros c Hc. destruct (isdigit c) eqn:E; auto.
      assert (any_char isdigit line = true) as X
          by (apply any_char_true; eauto).
      congruence.
    + intros Hin. apply contains_at in Hin. congruence.
  - intros (H2 & H3 & H4 & H5). repeat split; auto.
    + destruct line; [simpl in H2; lia | reflexivity].
    + destruct (any_char isdigit line) eqn:E; auto.
      apply any_char_true in E as (c & Hin & Hc).
      rewrite (H4 c Hin) in Hc. discriminate.
    + destruct (contains "@" line) eqn:E; auto.
      apply contains_at in E. contradiction.
Qed.

Lemma name_loop_first (lines : list string) :
  forall i line,
    nth_error lines i = Some line ->
    looks_like_name (strip line) = true ->
    (forall j l, (j < i)%nat -> nth_error lines j = Some l ->
                 looks_like_name (strip l) = false) ->
    name_loop lines [] = [("full_name", VStr (strip line))].
Proof.
  induction lines as [|l0 lines IH]; intros i line Hnth Hok Hbefore.
  - destruct i; discriminate.
  - destruct i as [|i]; simpl in Hnth.
    + injection Hnth as ->. simpl. now rewrite Hok.
    + simpl. rewrite (Hbefore 0%nat l0) by (simpl; auto; lia).
      apply (IH i); auto.
      intros j l Hj Hl. apply (Hbefore (S j) l); [lia | exact Hl].
Qed.

Lemma name_loop_none (lines : list string) :
  (forall l, In l lines -> looks_like_name (strip l) = false) ->
  name_loop lines [] = [].
Proof.
  induction lines as [|l0 lines IH]; intros H; simpl; auto.
  rewrite (H l0) by (left; auto). apply IH. intros l Hl. apply H. now right.
Qed.

Lemma name_loop_shape (lines : list string) :
  name_loop lines [] = []
  \/ exists name, name_loop lines [] = [("full_name", VStr name)].
Proof.
  induction lines as [|l0 lines IH]; simpl; auto.
  destruct (looks_like_name (strip l0)); eauto.
Qed.

Lemma personal_info_full_name (text : string) :
  lookup (extract_personal_info text) "full_name" =
  lookup (name_loop (firstn 5 (split_lines text)) []) "full_name".
Proof.
  unfold extract_personal_info.
  destruct (Re.findall date_pattern text); auto.
  apply lookup_setitem_other. discriminate.
Qed.
End ExtractorFacts.

(** C3, as the code has it. On the resume text of the scenario the
    extractor finds the name and the e-mail address; the line that
    carries the skills keyword is itself excluded from the skills run and
    nothing follows it, so the result has no [skills] key. *)
Theorem C3_jane_doe_fields :
  let data := DataExtractionService.extract_structured_data Sample.jane in
  Py.lookup data "full_name" = Some (Py.VStr "Jane Doe")
  /\ Py.lookup data "email" = Some (Py.VStr "jane@x.com")
  /\ Py.lookup data "skills" = None.
Proof. vm_compute. auto. Qed.

(** C3 as stated fails: no [skills] value contains "python, sql" (there
    is none at all), and the [phone] value is the empty text of the
    optional country-code group, not the number. *)
Lemma C3_counterexample :
  ~ (Py.lookup Sample.jane_data "full_name" = Some (Py.VStr "Jane Doe")
     /\ Py.lookup Sample.jane_data "email" = Some (Py.VStr "jane@x.com")
     /\ Py.lookup Sample.jane_data "phone" = Some (Py.VStr "555-123-4567")
     /\ exists skills,
         Py.lookup Sample.jane_data "skills" = Some (Py.VStr skills)
         /\ Py.contains "python, sql" skills = true).
Proof.
  intros (_ & _ & _ & skills & Hskills & _).
  vm_compute in Hskills. discriminate.
Qed.

(** What [findall] hands back for the phone pattern on that text. *)
Example jane_phone :
  Re.findall DataExtractionService.phone_pattern Sample.jane
  = [EmptyString]
  /\ Py.lookup (DataExtractionService.extract_structured_data Sample.jane)
       "phone" = Some (Py.VStr EmptyString).
Proof. vm_compute. auto. Qed.

(** C6, as the code has it. The name is looked for in the first five
    lines of the text, blank ones included: the first of them that,
    stripped, is a candidate (at least two tokens, under 50 characters, no
    digit, no at-sign; see [looks_like_name_iff]) becomes [full_name], and
    when none is, the key is absent. *)
Theorem C6_full_name_first_five_lines (text : string) :
  let lines := firstn 5 (Py.split_lines text) in
  let full_name :=
    Py.lookup (DataExtractionService.extract_personal_info text)
      "full_name" in
  (forall i line,
      nth_error lines i = Some line ->
      DataExtractionService.looks_like_name (Py.strip line) = true ->
      (forall j l, (j < i)%nat -> nth_error lines j = Some l ->
         DataExtractionService.looks_like_name (Py.strip l) = false) ->
      full_name = Some (Py.VStr (Py.strip line)))
  /\ ((forall l, In l lines ->
         DataExtractionService.looks_like_name (Py.strip l) = false) ->
      full_name = None).
Proof.
  cbv zeta. rewrite personal_info_full_name. split.
  - intros i line Hnth Hok Hbefore.
    rewrite (name_loop_first _ i line Hnth Hok Hbefore). reflexivity.
  - intros Hnone. rewrite (name_loop_none _ Hnone). reflexivity.
Qed.

Lemma C6_full_name_first_five_lines_witness :
  Py.lookup (DataExtractionService.extract_personal_info Sample.jane)
    "full_name" = Some (Py.VStr "Jane Doe")
  /\ Py.lookup (DataExtractionService.extract_personal_info Sample.late_name)
       "full_name" = None.
Proof.
  split.
  - apply (proj1 (C6_full_name_first_five_lines Sample.jane) 0%nat "Jane Doe").
    + reflexivity.
    + reflexivity.
    + intros j l Hj. lia.
  - apply (proj2 (C6_full_name_first_five_lines Sample.late_name)).
    intros l Hl. vm_compute in Hl.
    repeat (destruct Hl as [<- | Hl]; [reflexivity|]). destruct Hl.
Defined.

(** C6 as stated fails: with five empty lines before it, "Jane Doe" is
    the first non-empty line of the text, yet no name is extracted. *)
Lemma C6_counterexample :
  Spec.full_name_of_first_five_nonempty Sample.late_name = Some "Jane Doe"
  /\ Py.lookup (DataExtractionService.extract_personal_info Sample.late_name)
       "full_name" = None.
Proof. vm_compute. auto. Qed.

(* ================================================================== *)
(** * process_document *)
(* ================================================================== *)

Section ProcessDocumentFacts.
Import Py DocumentProcessingService.
Local Open Scope list_scope.

Lemma update_fields_lookup (items : dict) :
  forall (row : ExtractedData.t) (field : string),
    lookup (update_fields items row) field = lookup row field
    \/ exists v, In (field, v) items /\ truthy v = true
                 /\ lookup (update_fields items row) field = Some v.
Proof.
  induction items as [|[key value] more IH]; intros row field; simpl.
  - now left.
  - destruct (hasattr row key && truthy value) eqn:E.
    + apply andb_true_iff in E as [_ Ht].
      destruct (IH (setitem row key value) field) as [H | (v & Hin & Hv & H)].
      * rewrite H, lookup_setitem.
        destruct (String.eqb key field) eqn:Ek.
        -- apply String.eqb_eq in Ek. subst key.
           right. exists value. auto.
        -- now left.
      * right. exists v. auto.
    + destruct (IH row field) as [H | (v & Hin & Hv & H)].
      * now left.
      * right. exists v. auto.
Qed.

Lemma update_fields_falsy (items : dict) (row : ExtractedData.t)
    (field : string) :
  (forall v, In (field, v) items -> truthy v = false) ->
  lookup (update_fields items row) field = lookup row field.
Proof.
  intros Hf.
  destruct (update_fields_lookup items row field) as [H | (v & Hin & Hv & _)];
    auto.
  rewrite (Hf v Hin) in Hv. discriminate.
Qed.

(** One run of [process_document], by the outcome of the OCR call and
    of [get_or_create]. *)
Lemma process_document_run (w : World) (s : pd_state) :
  let d1 := DocumentScan.set_scan_status processing (document_scan s) in
  let l1 := (history s ++ [Scan_saved d1])%list in
  match OCRService.extract_text_from_document w
          (DocumentScan.original_document (document_scan s)) l1 with
  | (Raise e, l2) =>
      process_document w s =
      (Ok false,
       PdState (Spec.scan_failed d1 e) (table s)
         (l2 ++ [Scan_saved (Spec.scan_failed d1 e)]))
  | (Ok (text, confidence, page_count), l2) =>
      let d2 := Spec.scan_completed w (document_scan s) text confidence
                  page_count in
      let l3 := (l2 ++ [Scan_saved d2])%list in
      let data := DataExtractionService.extract_structured_data text in
      match table s with
      | Some row =>
          process_document w s =
          (Ok true,
           PdState d2 (Some (update_fields data row))
             (l3 ++ [Row_saved (update_fields data row)]))
      | None =>
          match invalid_keys data with
          | [] =>
              process_document w s =
              (Ok true,
               PdState d2 (Some (update ExtractedData.blank data))
                 (l3 ++ [Row_saved (update ExtractedData.blank data)]))
          | _ :: _ =>
              let e := field_error (invalid_keys data) in
              process_document w s =
              (Ok false,
               PdState (Spec.scan_failed d2 e) None
                 (l3 ++ [Scan_saved (Spec.scan_failed d2 e)]))
          end
      end
  end.
Proof.
  destruct s as [d tbl l].
  cbv beta iota zeta delta
    [process_document try_except bind save_scan zoom emit modify get ret
     raise get_or_create on_scan set_history set_table document_scan
     table history DocumentScan.original_document
     DocumentScan.set_scan_status].
  destruct (OCRService.extract_text_from_document w _ _)
    as [[[[text confidence] page_count] | e] l2].
  - destruct tbl as [row|].
    + reflexivity.
    + destruct (invalid_keys _) eqn:E; reflexivity.
  - reflexivity.
Qed.
End ProcessDocumentFacts.

(* ================================================================== *)
(** * The OCR adapter saves nothing *)
(* ================================================================== *)

Section QuietFacts.
Local Open Scope list_scope.

Lemma saved_statuses_app (l1 l2 : log) :
  Spec.saved_statuses (l1 ++ l2) =
  Spec.saved_statuses l1 ++ Spec.saved_statuses l2.
Proof.
  induction l1 as [|e l1 IH]; simpl; auto.
  destruct e; simpl; auto. now rewrite IH.
Qed.

Context {S : Type} (proj : S -> log).

Lemma quiet_ret {A} (a : A) : Spec.quiet proj (ret a).
Proof. intros s. reflexivity. Qed.

Lemma quiet_raise {A} (e : exn) : Spec.quiet proj (@raise S A e).
Proof. intros s. reflexivity. Qed.

Lemma quiet_call {A} (r : result A) : Spec.quiet proj (call r).
Proof. intros s. reflexivity. Qed.

Lemma quiet_get : Spec.quiet proj get.
Proof. intros s. reflexivity. Qed.

Lemma quiet_bind {A B} (m : M S A) (f : A -> M S B) :
  Spec.quiet proj m -> (forall a, Spec.quiet proj (f a)) ->
  Spec.quiet proj (bind m f).
Proof.
  intros Hm Hf s. unfold bind. specialize (Hm s).
  destruct (m s) as [[a|e] s']; simpl in *.
  - now rewrite Hf.
  - exact Hm.
Qed.

Lemma quiet_try {A} (m : M S A) (h : exn -> M S A) :
  Spec.quiet proj m -> (forall e, Spec.quiet proj (h e)) ->
  Spec.quiet proj (try_except m h).
Proof.
  intros Hm Hh s. unfold try_except. specialize (Hm s).
  destruct (m s) as [[a|e] s']; simpl in *.
  - exact Hm.
  - now rewrite Hh.
Qed.

Lemma quiet_modify (f : S -> S) :
  (forall s, proj (f s) = proj s) -> Spec.quiet proj (modify f).
Proof. intros Hf s. simpl. now rewrite Hf. Qed.

Lemma quiet_emit (inj : log -> S -> S) (e : event) :
  (forall l s, proj (inj l s) = l) ->
  Spec.saved_statuses [e] = [] ->
  Spec.quiet proj (emit proj inj e).
Proof.
  intros Hinj He s. unfold emit, modify. simpl.
  rewrite Hinj, saved_statuses_app, He. apply app_nil_r.
Qed.

Lemma quiet_zoom {T A} (projT : T -> log) (part : S -> T)
    (inj : T -> S -> S) (m : M T A) :
  (forall s, projT (part s) = proj s) ->
  (forall t s, proj (inj t s) = projT t) ->
  Spec.quiet projT m -> Spec.quiet proj (zoom part inj m).
Proof.
  intros Hp Hi Hm s. unfold zoom. specialize (Hm (part s)).
  destruct (m (part s)) as [r t]. simpl in *. now rewrite Hi, Hm, Hp.
Qed.
End QuietFacts.

Create HintDb quiet.
#[export] Hint Resolve quiet_ret quiet_raise quiet_call quiet_get
  quiet_bind quiet_try quiet_modify quiet_emit : quiet.

Section OCRQuiet.
Import OCRService.
Variable w : World.

Lemma quiet_image (image : Image) :
  Spec.quiet (fun l => l) (extract_text_from_image w image).
Proof.
  unfold extract_text_from_image, log_event.
  apply quiet_try; [|auto with quiet].
  repeat (apply quiet_bind; [|intros]); auto with quiet.
Qed.

Lemma quiet_native_pages (pages : list Page) :
  Spec.quiet calls (native_pages w pages).
Proof.
  induction pages as [|page more IH]; simpl; auto with quiet.
  apply quiet_bind; [auto with quiet | intros text].
  apply quiet_bind; [|auto].
  destruct (nonblank text); auto with quiet.
Qed.

Lemma quiet_ocr_pages (images : list Image) :
  forall i, Spec.quiet calls (ocr_pages w images i).
Proof.
  induction images as [|image more IH]; intros i; simpl; auto with quiet.
  apply quiet_bind.
  - apply (quiet_zoom calls (fun l => l)); auto using quiet_image.
  - intros r. repeat (apply quiet_bind; [|intros]); auto with quiet.
Qed.

Lemma quiet_pdf_body (path : string) : Spec.quiet calls (pdf_body w path).
Proof.
  unfold pdf_body, native_phase.
  apply quiet_bind.
  - apply quiet_try; [|auto with quiet].
    repeat (apply quiet_bind; [|intros]);
      auto using quiet_native_pages with quiet.
    destruct (nonblank _); auto with quiet.
  - intros [r|]; [auto with quiet|].
    repeat (apply quiet_bind; [|intros]);
      auto using quiet_ocr_pages with quiet.
Qed.

Lemma quiet_pdf (path : string) :
  Spec.quiet (fun l => l) (extract_text_from_pdf w path).
Proof.
  intros l. unfold extract_text_from_pdf.
  assert (Spec.quiet calls
            (try_except (pdf_body w path)
               (fun _ => ret (EmptyString, 0%Q, 0%nat)))) as H
      by (apply quiet_try; auto using quiet_pdf_body with quiet).
  specialize (H (Frame EmptyString 0%Q 0 l)).
  destruct (try_except _ _ _) as [r f]. exact H.
Qed.

Lemma quiet_document (path : string) :
  Spec.quiet (fun l => l) (extract_text_from_document w path).
Proof.
  unfold extract_text_from_document, log_event.
  destruct (_ =? ".pdf")%string; [apply quiet_pdf|].
  destruct (existsb _ _); [|auto with quiet].
  repeat (apply quiet_bind; [|intros]); auto using quiet_image with quiet.
Qed.
End OCRQuiet.

(* ================================================================== *)
(** * Dates, and what they do to the create step *)
(* ================================================================== *)

Section DatesFacts.
Import Py DataExtractionService DocumentProcessingService.
Local Open Scope list_scope.

Lemma scan_nonempty_iff_search (r : Re.regex) (s : string) :
  forall ps pv,
    Re.search_from r ps pv s = true <-> Re.scan r ps pv s 0 <> [].
Proof.
  induction s as [|a s IH]; intros ps pv; simpl;
    destruct (Re.match_at r (Re.Cursor ps pv _)) as [[e g]|].
  - split; [discriminate | reflexivity].
  - split; [discriminate | congruence].
  - split; [discriminate | reflexivity].
  - apply IH.
Qed.

(** The pattern is found somewhere exactly when [findall] returns
    something. *)
Lemma findall_nonempty_iff_search (r : Re.regex) (text : string) :
  Re.search r text = true <-> Re.findall r text <> [].
Proof.
  unfold Re.search, Re.findall.
  rewrite scan_nonempty_iff_search.
  destruct (Re.scan r 0 None text 0); simpl; split; congruence.
Qed.

(** With a date in the text, the merged dictionary carries the list of
    dates under [dates_found], and that is its one key that names no
    field of the model. *)
Lemma structured_data_with_dates (text : string) :
  Re.search date_pattern text = true ->
  lookup (extract_structured_data text) "dates_found"
    = Some (VList (Re.findall date_pattern text))
  /\ Re.findall date_pattern text <> []
  /\ invalid_keys (extract_structured_data text) = ["dates_found"].
Proof.
  intros Hs. apply findall_nonempty_iff_search in Hs.
  unfold extract_structured_data, extract_contact_info,
    extract_personal_info, extract_professional_info.
  destruct (Re.findall date_pattern text) as [|d ds]; [congruence|].
  destruct (Re.findall email_pattern text) as [|e es];
    destruct (Re.findall phone_pattern text) as [|p ps];
    destruct (name_loop_shape (firstn 5 (split_lines text)))
      as [-> | [name ->]];
    destruct (skills_loop _ _ _) as [|sk sks];
    destruct (education_loop _ _ _) as [|ed eds];
    (split; [reflexivity | split; [discriminate | reflexivity]]).
Qed.
End DatesFacts.

(** C7. When [process_document] finds the ExtractedData row of the scan
    already there, a column of the row changes only to a truthy value the
    extractor produced for that key, and a column whose extracted values
    are all falsy keeps what it had; so a stored [skills] of "Python"
    survives a re-extraction yielding the empty string. *)
Theorem C7_update_overwrites_only_truthy (w : World)
    (s : DocumentProcessingService.pd_state) (row : ExtractedData.t) :
  DocumentProcessingService.table s = Some row ->
  let s' := snd (DocumentProcessingService.process_document w s) in
  (exists row',
      DocumentProcessingService.table s' = Some row'
      /\ forall field,
          Py.lookup row' field <> Py.lookup row field ->
          exists text v,
            DocumentScan.extracted_text
              (DocumentProcessingService.document_scan s') = Some text
            /\ In (field, v)
                 (DataExtractionService.extract_structured_data text)
            /\ Py.truthy v = true
            /\ Py.lookup row' field = Some v)
  /\ (forall items stored field,
         (forall v, In (field, v) items -> Py.truthy v = false) ->
         Py.lookup (DocumentProcessingService.update_fields items stored)
           field = Py.lookup stored field)
  /\ Py.lookup
       (DocumentProcessingService.update_fields
          [("skills", Py.VStr EmptyString)]
          (Py.setitem ExtractedData.blank "skills" (Py.VStr "Python")))
       "skills" = Some (Py.VStr "Python").
Proof.
  intros Htable s'. split; [|split].
  - subst s'. pose proof (process_document_run w s) as Hrun. cbv zeta in Hrun.
    destruct (OCRService.extract_text_from_document w _ _)
      as [[[[text confidence] page_count] | e] l2].
    + rewrite Htable in Hrun. rewrite Hrun. simpl.
      eexists. split; [reflexivity|]. intros field Hne.
      destruct (update_fields_lookup
                  (DataExtractionService.extract_structured_data text)
                  row field) as [H | (v & Hin & Hv & H)].
      * contradiction.
      * exists text, v. auto.
    + rewrite Hrun. simpl. exists row. split; [exact Htable|].
      intros field Hne. contradiction.
  - intros items stored field. apply update_fields_falsy.
  - reflexivity.
Qed.

Lemma C7_update_overwrites_only_truthy_witness :
  DocumentProcessingService.table Sample.rerun = Some Sample.stored_row
  /\ exists row',
      DocumentProcessingService.table
        (snd (DocumentProcessingService.process_document
                (Sample.world Sample.jane []) Sample.rerun)) = Some row'.
Proof.
  split; [reflexivity|].
  destruct (C7_update_overwrites_only_truthy (Sample.world Sample.jane [])
              Sample.rerun Sample.stored_row eq_refl)
    as [(row' & Hrow' & _) _].
  exists row'. exact Hrow'.
Defined.

(** The stored phone number of [Sample.rerun] is kept: the re-extraction
    yields the empty string for [phone]. *)
Example rerun_keeps_phone :
  option_map (fun row => Py.lookup row "phone")
    (DocumentProcessingService.table
       (snd (DocumentProcessingService.process_document
               (Sample.world Sample.jane []) Sample.rerun)))
  = Some (Some (Py.VStr "555-123-4567")).
Proof. vm_compute. reflexivity. Qed.

(** C10. A text in which the date pattern is found gives a structured
    dictionary with the key [dates_found], which names no field of
    ExtractedData. With no row yet for the scan, the create step of
    [process_document] then raises on that key after the scan was saved
    as completed: the scan is saved again as failed with the exception
    message, and the call returns [False]. *)
Theorem C10_dates_found_fails_create (w : World)
    (s : DocumentProcessingService.pd_state)
    (text : string) (confidence : Q) (page_count : nat) (l2 : log) :
  Re.search DataExtractionService.date_pattern text = true ->
  DocumentProcessingService.table s = None ->
  OCRService.extract_text_from_document w
    (DocumentScan.original_document
       (DocumentProcessingService.document_scan s))
    (DocumentProcessingService.history s
     ++ [Scan_saved
           (DocumentScan.set_scan_status processing
              (DocumentProcessingService.document_scan s))])%list
  = (Ok (text, confidence, page_count), l2) ->
  (exists dates,
      dates <> []
      /\ Py.lookup (DataExtractionService.extract_structured_data text)
           "dates_found" = Some (Py.VList dates))
  /\ ExtractedData.is_field "dates_found" = false
  /\ exists s',
      DocumentProcessingService.process_document w s = (Ok false, s')
      /\ DocumentProcessingService.table s' = None
      /\ DocumentScan.scan_status
           (DocumentProcessingService.document_scan s') = failed
      /\ DocumentScan.error_message
           (DocumentProcessingService.document_scan s')
         = Some "Invalid field name(s) for model ExtractedData: 'dates_found'."
      /\ Spec.saved_statuses (DocumentProcessingService.history s')
         = (Spec.saved_statuses (DocumentProcessingService.history s)
            ++ [processing; completed; failed])%list.
Proof.
  intros Hdate Htable Hocr.
  destruct (structured_data_with_dates text Hdate) as (Hkey & Hne & Hinv).
  split; [eauto | split; [reflexivity|]].
  pose proof (process_document_run w s) as Hrun. cbv zeta in Hrun.
  pose proof (quiet_document w
                (DocumentScan.original_document
                   (DocumentProcessingService.document_scan s))
                (DocumentProcessingService.history s
                 ++ [Scan_saved
                       (DocumentScan.set_scan_status processing
                          (DocumentProcessingService.document_scan s))])%list)
    as Hquiet.
  rewrite Hocr in Hrun, Hquiet. simpl in Hquiet.
  rewrite Htable, Hinv in Hrun.
  eexists. split; [exact Hrun|].
  cbn [DocumentProcessingService.table DocumentProcessingService.document_scan
       DocumentProcessingService.history].
  repeat split.
  rewrite !saved_statuses_app, Hquiet, saved_statuses_app. simpl.
  now rewrite <- !app_assoc.
Qed.

Lemma C10_dates_found_fails_create_witness :
  exists s',
    DocumentProcessingService.process_document
      (Sample.world Sample.born []) Sample.first_run = (Ok false, s')
    /\ DocumentScan.scan_status
         (DocumentProcessingService.document_scan s') = failed.
Proof.
  destruct (C10_dates_found_fails_create
              (Sample.world Sample.born []) Sample.first_run
              Sample.born 95%Q 1%nat
              [Scan_saved
                 (DocumentScan.set_scan_status processing
                    (Sample.scan "resume.pdf"));
               PdfReader_opened "resume.pdf"]
              ltac:(vm_compute; reflexivity)
              ltac:(reflexivity)
              ltac:(vm_compute; reflexivity))
    as (_ & _ & s' & Hrun & _ & Hstatus & _).
  exists s'. split; [exact Hrun | exact Hstatus].
Defined.

(** C1, where the code departs from it. A one-page [resume.pdf] whose
    text holds a date, processed for the first time: the scan is saved
    as processing, then as completed, then as failed, and ends failed
    although OCR completed and the text was stored. *)
Theorem C1_completed_then_failed :
  let run :=
    DocumentProcessingService.process_document
      (Sample.world Sample.born []) Sample.first_run in
  fst run = Ok false
  /\ Spec.saved_statuses (DocumentProcessingService.history (snd run))
     = [processing; completed; failed]
  /\ DocumentScan.scan_status
       (DocumentProcessingService.document_scan (snd run)) = failed
  /\ DocumentScan.extracted_text
       (DocumentProcessingService.document_scan (snd run))
     = Some Sample.born
  /\ DocumentScan.confidence_score
       (DocumentProcessingService.document_scan (snd run)) = 95%Q.
Proof. vm_compute. repeat split. Qed.

(** The part of the state machine that does hold: a run whose OCR call
    raises ends failed, with the message as error detail and the
    extracted text as it was. *)
Lemma process_document_ocr_raises (w : World)
    (s : DocumentProcessingService.pd_state) (e : exn) (l2 : log) :
  OCRService.extract_text_from_document w
    (DocumentScan.original_document
       (DocumentProcessingService.document_scan s))
    (DocumentProcessingService.history s
     ++ [Scan_saved
           (DocumentScan.set_scan_status processing
              (DocumentProcessingService.document_scan s))])%list
  = (Raise e, l2) ->
  exists s',
    DocumentProcessingService.process_document w s = (Ok false, s')
    /\ DocumentScan.scan_status
         (DocumentProcessingService.document_scan s') = failed
    /\ DocumentScan.error_message
         (DocumentProcessingService.document_scan s')
       = Some (str_of_exn e)
    /\ DocumentScan.extracted_text
         (DocumentProcessingService.document_scan s')
       = DocumentScan.extracted_text
           (DocumentProcessingService.document_scan s)
    /\ Spec.saved_statuses (DocumentProcessingService.history s')
       = (Spec.saved_statuses (DocumentProcessingService.history s)
          ++ [processing; failed])%list.
Proof.
  intros Hocr.
  pose proof (process_document_run w s) as Hrun. cbv zeta in Hrun.
  pose proof (quiet_document w
                (DocumentScan.original_document
                   (DocumentProcessingService.document_scan s))
                (DocumentProcessingService.history s
                 ++ [Scan_saved
                       (DocumentScan.set_scan_status processing
                          (DocumentProcessingService.document_scan s))])%list)
    as Hquiet.
  rewrite Hocr in Hrun, Hquiet. simpl in Hquiet.
  eexists. split; [exact Hrun|].
  cbn [DocumentProcessingService.table DocumentProcessingService.document_scan
       DocumentProcessingService.history].
  repeat split.
  rewrite saved_statuses_app, Hquiet, saved_statuses_app. simpl.
  now rewrite <- app_assoc.
Qed.

(* ================================================================== *)
(** * The OCR adapter *)
(* ================================================================== *)

Section OCRFacts.
Import OCRService.
Variable w : World.
Local Open Scope list_scope.

Lemma string_app_assoc (a b c : string) :
  ((a ++ b) ++ c = a ++ (b ++ c))%string.
Proof. induction a as [|x a IH]; simpl; congruence. Qed.

Lemma string_app_nil_r (a : string) : (a ++ EmptyString)%string = a.
Proof. induction a as [|x a IH]; simpl; congruence. Qed.

Lemma fold_left_Zadd (l : list Z) :
  forall a, fold_left Z.add l a = (a + fold_right Z.add 0 l)%Z.
Proof.
  induction l as [|x l IH]; intros a; simpl; [lia|]. rewrite IH. lia.
Qed.

Lemma fold_left_Qplus (l : list Q) :
  forall a, (fold_left Qplus l a == a + fold_right Qplus 0 l)%Q.
Proof.
  induction l as [|x l IH]; intros a; simpl.
  - now rewrite Qplus_0_r.
  - rewrite IH. now rewrite Qplus_assoc.
Qed.

Lemma inject_Z_sum (l : list Z) :
  (inject_Z (fold_right Z.add 0%Z l)
   == fold_right Qplus 0 (map inject_Z l))%Q.
Proof.
  induction l as [|x l IH]; simpl; [reflexivity|].
  now rewrite inject_Z_plus, IH.
Qed.

(** The integer average of the code is the mean of the values. *)
Lemma average_is_mean (confidences : list Z) :
  (average confidences == Spec.mean (map inject_Z confidences))%Q.
Proof.
  destruct confidences as [|c cs]; [reflexivity|].
  unfold average, Spec.mean. simpl map. cbv iota.
  simpl List.length. rewrite length_map.
  simpl fold_left. simpl fold_right.
  rewrite fold_left_Zadd, inject_Z_plus, inject_Z_sum.
  reflexivity.
Qed.

(** One run of [extract_text_from_image], by the outcomes of the three
    library calls. *)
Lemma image_run (image : Image) (l : log) :
  extract_text_from_image w image l =
  match preprocess_image w image with
  | Raise _ => (Ok (EmptyString, 0%Q), l)
  | Ok processed =>
      (match image_to_data_conf w processed,
             image_to_string w processed with
       | Ok data, Ok text =>
           Ok (Py.strip text,
               average (filter (fun conf => (0 <? conf)%Z) data))
       | _, _ => Ok (EmptyString, 0%Q)
       end,
       l ++ [Recognized processed])
  end.
Proof.
  unfold extract_text_from_image, try_except, bind, call, log_event, emit,
    modify, ret.
  destruct (preprocess_image w image) as [processed|e]; [|reflexivity].
  destruct (image_to_data_conf w processed) as [data|e]; [|reflexivity].
  destruct (image_to_string w processed) as [text|e]; reflexivity.
Qed.

Lemma image_run_page (image : Image) (l : log) :
  extract_text_from_image w image l =
  (Ok (Spec.page_result w image), l ++ Spec.page_events w image).
Proof.
  unfold Spec.page_result, Spec.page_events.
  rewrite (image_run image []), (image_run image l).
  destruct (preprocess_image w image) as [processed|e]; simpl.
  - destruct (image_to_data_conf w processed) as [data|e];
      [destruct (image_to_string w processed) as [text|e]|]; reflexivity.
  - now rewrite app_nil_r.
Qed.
End OCRFacts.

(** C5, as the code has it. The confidence is the mean of the reported
    per-token values that are strictly positive, zero when there is none,
    and the text is the recognizer's text stripped; an exception of any
    of the library calls gives the empty text with confidence zero, and
    the call never raises. *)
Theorem C5_image_confidence (w : World) (image : Image) (l : log) :
  (forall processed data text,
      preprocess_image w image = Ok processed ->
      image_to_data_conf w processed = Ok data ->
      image_to_string w processed = Ok text ->
      exists confidence,
        fst (OCRService.extract_text_from_image w image l)
          = Ok (Py.strip text, confidence)
        /\ (confidence
            == Spec.mean
                 (map inject_Z (filter (fun conf => (0 <? conf)%Z) data)))%Q
        /\ (filter (fun conf => (0 <? conf)%Z) data = [] ->
            confidence = 0%Q))
  /\ (forall e,
         preprocess_image w image = Raise e
         \/ (exists processed,
                preprocess_image w image = Ok processed
                /\ (image_to_data_conf w processed = Raise e
                    \/ image_to_string w processed = Raise e)) ->
         fst (OCRService.extract_text_from_image w image l)
           = Ok (EmptyString, 0%Q))
  /\ exists r, fst (OCRService.extract_text_from_image w image l) = Ok r.
Proof.
  rewrite image_run. split; [|split].
  - intros processed data text -> -> ->. simpl.
    eexists. split; [reflexivity|]. split.
    + apply average_is_mean.
    + intros ->. reflexivity.
  - intros e [-> | (processed & -> & [-> | H])]; simpl; auto.
    rewrite H. destruct (image_to_data_conf w processed); reflexivity.
  - destruct (preprocess_image w image) as [processed|e]; simpl; eauto.
    destruct (image_to_data_conf w processed);
      destruct (image_to_string w processed); eauto.
Qed.

Lemma C5_image_confidence_witness :
  exists confidence,
    fst (OCRService.extract_text_from_image
           (Sample.world EmptyString [(-1)%Z; 0%Z; 90%Z; 45%Z]) 3%nat [])
      = Ok ("page", confidence)
    /\ (confidence == Spec.mean [inject_Z 90; inject_Z 45])%Q.
Proof.
  destruct (proj1 (C5_image_confidence
                     (Sample.world EmptyString [(-1)%Z; 0%Z; 90%Z; 45%Z])
                     3%nat [])
              3%nat [(-1)%Z; 0%Z; 90%Z; 45%Z] " page "
              eq_refl eq_refl eq_refl)
    as (confidence & Hrun & Hmean & _).
  exists confidence. split; [exact Hrun | exact Hmean].
Defined.

(** C5 as stated fails: with the reported values 0 and 90 the code
    returns 90, the mean of the non-negative values is 45. *)
Lemma C5_counterexample :
  exists text confidence,
    fst (OCRService.extract_text_from_image
           (Sample.world EmptyString [0%Z; 90%Z]) 3%nat [])
      = Ok (text, confidence)
    /\ ~ (confidence == Spec.mean_of_nonnegative [0%Z; 90%Z])%Q.
Proof.
  eexists. eexists. split; [vm_compute; reflexivity|].
  intros H. vm_compute in H. discriminate.
Qed.

(** C4, where the code departs from it. For a path with one of the image
    extensions, an exception of [Image.open] is raised to the caller of
    [extract_text_from_document]. *)
Theorem C4_image_open_error_escapes (w : World) (path : string) (e : exn)
    (l : log) :
  existsb (String.eqb (Py.lower (snd (os_path.splitext path))))
    OCRService.image_extensions = true ->
  Image_open w path = Raise e ->
  fst (OCRService.extract_text_from_document w path l) = Raise e.
Proof.
  intros Hext Hopen. unfold OCRService.extract_text_from_document.
  destruct (Py.lower (snd (os_path.splitext path)) =? ".pdf")%string eqn:E.
  - apply String.eqb_eq in E. rewrite E in Hext. discriminate.
  - rewrite Hext. unfold bind, OCRService.log_event, emit, modify, call.
    rewrite Hopen. reflexivity.
Qed.

Lemma C4_image_open_error_escapes_witness :
  fst (OCRService.extract_text_from_document
         (Sample.world EmptyString []) "scan.png" [])
  = Raise (LibraryError "cannot identify image file").
Proof.
  apply (C4_image_open_error_escapes (Sample.world EmptyString [])
           "scan.png" (LibraryError "cannot identify image file") []).
  - reflexivity.
  - reflexivity.
Defined.

Section PdfFacts.
Import OCRService.
Variable w : World.
Local Open Scope list_scope.

Lemma frame_eta (f : pdf_frame) :
  Frame (all_text f) (total_confidence f) (page_count f) (calls f) = f.
Proof. now destruct f. Qed.

Lemma native_pages_ok (pages : list Page) (texts : list string) :
  Forall2 (fun page t => extract_text w page = Ok t) pages texts ->
  forall f,
    native_pages w pages f =
    (Ok tt,
     Frame (all_text f ++ Spec.text_layer texts)%string
       (total_confidence f) (page_count f) (calls f)).
Proof.
  induction 1 as [|page t pages texts Ht _ IH]; intros f; simpl.
  - unfold ret. now rewrite string_app_nil_r, frame_eta.
  - unfold bind, call. rewrite Ht.
    destruct (nonblank t); simpl; rewrite IH; simpl.
    + now rewrite string_app_assoc.
    + reflexivity.
Qed.

Lemma native_pages_cases (pages : list Page) :
  (exists texts,
      Forall2 (fun page t => extract_text w page = Ok t) pages texts)
  \/ (exists e, forall f, exists f',
         native_pages w pages f = (Raise e, f')
         /\ calls f' = calls f
         /\ total_confidence f' = total_confidence f).
Proof.
  induction pages as [|page more IH].
  - left. exists []. constructor.
  - destruct (extract_text w page) as [t|e] eqn:Ht.
    + destruct IH as [[texts H] | [e H]].
      * left. exists (t :: texts). now constructor.
      * right. exists e. intros f. simpl. unfold bind, call. rewrite Ht.
        destruct (nonblank t); simpl.
        -- destruct (H (add_text (t ++ nl) f)) as (f' & -> & Hc & Ht').
           exists f'. auto.
        -- destruct (H f) as (f' & -> & Hc & Ht'). exists f'. auto.
    + right. exists e. intros f. exists f. simpl. unfold bind, call.
      rewrite Ht. auto.
Qed.

Lemma native_phase_returns (path : string) (pages : list Page)
    (texts : list string) (l : log) :
  Spec.readable w path pages texts ->
  nonblank (Spec.text_layer texts) = true ->
  native_phase w path (Frame EmptyString 0%Q 0 l) =
  (Ok (Some (Py.strip (Spec.text_layer texts), 95%Q, List.length pages)),
   Frame (Spec.text_layer texts) 0%Q (List.length pages)
     (l ++ [PdfReader_opened path])).
Proof.
  intros [Hopen Hpages] Hnb.
  unfold native_phase, bind, emit, modify, call, get. simpl.
  rewrite Hopen, (native_pages_ok _ _ Hpages). simpl. now rewrite Hnb.
Qed.

Lemma native_phase_falls (path : string) (l : log) :
  ~ (exists pages texts,
        Spec.readable w path pages texts
        /\ nonblank (Spec.text_layer texts) = true) ->
  exists f1,
    try_except (native_phase w path) (fun _ => ret None)
      (Frame EmptyString 0%Q 0 l) = (Ok None, f1)
    /\ calls f1 = l ++ [PdfReader_opened path]
    /\ total_confidence f1 = 0%Q.
Proof.
  intros Hno.
  unfold try_except, native_phase, bind, emit, modify, call, get. simpl.
  destruct (PdfReader w path) as [pages|e] eqn:Hopen.
  - destruct (native_pages_cases pages) as [[texts H] | [e H]].
    + rewrite (native_pages_ok _ _ H). simpl.
      destruct (nonblank (Spec.text_layer texts)) eqn:Hnb.
      * exfalso. apply Hno. exists pages, texts. split; [split|]; auto.
      * simpl. eexists. split; [reflexivity|]. auto.
    + match goal with
      | |- context [native_pages w pages ?f] =>
          destruct (H f) as (f' & -> & Hc & Ht)
      end.
      exists f'. auto.
  - simpl. eexists. split; [reflexivity|]. auto.
Qed.

Lemma ocr_pages_run (images : list Image) :
  forall i f, exists t,
    ocr_pages w images i f =
    (Ok tt,
     Frame (all_text f ++ t)%string
       (fold_left Qplus
          (map (fun image => snd (Spec.page_result w image)) images)
          (total_confidence f))
       (page_count f)
       (calls f ++ flat_map (Spec.page_events w) images)).
Proof.
  induction images as [|image more IH]; intros i f; simpl.
  - exists EmptyString. unfold ret.
    now rewrite string_app_nil_r, app_nil_r, frame_eta.
  - unfold bind, zoom, modify. rewrite image_run_page.
    match goal with
    | |- context [ocr_pages w more (S i) ?f1] =>
        destruct (IH (S i) f1) as [t ->]
    end.
    simpl. eexists. rewrite string_app_assoc, <- app_assoc. reflexivity.
Qed.

Lemma total_is_mean (images : list Image) (x : Image) :
  (fold_left Qplus
     (map (fun image => snd (Spec.page_result w image)) (x :: images)) 0
   / inject_Z (Z.of_nat (List.length (x :: images)))
   == Spec.mean
        (map (fun image => snd (Spec.page_result w image)) (x :: images)))%Q.
Proof.
  unfold Spec.mean. rewrite fold_left_Qplus, Qplus_0_l.
  simpl map. cbv iota. simpl List.length. rewrite length_map. reflexivity.
Qed.

Lemma pdf_never_raises (path : string) (l : log) :
  exists r, fst (extract_text_from_pdf w path l) = Ok r.
Proof.
  unfold extract_text_from_pdf, try_except.
  destruct (pdf_body w path _) as [[r|e] f]; simpl; eauto.
Qed.
End PdfFacts.

(** C2. A PDF that opens, yields the text of every page and has a
    non-blank text layer gives that layer stripped, confidence 95 and the
    number of its pages, and nothing but the opening of the PDF is called.
    Otherwise every page is rendered at 300 DPI and recognized: the page
    count is the number of rendered pages and the confidence the mean of
    the per-page confidences, zero for no page; when rendering raises the
    result is the empty text, confidence zero and zero pages. The call
    never raises. *)
Theorem C2_extract_text_from_pdf (w : World) (path : string) (l : log) :
  (forall pages texts,
      Spec.readable w path pages texts ->
      OCRService.nonblank (Spec.text_layer texts) = true ->
      OCRService.extract_text_from_pdf w path l =
      (Ok (Py.strip (Spec.text_layer texts), 95%Q, List.length pages),
       (l ++ [PdfReader_opened path])%list))
  /\ (~ (exists pages texts,
            Spec.readable w path pages texts
            /\ OCRService.nonblank (Spec.text_layer texts) = true) ->
      (forall images,
          convert_from_path w path 300 = Ok images ->
          exists text confidence,
            OCRService.extract_text_from_pdf w path l =
            (Ok (text, confidence, List.length images),
             (l ++ [PdfReader_opened path; Rasterized path 300]
                ++ flat_map (Spec.page_events w) images)%list)
            /\ (confidence
                == Spec.mean
                     (map (fun image => snd (Spec.page_result w image))
                        images))%Q)
      /\ (forall e,
             convert_from_path w path 300 = Raise e ->
             fst (OCRService.extract_text_from_pdf w path l)
               = Ok (EmptyString, 0%Q, 0%nat)))
  /\ exists r, fst (OCRService.extract_text_from_pdf w path l) = Ok r.
Proof.
  assert (forall pages texts,
             Spec.readable w path pages texts ->
             OCRService.nonblank (Spec.text_layer texts) = true ->
             OCRService.extract_text_from_pdf w path l =
             (Ok (Py.strip (Spec.text_layer texts), 95%Q, List.length pages),
              (l ++ [PdfReader_opened path])%list)) as Hnative.
  { intros pages texts Hr Hnb.
    unfold OCRService.extract_text_from_pdf, OCRService.pdf_body,
      try_except, bind.
    rewrite (native_phase_returns w path pages texts l Hr Hnb).
    reflexivity. }
  assert (~ (exists pages texts,
                Spec.readable w path pages texts
                /\ OCRService.nonblank (Spec.text_layer texts) = true) ->
          (forall images,
              convert_from_path w path 300 = Ok images ->
              exists text confidence,
                OCRService.extract_text_from_pdf w path l =
                (Ok (text, confidence, List.length images),
                 (l ++ [PdfReader_opened path; Rasterized path 300]
                    ++ flat_map (Spec.page_events w) images)%list)
                /\ (confidence
                    == Spec.mean
                         (map (fun image => snd (Spec.page_result w image))
                            images))%Q)
          /\ (forall e,
                 convert_from_path w path 300 = Raise e ->
                 fst (OCRService.extract_text_from_pdf w path l)
                   = Ok (EmptyString, 0%Q, 0%nat))) as Hocr.
  { intros Hno.
    destruct (native_phase_falls w path l Hno) as (f1 & Hfall & Hcalls & Htot).
    split.
    - intros images Hconv.
      unfold OCRService.extract_text_from_pdf, OCRService.pdf_body.
      unfold try_except at 1. unfold bind at 1. rewrite Hfall.
      unfold bind, emit, modify, call, get. rewrite Hconv.
      cbn [OCRService.calls OCRService.set_calls OCRService.set_page_count
           OCRService.all_text OCRService.total_confidence
           OCRService.page_count].
      match goal with
      | |- context [OCRService.ocr_pages w images 0 ?f] =>
          destruct (ocr_pages_run w images 0%nat f) as [t ->]
      end.
      cbn [OCRService.calls OCRService.set_calls OCRService.set_page_count
           OCRService.all_text OCRService.total_confidence
           OCRService.page_count ret].
      rewrite Hcalls, Htot, <- !app_assoc. cbn [app].
      eexists. eexists. split; [reflexivity|].
      destruct images as [|x images]; [reflexivity | apply total_is_mean].
    - intros e Hconv.
      unfold OCRService.extract_text_from_pdf, OCRService.pdf_body.
      unfold try_except at 1. unfold bind at 1. rewrite Hfall.
      unfold bind, emit, modify, call, get. rewrite Hconv. reflexivity. }
  split; [exact Hnative | split; [exact Hocr|]].
  apply pdf_never_raises.
Qed.

Lemma C2_extract_text_from_pdf_witness :
  OCRService.extract_text_from_pdf (Sample.world Sample.jane [])
    "resume.pdf" []
  = (Ok (Py.strip (Spec.text_layer [Sample.jane]), 95%Q, 1%nat),
     [PdfReader_opened "resume.pdf"])
  /\ fst (OCRService.extract_text_from_pdf (Sample.world Sample.jane [])
            "resume.pdf" [])
     = Ok (Sample.jane, 95%Q, 1%nat).
Proof.
  split.
  - apply (proj1 (C2_extract_text_from_pdf (Sample.world Sample.jane [])
                    "resume.pdf" []) [1%nat] [Sample.jane]).
    + split; [reflexivity | repeat constructor].
    + reflexivity.
  - reflexivity.
Defined.

(* ================================================================== *)
(** * merge_documents *)
(* ================================================================== *)

Section MergeFacts.
Import CVGenerationService.
Local Open Scope list_scope.

Lemma add_pages_run (pages : list Page) :
  forall writer, add_pages pages writer = (Ok tt, writer ++ pages).
Proof.
  induction pages as [|page more IH]; intros writer; simpl.
  - unfold ret. now rewrite app_nil_r.
  - unfold bind, modify. rewrite IH, <- app_assoc. reflexivity.
Qed.
End MergeFacts.



(* ================================================================== *)
(** * generate_cv_and_forms *)
(* ================================================================== *)

Section GenerateFacts.
Import DocumentProcessingService.
Local Open Scope list_scope.

Lemma saved_cvs_app (l1 l2 : log) :
  Spec.saved_cvs (l1 ++ l2) = Spec.saved_cvs l1 ++ Spec.saved_cvs l2.
Proof.
  induction l1 as [|e l1 IH]; simpl; auto.
  destruct e; simpl; auto. now rewrite IH.
Qed.

Lemma disk_write_keeps (path p : string) (content : list Page) (d : disk) :
  disk_exists d p = true -> disk_exists (disk_write path content d) p = true.
Proof.
  unfold disk_exists, disk_write. destruct (String.eqb p path); auto.
Qed.
End GenerateFacts.

(** C8. In a run of [generate_cv_and_forms] on a row whose slots respect
    the generation order, every version of the row that is saved, and the
    row at the end, has its merged document only with its application
    form, and its application form only with its CV. The first save is
    the row as generating and the last save is the row as the run leaves
    it. The stages run in the order CV, application form, merged
    document, each rendering and then storing its file: when all succeed
    the saved versions are the row with the CV, then with the form, then
    with the merged document, then as completed, and the run returns
    [True]; when a stage raises, the versions saved so far are followed
    by one as failed with the text of that exception as error detail,
    the slots and the files stored by the earlier stages are as those
    stages left them, and the run returns [False]. A slot that a saved
    version had populated is still populated at the end, and no stored
    file is removed. The call never raises. *)
Theorem C8_generation_order (w : World) (source_document : DocumentScan.t)
    (source_row : option ExtractedData.t)
    (s : DocumentProcessingService.gen_state) :
  Spec.ordered (DocumentProcessingService.generated_cv s) ->
  let run :=
    DocumentProcessingService.generate_cv_and_forms w source_document
      source_row s in
  let final := DocumentProcessingService.generated_cv (snd run) in
  let c0 :=
    GeneratedCV.set_generation_status generating
      (DocumentProcessingService.generated_cv s) in
  let cv_id :=
    Py.str_of_nat
      (GeneratedCV.id (DocumentProcessingService.generated_cv s)) in
  exists new,
    DocumentProcessingService.saves (snd run)
      = (DocumentProcessingService.saves s ++ new)%list
    /\ Forall Spec.ordered (Spec.saved_cvs new)
    /\ Spec.ordered final
    /\ last (Spec.saved_cvs new) final = final
    /\ (exists between,
          Spec.saved_cvs new = (c0 :: between ++ [final])%list)
    /\ (forall c, In c (Spec.saved_cvs new) ->
          (Spec.populated (GeneratedCV.cv_file c) ->
           Spec.populated (GeneratedCV.cv_file final))
          /\ (Spec.populated (GeneratedCV.application_form c) ->
              Spec.populated (GeneratedCV.application_form final))
          /\ (Spec.populated (GeneratedCV.merged_document c) ->
              Spec.populated (GeneratedCV.merged_document final)))
    /\ (forall p,
          DocumentProcessingService.disk_exists
            (DocumentProcessingService.files s) p = true ->
          DocumentProcessingService.disk_exists
            (DocumentProcessingService.files (snd run)) p = true)
    /\ ((fst run = Ok true
         /\ GeneratedCV.generation_status final = gen_completed
         /\ Spec.populated (GeneratedCV.cv_file final)
         /\ Spec.populated (GeneratedCV.application_form final)
         /\ Spec.populated (GeneratedCV.merged_document final))
        \/ (fst run = Ok false
            /\ GeneratedCV.generation_status final = gen_failed
            /\ exists detail, GeneratedCV.error_message final = Some detail))
    /\ (let stops :=
          fun (e : exn) (done : list GeneratedCV.t) (c : GeneratedCV.t)
              (d : DocumentProcessingService.disk) =>
            fst run = Ok false
            /\ Spec.saved_cvs new
               = (done ++ [Spec.generation_failed e c])%list
            /\ final = Spec.generation_failed e c
            /\ DocumentProcessingService.files (snd run) = d in
        match DocumentProcessingService.related_extracted_data source_row
        with
        | Raise e => stops e [c0] c0 (DocumentProcessingService.files s)
        | Ok row =>
        match CVGenerationService.generate_cv w row
                (GeneratedCV.template_type
                   (DocumentProcessingService.generated_cv s))
        with
        | Raise e => stops e [c0] c0 (DocumentProcessingService.files s)
        | Ok cv_pdf =>
        match storage_save w ("cv_" ++ cv_id ++ ".pdf") with
        | Raise e => stops e [c0] c0 (DocumentProcessingService.files s)
        | Ok cv_path =>
        let c1 := GeneratedCV.set_cv_file cv_path c0 in
        let d1 :=
          DocumentProcessingService.disk_write cv_path cv_pdf
            (DocumentProcessingService.files s) in
        match generate_application_form w row with
        | Raise e => stops e [c0; c1] c1 d1
        | Ok app_form_pdf =>
        match storage_save w ("application_" ++ cv_id ++ ".pdf") with
        | Raise e => stops e [c0; c1] c1 d1
        | Ok app_path =>
        let c2 := GeneratedCV.set_application_form app_path c1 in
        let d2 :=
          DocumentProcessingService.disk_write app_path app_form_pdf d1 in
        match CVGenerationService.merge_documents
                (DocumentProcessingService.disk_exists d2)
                (DocumentProcessingService.disk_reader d2)
                cv_path app_path
                (DocumentScan.original_document source_document)
        with
        | Raise e => stops e [c0; c1; c2] c2 d2
        | Ok merged_pdf =>
        match storage_save w ("merged_" ++ cv_id ++ ".pdf") with
        | Raise e => stops e [c0; c1; c2] c2 d2
        | Ok merged_path =>
        let c3 := GeneratedCV.set_merged_document merged_path c2 in
        fst run = Ok true
        /\ Spec.saved_cvs new
           = [c0; c1; c2; c3;
              GeneratedCV.set_generation_status gen_completed c3]
        /\ final = GeneratedCV.set_generation_status gen_completed c3
        /\ DocumentProcessingService.files (snd run)
           = DocumentProcessingService.disk_write merged_path merged_pdf d2
        end end end end end end end).
Proof.
  intros Hord. destruct s as [c d l].
  destruct c as [cid template cvf appf merged status detail].
  unfold Spec.ordered, Spec.populated in Hord. simpl in Hord.
  destruct Hord as [Hma Hac].
  cbv beta iota zeta delta
    [DocumentProcessingService.generate_cv_and_forms try_except bind
     DocumentProcessingService.save_cv DocumentProcessingService.field_save
     emit modify get ret raise call
     DocumentProcessingService.on_cv DocumentProcessingService.on_files
     DocumentProcessingService.set_saves
     DocumentProcessingService.generated_cv DocumentProcessingService.files
     DocumentProcessingService.saves CVGenerationService.generate_cv
     DocumentProcessingService.related_extracted_data
     DocumentProcessingService.path_of Spec.generation_failed].
  repeat
    (match goal with
     | |- context [match source_row with _ => _ end] => destruct source_row
     | |- context [_generate_modern_cv w ?a] =>
         destruct (_generate_modern_cv w a)
     | |- context [generate_application_form w ?a] =>
         destruct (generate_application_form w a)
     | |- context [storage_save w ?n] => destruct (storage_save w n)
     | |- context [CVGenerationService.merge_documents ?a ?b ?c ?d ?e] =>
         destruct (CVGenerationService.merge_documents a b c d e)
     end;
     cbv beta iota zeta delta
       [fst snd DocumentProcessingService.generated_cv
        DocumentProcessingService.files DocumentProcessingService.saves
        GeneratedCV.id GeneratedCV.template_type GeneratedCV.cv_file
        GeneratedCV.application_form GeneratedCV.merged_document
        GeneratedCV.set_generation_status GeneratedCV.set_cv_file
        GeneratedCV.set_application_form GeneratedCV.set_merged_document
        GeneratedCV.set_error_message]).
  all: rewrite <- ?app_assoc; cbn [app]; eexists; (split; [reflexivity|]).
  all: unfold Spec.ordered, Spec.populated; simpl.
  all: split; [repeat constructor; simpl; intuition congruence|].
  all: split; [intuition congruence|].
  all: split; [reflexivity|].
  all: split;
    [first [ exists []; reflexivity
           | eexists [_]; reflexivity
           | eexists [_; _]; reflexivity
           | eexists [_; _; _]; reflexivity ]|].
  all: split;
    [intros c Hin; repeat (destruct Hin as [<- | Hin]); simpl;
     try contradiction; intuition congruence|].
  all: split;
    [intros p Hp;
     repeat apply disk_write_keeps; exact Hp|].
  all: split;
    [first [ left; repeat split; congruence
           | right; split; [reflexivity|]; split; [reflexivity|]; eauto ]|].
  all: repeat split; reflexivity.
Qed.

Lemma C8_generation_order_witness :
  Spec.ordered Sample.fresh_cv
  /\ exists new,
      DocumentProcessingService.saves
        (snd (DocumentProcessingService.generate_cv_and_forms
                (Sample.world EmptyString []) (Sample.scan "resume.pdf")
                (Some ExtractedData.blank)
                (DocumentProcessingService.GenState Sample.fresh_cv
                   (fun p =>
                      if (p =? "resume.pdf")%string
                      then Some (Raise (LibraryError "EOF marker not found"))
                      else None)
                   [])))
      = ([] ++ new)%list
      /\ Forall Spec.ordered (Spec.saved_cvs new)
      /\ fst (DocumentProcessingService.generate_cv_and_forms
                (Sample.world EmptyString []) (Sample.scan "resume.pdf")
                (Some ExtractedData.blank)
                (DocumentProcessingService.GenState Sample.fresh_cv
                   (fun p =>
                      if (p =? "resume.pdf")%string
                      then Some (Raise (LibraryError "EOF marker not found"))
                      else None)
                   []))
         = Ok false
      /\ map (fun c => (GeneratedCV.cv_file c,
                        GeneratedCV.application_form c,
                        GeneratedCV.merged_document c,
                        GeneratedCV.generation_status c,
                        GeneratedCV.error_message c))
           (Spec.saved_cvs new)
         = [ (None, None, None, generating, None);
             (Some "media/cv_5.pdf", None, None, generating, None);
             (Some "media/cv_5.pdf", Some "media/application_5.pdf", None,
              generating, None);
             (Some "media/cv_5.pdf", Some "media/application_5.pdf", None,
              gen_failed, Some "EOF marker not found") ].
Proof.
  assert (Spec.ordered Sample.fresh_cv) as Hfresh
      by (split; intros H; exact H).
  split; [exact Hfresh|].
  destruct (C8_generation_order (Sample.world EmptyString [])
              (Sample.scan "resume.pdf") (Some ExtractedData.blank)
              (DocumentProcessingService.GenState Sample.fresh_cv
                 (fun p =>
                    if (p =? "resume.pdf")%string
                    then Some (Raise (LibraryError "EOF marker not found"))
                    else None)
                 [])
              Hfresh)
    as (new & Hsaves & Hordered & _ & _ & _ & _ & _ & _ & Hstages).
  hnf in Hstages. destruct Hstages as (Hret & Htrace & _).
  exists new. split; [exact Hsaves|]. split; [exact Hordered|].
  split; [exact Hret|]. rewrite Htrace. reflexivity.
Defined.

(** On a fresh row the slots fill in the order CV, application form,
    merged document, and the merge of a scanned image has three pages. *)
Example fresh_run_order :
  let run :=
    DocumentProcessingService.generate_cv_and_forms
      (Sample.world EmptyString []) (Sample.scan "scan.png")
      (Some ExtractedData.blank)
      (DocumentProcessingService.GenState Sample.fresh_cv
         (fun _ => None) []) in
  fst run = Ok true
  /\ map (fun c => (GeneratedCV.cv_file c, GeneratedCV.application_form c,
                    GeneratedCV.merged_document c))
       (Spec.saved_cvs (DocumentProcessingService.saves (snd run)))
     = [ (None, None, None);
         (Some "media/cv_5.pdf", None, None);
         (Some "media/cv_5.pdf", Some "media/application_5.pdf", None);
         (Some "media/cv_5.pdf", Some "media/application_5.pdf",
          Some "media/merged_5.pdf");
         (Some "media/cv_5.pdf", Some "media/application_5.pdf",
          Some "media/merged_5.pdf") ]
  /\ DocumentProcessingService.files (snd run) "media/merged_5.pdf"
     = Some (Ok [10%nat; 11%nat; 12%nat]).
Proof. vm_compute. repeat split. Qed.

(** The two halves of the dispatch that do hold: a PDF path never
    raises, a path with any other extension than the six raises the
    unsupported-format error. *)
Lemma pdf_path_never_raises (w : World) (path : string) (l : log) :
  Py.lower (snd (os_path.splitext path)) = ".pdf" ->
  exists r, fst (OCRService.extract_text_from_document w path l) = Ok r.
Proof.
  intros Hext. unfold OCRService.extract_text_from_document.
  rewrite Hext. simpl. apply pdf_never_raises.
Qed.

Lemma unsupported_extension_raises (w : World) (path : string) (l : log) :
  Py.lower (snd (os_path.splitext path)) <> ".pdf" ->
  existsb (String.eqb (Py.lower (snd (os_path.splitext path))))
    OCRService.image_extensions = false ->
  OCRService.extract_text_from_document w path l
  = (Raise (ValueError ("Unsupported file format: "
                        ++ Py.lower (snd (os_path.splitext path)))), l).
Proof.
  intros Hpdf Himg. unfold OCRService.extract_text_from_document.
  apply String.eqb_neq in Hpdf. rewrite Hpdf, Himg. reflexivity.
Qed.

(** Once an image is open, recognition errors stay inside the adapter. *)
Lemma opened_image_never_raises (w : World) (path : string) (image : Image)
    (l : log) :
  existsb (String.eqb (Py.lower (snd (os_path.splitext path))))
    OCRService.image_extensions = true ->
  Image_open w path = Ok image ->
  exists text confidence,
    fst (OCRService.extract_text_from_document w path l)
    = Ok (text, confidence, 1%nat).
Proof.
  intros Hext Hopen. unfold OCRService.extract_text_from_document.
  destruct (Py.lower (snd (os_path.splitext path)) =? ".pdf")%string eqn:E.
  - apply String.eqb_eq in E. rewrite E in Hext. discriminate.
  - rewrite Hext. unfold bind, OCRService.log_event, emit, modify, call.
    rewrite Hopen, image_run_page. simpl. eauto.
Qed.

(* ================================================================== *)
(** * The matcher finds only what the pattern describes *)
(* ================================================================== *)

Section MatcherFacts.
Local Open Scope list_scope.

Lemma string_length_app (a b : string) :
  String.length (a ++ b)%string = (String.length a + String.length b)%nat.
Proof. induction a as [|x a IH]; simpl; congruence. Qed.

Lemma all_chars_app (p : ascii -> bool) (a b : string) :
  Lang.all_chars p (a ++ b)%string
  = Lang.all_chars p a && Lang.all_chars p b.
Proof.
  induction a as [|x a IH]; simpl; auto. now rewrite IH, andb_assoc.
Qed.

Lemma rep_sound (p : ascii -> bool) (lo : nat) (hi : option nat)
    (s : string) :
  forall n ps pv g k x,
    Re.rep p lo hi n ps pv s g k = Some x ->
    exists t c',
      s = (t ++ Re.rest c')%string
      /\ Re.pos c' = (ps + String.length t)%nat
      /\ Lang.all_chars p t = true
      /\ (lo <= n + String.length t)%nat
      /\ (forall h, hi = Some h -> (n <= h)%nat ->
                    (n + String.length t <= h)%nat)
      /\ k c' g = Some x.
Proof.
  induction s as [|a s IH]; intros n ps pv g k x H; simpl in H.
  - destruct (lo <=? n)%nat eqn:Hlo; [|discriminate].
    apply Nat.leb_le in Hlo.
    exists EmptyString, (Re.Cursor ps pv EmptyString). simpl.
    repeat split; auto; try lia; intros h _ Hn; lia.
  - assert ((if (lo <=? n)%nat
             then k (Re.Cursor ps pv (String a s)) g else None) = Some x ->
            exists t c',
              String a s = (t ++ Re.rest c')%string
              /\ Re.pos c' = (ps + String.length t)%nat
              /\ Lang.all_chars p t = true
              /\ (lo <= n + String.length t)%nat
              /\ (forall h, hi = Some h -> (n <= h)%nat ->
                            (n + String.length t <= h)%nat)
              /\ k c' g = Some x) as Hstop.
    { intros Hk. destruct (lo <=? n)%nat eqn:Hlo; [|discriminate].
      apply Nat.leb_le in Hlo.
      exists EmptyString, (Re.Cursor ps pv (String a s)). simpl.
      repeat split; auto; try lia; intros h _ Hn; lia. }
    destruct (p a && Re.may_take n hi) eqn:Htake; [|auto].
    destruct (Re.rep p lo hi (S n) (S ps) (Some a) s g k) as [y|] eqn:Hrec;
      [|auto].
    injection H as ->. apply andb_true_iff in Htake as [Hp Hmay].
    destruct (IH _ _ _ _ _ _ Hrec) as (t & c' & Hs & Hpos & Hall & Hlo & Hhi & Hk).
    exists (String a t), c'. simpl. rewrite Hp, Hall, <- Hs.
    repeat split; auto; try lia.
    intros h Hh Hn. subst hi. simpl in Hmay. apply Nat.ltb_lt in Hmay.
    specialize (Hhi h eq_refl). lia.
Qed.

(** A successful run consumed a text of the pattern's language and
    handed the rest to its continuation; a pattern without group leaves
    the capture as it was. *)
Lemma run_sound (r : Re.regex) :
  forall c g k x,
    Re.run r c g k = Some x ->
    exists s c' g',
      Lang.matches r s
      /\ Re.rest c = (s ++ Re.rest c')%string
      /\ Re.pos c' = (Re.pos c + String.length s)%nat
      /\ (Re.has_group r = false -> g' = g)
      /\ k c' g' = Some x.
Proof.
  induction r as [p| |r1 IH1 r2 IH2|r1 IH1 r2 IH2|r IH|p lo hi|r IH];
    intros c g k x H; simpl in H.
  - destruct c as [ps pv [|a s]]; simpl in H; [discriminate|].
    destruct (p a) eqn:Hp; [|discriminate].
    exists (String a EmptyString), (Re.Cursor (S ps) (Some a) s), g. simpl.
    repeat split; auto; try lia. now constructor.
  - destruct (Re.at_boundary c); [|discriminate].
    exists EmptyString, c, g. simpl. repeat split; auto; try lia. constructor.
  - destruct (IH1 _ _ _ _ H) as (s1 & c1 & g1 & M1 & R1 & P1 & G1 & K1).
    destruct (IH2 _ _ _ _ K1) as (s2 & c2 & g2 & M2 & R2 & P2 & G2 & K2).
    exists (s1 ++ s2)%string, c2, g2. repeat split; auto.
    + now constructor.
    + now rewrite R1, R2, string_app_assoc.
    + rewrite P2, P1, string_length_app. lia.
    + simpl. intros Hg. apply orb_false_iff in Hg as [Hg1 Hg2].
      now rewrite (G2 Hg2), (G1 Hg1).
  - destruct (Re.run r1 c g k) as [y|] eqn:H1.
    + injection H as ->.
      destruct (IH1 _ _ _ _ H1) as (s & c' & g' & M & R & P & G & K).
      exists s, c', g'. repeat split; auto.
      * now apply Lang.MAltL.
      * simpl. intros Hg. apply orb_false_iff in Hg as [Hg1 _]. auto.
    + destruct (IH2 _ _ _ _ H) as (s & c' & g' & M & R & P & G & K).
      exists s, c', g'. repeat split; auto.
      * now apply Lang.MAltR.
      * simpl. intros Hg. apply orb_false_iff in Hg as [_ Hg2]. auto.
  - destruct (Re.run r c g k) as [y|] eqn:H1.
    + injection H as ->.
      destruct (IH _ _ _ _ H1) as (s & c' & g' & M & R & P & G & K).
      exists s, c', g'. repeat split; auto. now apply Lang.MOptSome.
    + exists EmptyString, c, g. simpl. repeat split; auto; try lia.
      apply Lang.MOptNone.
  - destruct (rep_sound _ _ _ _ _ _ _ _ _ _ H)
      as (t & c' & Hs & Hpos & Hall & Hlo & Hhi & Hk).
    exists t, c', g. repeat split; auto.
    constructor; auto. destruct hi as [h|]; simpl; auto.
    specialize (Hhi h eq_refl). lia.
  - destruct (IH _ _ _ _ H) as (s & c' & g' & M & R & P & G & K).
    exists s, c', (Some (Re.pos c, Re.pos c')). repeat split; auto.
    + now constructor.
    + simpl. discriminate.
Qed.
End MatcherFacts.

Section FindallFacts.
Local Open Scope list_scope.

Lemma substring_prefix (b c : string) :
  substring 0 (String.length b) (b ++ c)%string = b.
Proof.
  induction b as [|x b IH]; simpl.
  - destruct c; reflexivity.
  - now rewrite IH.
Qed.

Lemma substring_middle (a b c : string) :
  substring (String.length a) (String.length b) (a ++ b ++ c)%string = b.
Proof.
  induction a as [|x a IH]; simpl; [apply substring_prefix | exact IH].
Qed.

Lemma match_at_sound (r : Re.regex) (c : Re.cursor) (e : nat)
    (g : Re.capture) :
  Re.match_at r c = Some (e, g) ->
  exists s tail,
    Lang.matches r s
    /\ Re.rest c = (s ++ tail)%string
    /\ e = (Re.pos c + String.length s)%nat
    /\ (Re.has_group r = false -> g = None).
Proof.
  unfold Re.match_at. intros H.
  destruct (run_sound _ _ _ _ _ H) as (s & c' & g' & M & R & P & G & K).
  injection K as <- <-. exists s, (Re.rest c'). auto.
Qed.

(** Every match reported by the scan starts at an offset of the text
    and was found there by the anchored matcher. *)
Lemma scan_items (r : Re.regex) (text : string) (s : string) :
  forall ps pv skip pre m,
    text = (pre ++ s)%string -> String.length pre = ps ->
    In m (Re.scan r ps pv s skip) ->
    exists pre' s' pv',
      text = (pre' ++ s')%string
      /\ fst (fst m) = String.length pre'
      /\ Re.match_at r (Re.Cursor (String.length pre') pv' s')
         = Some (snd (fst m), snd m).
Proof.
  induction s as [|a s IH]; intros ps pv skip pre m Htext Hlen Hin.
  - destruct skip; simpl in Hin; [|contradiction].
    destruct (Re.match_at r (Re.Cursor ps pv EmptyString)) as [[e g]|] eqn:E;
      [|contradiction].
    destruct Hin as [<- | []]. exists pre, EmptyString, pv.
    subst ps. auto.
  - assert (text = ((pre ++ String a EmptyString) ++ s)%string) as Htext'
        by (now rewrite string_app_assoc).
    assert (String.length (pre ++ String a EmptyString)%string = S ps)
      as Hlen' by (rewrite string_length_app; simpl; lia).
    destruct skip as [|skip]; simpl in Hin.
    + destruct (Re.match_at r (Re.Cursor ps pv (String a s)))
        as [[e g]|] eqn:E.
      * destruct Hin as [<- | Hin].
        -- exists pre, (String a s), pv. subst ps. auto.
        -- exact (IH _ _ _ _ _ Htext' Hlen' Hin).
      * exact (IH _ _ _ _ _ Htext' Hlen' Hin).
    + exact (IH _ _ _ _ _ Htext' Hlen' Hin).
Qed.

(** What [findall] returns for a pattern without group are texts of the
    pattern's language. *)
Lemma findall_in_language (r : Re.regex) (text item : string) :
  Re.has_group r = false ->
  In item (Re.findall r text) -> Lang.matches r item.
Proof.
  intros Hg Hin. unfold Re.findall in Hin. rewrite Hg in Hin.
  apply in_map_iff in Hin as ([[b e] g] & <- & Hm).
  destruct (scan_items r text text 0 None 0 EmptyString _ eq_refl eq_refl Hm)
    as (pre & s' & pv & Htext & Hb & Hmatch).
  simpl in Hb, Hmatch. subst b.
  destruct (match_at_sound _ _ _ _ Hmatch) as (s & tail & M & R & He & _).
  simpl in R, He. subst s' e text. unfold Re.slice.
  replace (String.length pre + String.length s - String.length pre)%nat
    with (String.length s) by lia.
  now rewrite substring_middle.
Qed.

Lemma phone_pattern_split :
  DataExtractionService.phone_pattern
  = Re.Seq (Re.Opt (Re.Group Lang.country_code)) Lang.national_number.
Proof. reflexivity. Qed.

(** The group of the phone pattern, when it takes part, spans a text of
    the country-code part at the very start of the match. *)
Lemma phone_match_group (c : Re.cursor) (e : nat) (g : Re.capture) :
  Re.match_at DataExtractionService.phone_pattern c = Some (e, g) ->
  g = None
  \/ exists s tail,
      Lang.matches Lang.country_code s
      /\ Re.rest c = (s ++ tail)%string
      /\ g = Some (Re.pos c, (Re.pos c + String.length s)%nat).
Proof.
  unfold Re.match_at. rewrite phone_pattern_split.
  intros H. cbn [Re.run] in H.
  match type of H with
  | match ?m with _ => _ end = _ => destruct m as [y|] eqn:Hgroup
  end.
  - injection H as ->. right.
    destruct (run_sound _ _ _ _ _ Hgroup)
      as (s & c1 & g1 & M & R & P & _ & K).
    destruct (run_sound _ _ _ _ _ K)
      as (s2 & c2 & g2 & _ & _ & _ & G2 & K2).
    rewrite (G2 eq_refl) in K2. injection K2 as _ <-.
    exists s, (Re.rest c1). rewrite P. auto.
  - left.
    destruct (run_sound _ _ _ _ _ H) as (s2 & c2 & g2 & _ & _ & _ & G2 & K2).
    rewrite (G2 eq_refl) in K2. now injection K2 as _ <-.
Qed.

Lemma findall_phone_items (text item : string) :
  In item (Re.findall DataExtractionService.phone_pattern text) ->
  item = EmptyString \/ Lang.matches Lang.country_code item.
Proof.
  intros Hin. unfold Re.findall in Hin.
  change (Re.has_group DataExtractionService.phone_pattern) with true in Hin.
  apply in_map_iff in Hin as ([[b e] g] & <- & Hm).
  destruct (scan_items _ text text 0 None 0 EmptyString _ eq_refl eq_refl Hm)
    as (pre & s' & pv & Htext & Hb & Hmatch).
  simpl in Hb, Hmatch.
  destruct (phone_match_group _ _ _ Hmatch)
    as [-> | (s & tail & M & R & ->)]; [now left|].
  right. simpl in R. subst s' text. simpl Re.pos. unfold Re.slice.
  replace (String.length pre + String.length s - String.length pre)%nat
    with (String.length s) by lia.
  now rewrite substring_middle.
Qed.
End FindallFacts.

Section ShapeFacts.
Import DataExtractionService.
Local Open Scope list_scope.

Lemma matches_seq (r1 r2 : Re.regex) (s : string) :
  Lang.matches (Re.Seq r1 r2) s ->
  exists s1 s2, s = (s1 ++ s2)%string
                /\ Lang.matches r1 s1 /\ Lang.matches r2 s2.
Proof. intros H. inversion H; subst. eauto. Qed.

Lemma matches_chr (p : ascii -> bool) (s : string) :
  Lang.matches (Re.Chr p) s ->
  exists c, s = String c EmptyString /\ p c = true.
Proof. intros H. inversion H; subst. eauto. Qed.

Lemma matches_lit (a : ascii) (s : string) :
  Lang.matches (Re.lit a) s -> s = String a EmptyString.
Proof.
  intros H. apply matches_chr in H as (c & -> & Hc).
  apply Ascii.eqb_eq in Hc. now subst.
Qed.

Lemma matches_wordb (s : string) :
  Lang.matches Re.WordB s -> s = EmptyString.
Proof. intros H. now inversion H. Qed.

Lemma matches_rep (p : ascii -> bool) (lo : nat) (hi : option nat)
    (s : string) :
  Lang.matches (Re.Rep p lo hi) s ->
  Lang.all_chars p s = true /\ (lo <= String.length s)%nat
  /\ Lang.within hi (String.length s).
Proof. intros H. inversion H; subst. auto. Qed.

Lemma matches_digits (lo hi : nat) (s : string) :
  Lang.matches (Re.Rep Re.digit lo (Some hi)) s -> Lang.digits lo hi s.
Proof. intros H. apply matches_rep in H. exact H. Qed.

Lemma matches_opt_chr (p : ascii -> bool) (s : string) :
  Lang.matches (Re.opt_chr p) s ->
  s = EmptyString \/ exists c, s = String c EmptyString /\ p c = true.
Proof.
  intros H. apply matches_rep in H as (Hall & _ & Hhi). simpl in Hhi.
  destruct s as [|c [|c' s]]; simpl in *; [now left | | lia].
  right. exists c. rewrite andb_true_r in Hall. auto.
Qed.

Lemma email_pattern_shape (s : string) :
  Lang.matches email_pattern s -> Lang.email_shaped s.
Proof.
  intros H. cbv [email_pattern cat] in H.
  apply matches_seq in H as (b1 & s1 & -> & Hb1 & H).
  apply matches_seq in H as (local & s2 & -> & Hlocal & H).
  apply matches_seq in H as (at_ & s3 & -> & Hat & H).
  apply matches_seq in H as (domain & s4 & -> & Hdomain & H).
  apply matches_seq in H as (dot & s5 & -> & Hdot & H).
  apply matches_seq in H as (tld & b2 & -> & Htld & Hb2).
  apply matches_wordb in Hb1, Hb2. apply matches_lit in Hat, Hdot.
  apply matches_rep in Hlocal as (Hl1 & Hl2 & _).
  apply matches_rep in Hdomain as (Hd1 & Hd2 & _).
  apply matches_rep in Htld as (Ht1 & Ht2 & _).
  subst. exists local, domain, tld. simpl.
  rewrite string_app_nil_r. repeat split; auto.
Qed.

Lemma country_code_shape (s : string) :
  Lang.matches Lang.country_code s -> Lang.country_code_shaped s.
Proof.
  intros H. cbv [Lang.country_code cat] in H.
  apply matches_seq in H as (sign & s1 & -> & Hsign & H).
  apply matches_seq in H as (code & sep & -> & Hcode & Hsep).
  apply matches_opt_chr in Hsign, Hsep. apply matches_digits in Hcode.
  exists sign, code, sep. repeat split; try apply Hcode.
  - destruct Hsign as [-> | (c & -> & Hc)]; [now left|].
    right. apply Ascii.eqb_eq in Hc. now subst.
  - exact Hsep.
Qed.

Lemma country_code_length (s : string) :
  Lang.country_code_shaped s -> (String.length s <= 5)%nat.
Proof.
  intros (sign & code & sep & -> & Hsign & (_ & _ & Hcode) & Hsep).
  rewrite !string_length_app.
  destruct Hsign as [-> | ->]; destruct Hsep as [-> | (c & -> & _)];
    simpl; lia.
Qed.

Lemma date_pattern_shape (s : string) :
  Lang.matches date_pattern s -> Lang.date_shaped s.
Proof.
  intros H. cbv [date_pattern cat Re.exactly] in H.
  inversion H as [| | |r1 r2 s0 H'|r1 r2 s0 H'| | | |]; subst; clear H;
    rename H' into H;
    apply matches_seq in H as (b1 & s1 & -> & Hb1 & H);
    apply matches_seq in H as (a & s2 & -> & Ha & H);
    apply matches_seq in H as (sep1 & s3 & -> & Hsep1 & H);
    apply matches_seq in H as (b & s4 & -> & Hb & H);
    apply matches_seq in H as (sep2 & s5 & -> & Hsep2 & H);
    apply matches_seq in H as (c & b2 & -> & Hc & Hb2);
    apply matches_wordb in Hb1, Hb2;
    apply matches_chr in Hsep1 as (x1 & -> & Hx1);
    apply matches_chr in Hsep2 as (x2 & -> & Hx2);
    apply matches_digits in Ha, Hb, Hc;
    subst; exists a, b, c, x1, x2; simpl;
    rewrite string_app_nil_r; repeat split; auto.
Qed.
End ShapeFacts.

(* ================================================================== *)
(** * What the extractor puts in its dictionary *)
(* ================================================================== *)

Section StructuredFacts.
Import Py DataExtractionService.
Local Open Scope list_scope.

(** Each key of the merged dictionary, read from the step that sets it. *)
Lemma structured_lookups (text : string) :
  let data := extract_structured_data text in
  lookup data "email"
    = match Re.findall email_pattern text with
      | e :: _ => Some (VStr e)
      | [] => None
      end
  /\ lookup data "phone"
     = match Re.findall phone_pattern text with
       | p :: _ => Some (VStr p)
       | [] => None
       end
  /\ lookup data "full_name"
     = lookup (name_loop (firstn 5 (split_lines text)) []) "full_name"
  /\ lookup data "dates_found"
     = match Re.findall date_pattern text with
       | _ :: _ => Some (VList (Re.findall date_pattern text))
       | [] => None
       end
  /\ lookup data "skills"
     = match skills_loop (split_lines (lower text)) false [] with
       | _ :: _ =>
           Some (VStr (join ", "
                   (firstn 10
                      (skills_loop (split_lines (lower text)) false []))))
       | [] => None
       end
  /\ lookup data "education"
     = match education_loop (split_lines (lower text)) false [] with
       | _ :: _ =>
           Some (VStr (join nl
                   (firstn 5
                      (education_loop (split_lines (lower text)) false []))))
       | [] => None
       end.
Proof.
  unfold extract_structured_data, extract_contact_info,
    extract_personal_info, extract_professional_info.
  destruct (Re.findall date_pattern text) as [|d ds];
    destruct (Re.findall email_pattern text) as [|e es];
    destruct (Re.findall phone_pattern text) as [|p ps];
    destruct (name_loop_shape (firstn 5 (split_lines text)))
      as [-> | [name ->]];
    destruct (skills_loop _ _ _) as [|sk sks];
    destruct (education_loop _ _ _) as [|ed eds];
    repeat split; reflexivity.
Qed.
End StructuredFacts.

(** X1. The merged dictionary is the contact, personal and professional
    dictionaries one after the other: the three never share a key, so no
    update overwrites an earlier value, and its keys are among the six
    the extractor knows, each at most once. *)
Theorem structured_data_is_concatenation (text : string) :
  DataExtractionService.extract_structured_data text
  = (DataExtractionService.extract_contact_info text
     ++ DataExtractionService.extract_personal_info text
     ++ DataExtractionService.extract_professional_info text)%list
  /\ NoDup (map fst (DataExtractionService.extract_structured_data text))
  /\ incl (map fst (DataExtractionService.extract_structured_data text))
       ["email"; "phone"; "full_name"; "dates_found"; "skills";
        "education"].
Proof.
  unfold DataExtractionService.extract_structured_data,
    DataExtractionService.extract_contact_info,
    DataExtractionService.extract_personal_info,
    DataExtractionService.extract_professional_info.
  destruct (Re.findall DataExtractionService.date_pattern text) as [|d ds];
    destruct (Re.findall DataExtractionService.email_pattern text)
      as [|e es];
    destruct (Re.findall DataExtractionService.phone_pattern text)
      as [|p ps];
    destruct (name_loop_shape (firstn 5 (Py.split_lines text)))
      as [-> | [name ->]];
    destruct (DataExtractionService.skills_loop _ _ _) as [|sk sks];
    destruct (DataExtractionService.education_loop _ _ _) as [|ed eds];
    (split; [reflexivity|]);
    (split;
     [ cbn; repeat constructor; cbn; intuition discriminate
     | cbn; intros k Hk; cbn;
       repeat (destruct Hk as [<- | Hk]; [tauto|]); destruct Hk ]).
Qed.

(** X2. An e-mail address the extractor returns has the form
    local@domain.tld: a non-empty local part and a non-empty domain of
    the pattern's characters, and a last label of at least two letters
    or bars. *)
Theorem email_value_shape (text : string) (v : Py.value) :
  Py.lookup (DataExtractionService.extract_structured_data text) "email"
    = Some v ->
  exists email, v = Py.VStr email /\ Lang.email_shaped email.
Proof.
  destruct (structured_lookups text) as (Hemail & _). rewrite Hemail.
  destruct (Re.findall DataExtractionService.email_pattern text)
    as [|e es] eqn:E; [discriminate|].
  intros H. injection H as <-. exists e. split; [reflexivity|].
  apply email_pattern_shape.
  apply (findall_in_language _ text); [reflexivity|].
  rewrite E. now left.
Qed.

Lemma email_value_shape_witness :
  exists email,
    Py.VStr "jane@x.com" = Py.VStr email /\ Lang.email_shaped email.
Proof.
  apply (email_value_shape Sample.jane (Py.VStr "jane@x.com")).
  reflexivity.
Defined.

(** X3. The value stored under [phone] is the text of the pattern's
    optional first group, not the number that was matched: it is empty,
    or a country code (an optional plus sign, one to three digits, an
    optional separator), and so never longer than five characters. *)
Theorem phone_value_is_group (text : string) (v : Py.value) :
  Py.lookup (DataExtractionService.extract_structured_data text) "phone"
    = Some v ->
  exists phone,
    v = Py.VStr phone
    /\ (phone = EmptyString \/ Lang.country_code_shaped phone)
    /\ (String.length phone <= 5)%nat.
Proof.
  destruct (structured_lookups text) as (_ & Hphone & _). rewrite Hphone.
  destruct (Re.findall DataExtractionService.phone_pattern text)
    as [|p ps] eqn:E; [discriminate|].
  intros H. injection H as <-. exists p. split; [reflexivity|].
  assert (In p (Re.findall DataExtractionService.phone_pattern text)) as Hin
      by (rewrite E; now left).
  apply findall_phone_items in Hin as [-> | Hm].
  - split; [now left | simpl; lia].
  - apply country_code_shape in Hm. split; [now right|].
    now apply country_code_length.
Qed.

Lemma phone_value_is_group_witness :
  exists phone,
    Py.VStr EmptyString = Py.VStr phone
    /\ (phone = EmptyString \/ Lang.country_code_shaped phone)
    /\ (String.length phone <= 5)%nat.
Proof.
  apply (phone_value_is_group Sample.jane (Py.VStr EmptyString)).
  reflexivity.
Defined.

(** X4. The value stored under [dates_found] is a non-empty list, and
    each of its items is a date as the pattern writes it: one or two
    digits, one or two digits and two to four digits, or four digits and
    twice one or two digits, separated by slashes or hyphens. *)
Theorem dates_found_shape (text : string) (v : Py.value) :
  Py.lookup (DataExtractionService.extract_structured_data text)
    "dates_found" = Some v ->
  exists dates,
    v = Py.VList dates /\ dates <> [] /\ Forall Lang.date_shaped dates.
Proof.
  destruct (structured_lookups text) as (_ & _ & _ & Hdates & _).
  rewrite Hdates.
  destruct (Re.findall DataExtractionService.date_pattern text)
    as [|d ds] eqn:E; [discriminate|].
  intros H. injection H as <-. exists (d :: ds).
  split; [reflexivity | split; [discriminate|]].
  apply Forall_forall. intros item Hin.
  apply date_pattern_shape.
  apply (findall_in_language _ text); [reflexivity|]. now rewrite E.
Qed.

Lemma dates_found_shape_witness :
  exists dates,
    Py.VList ["01/02/1990"] = Py.VList dates
    /\ dates <> [] /\ Forall Lang.date_shaped dates.
Proof.
  apply (dates_found_shape Sample.born (Py.VList ["01/02/1990"])).
  reflexivity.
Defined.

Section RunFacts.
Import Py DataExtractionService.
Local Open Scope list_scope.
Local Arguments any_keyword : simpl never.

Lemma in_firstn_in {A : Type} (n : nat) (l : list A) (x : A) :
  In x (firstn n l) -> In x l.
Proof.
  revert l. induction n as [|n IH]; intros l H.
  - contradiction.
  - destruct l as [|y l]; simpl in H; [contradiction|].
    destruct H as [-> | H]; [now left | right; auto].
Qed.

Lemma name_loop_sound (lines : list string) (name : string) :
  name_loop lines [] = [("full_name", VStr name)] ->
  exists line,
    In line lines /\ name = strip line /\ looks_like_name name = true.
Proof.
  induction lines as [|l0 lines IH]; simpl; [discriminate|].
  destruct (looks_like_name (strip l0)) eqn:E.
  - intros H. injection H as <-. exists l0. auto.
  - intros H. destruct (IH H) as (line & Hin & Hn & Hok).
    exists line. auto.
Qed.

(** The first element of a list on which a test holds, if any. *)
Lemma first_split {A : Type} (f : A -> bool) (l : list A) :
  (forall x, In x l -> f x = false)
  \/ exists before x after,
      l = before ++ x :: after
      /\ (forall y, In y before -> f y = false) /\ f x = true.
Proof.
  induction l as [|x l IH].
  - left. intros x [].
  - destruct (f x) eqn:E.
    + right. exists [], x, l. repeat split; auto. intros y [].
    + destruct IH as [H | (before & y & after & -> & Hb & Hy)].
      * left. intros z [<- | Hz]; auto.
      * right. exists (x :: before), y, after. repeat split; auto.
        intros z [<- | Hz]; auto.
Qed.

Lemma education_loop_prefix (lines : list string) :
  forall b acc, exists more, education_loop lines b acc = acc ++ more.
Proof.
  induction lines as [|l lines IH]; intros b acc; simpl.
  - exists []. now rewrite app_nil_r.
  - destruct (any_keyword education_keywords l).
    + destruct (IH true (acc ++ [strip l])) as [more ->].
      exists (strip l :: more). now rewrite <- app_assoc.
    + destruct (b && negb (strip l =? EmptyString)%string).
      * destruct (any_keyword _ l).
        -- exists []. now rewrite app_nil_r.
        -- destruct (IH b (acc ++ [strip l])) as [more ->].
           exists (strip l :: more). now rewrite <- app_assoc.
      * apply IH.
Qed.

Lemma education_loop_skips (before : list string) :
  (forall l, In l before -> any_keyword education_keywords l = false) ->
  forall rest,
    education_loop (before ++ rest) false [] = education_loop rest false [].
Proof.
  induction before as [|l before IH]; intros Hno rest; simpl; auto.
  rewrite (Hno l) by now left. simpl. apply IH.
  intros l' Hl'. apply Hno. now right.
Qed.

Lemma skills_loop_skips (before : list string) :
  (forall l, In l before -> any_keyword skills_keywords l = false) ->
  forall rest,
    skills_loop (before ++ rest) false [] = skills_loop rest false [].
Proof.
  induction before as [|l before IH]; intros Hno rest; simpl; auto.
  rewrite (Hno l) by now left. simpl. apply IH.
  intros l' Hl'. apply Hno. now right.
Qed.

Lemma skills_loop_entries (all : list string) (lines : list string) :
  (forall l, In l lines -> In l all) ->
  forall b acc,
    Forall (Runs.skill_entry all) acc ->
    Forall (Runs.skill_entry all) (skills_loop lines b acc).
Proof.
  induction lines as [|l lines IH]; intros Hsub b acc Hacc; simpl; auto.
  assert (forall l', In l' lines -> In l' all) as Hsub'
      by (intros l' Hl'; apply Hsub; now right).
  destruct (any_keyword skills_keywords l) eqn:Hs; [now apply IH|].
  destruct (b && negb (strip l =? EmptyString)%string) eqn:Hb;
    [|now apply IH].
  match goal with
  | |- context [if any_keyword ?kw l then acc else _] =>
      destruct (any_keyword kw l) eqn:He; [exact Hacc|]
  end.
  apply IH; auto. apply Forall_app. split; [exact Hacc|].
  constructor; [|constructor].
  apply andb_true_iff in Hb as [_ Hnb]. apply negb_true_iff in Hnb.
  apply String.eqb_neq in Hnb. split; [exact Hnb|].
  exists l. split; [apply Hsub; now left | split; [reflexivity|]].
  unfold any_keyword in *. rewrite existsb_app, Hs. exact He.
Qed.
End RunFacts.

(** X5. A [full_name] in the result is one of the first five lines of
    the text, stripped, and it is a candidate: at least two tokens, fewer
    than 50 characters, no digit and no at-sign. *)
Theorem full_name_value_is_candidate (text : string) (v : Py.value) :
  Py.lookup (DataExtractionService.extract_structured_data text)
    "full_name" = Some v ->
  exists line,
    In line (firstn 5 (Py.split_lines text))
    /\ v = Py.VStr (Py.strip line)
    /\ Spec.name_candidate (Py.strip line).
Proof.
  destruct (structured_lookups text) as (_ & _ & Hname & _). rewrite Hname.
  destruct (name_loop_shape (firstn 5 (Py.split_lines text)))
    as [E | [name E]]; rewrite E; simpl; [discriminate|].
  intros H. injection H as <-.
  destruct (name_loop_sound _ _ E) as (line & Hin & -> & Hok).
  exists line. split; [exact Hin | split; [reflexivity|]].
  now apply looks_like_name_iff.
Qed.

Lemma full_name_value_is_candidate_witness :
  exists line,
    In line (firstn 5 (Py.split_lines Sample.jane))
    /\ Py.VStr "Jane Doe" = Py.VStr (Py.strip line)
    /\ Spec.name_candidate (Py.strip line).
Proof.
  apply (full_name_value_is_candidate Sample.jane (Py.VStr "Jane Doe")).
  reflexivity.
Defined.

(** X6. The education run starts on the first line that contains an
    education keyword and keeps that line: without such a line the result
    has no [education] key, and with one the value begins with that line,
    stripped and in lower case, followed by at most four more lines. *)
Theorem education_run_starts_on_keyword_line (text : string) :
  let lines := Py.split_lines (Py.lower text) in
  let education :=
    Py.lookup (DataExtractionService.extract_structured_data text)
      "education" in
  ((forall l, In l lines ->
      DataExtractionService.any_keyword
        DataExtractionService.education_keywords l = false) ->
   education = None)
  /\ (forall before line after,
         lines = (before ++ line :: after)%list ->
         (forall l, In l before ->
            DataExtractionService.any_keyword
              DataExtractionService.education_keywords l = false) ->
         DataExtractionService.any_keyword
           DataExtractionService.education_keywords line = true ->
         exists entries,
           education
           = Some (Py.VStr (Py.join DataExtractionService.nl
                              (Py.strip line :: entries)))
           /\ (List.length entries <= 4)%nat).
Proof.
  cbv zeta.
  destruct (structured_lookups text) as (_ & _ & _ & _ & _ & Hedu).
  rewrite Hedu. split.
  - intros Hno.
    rewrite <- (app_nil_r (Py.split_lines (Py.lower text))).
    now rewrite (education_loop_skips _ Hno).
  - intros before line after Hlines Hno Hkey.
    rewrite Hlines, (education_loop_skips _ Hno).
    change (DataExtractionService.education_loop (line :: after) false [])
      with (if DataExtractionService.any_keyword
                 DataExtractionService.education_keywords line
            then DataExtractionService.education_loop after true
                   ([] ++ [Py.strip line])
            else DataExtractionService.education_loop after false []).
    rewrite Hkey.
    destruct (education_loop_prefix after true ([] ++ [Py.strip line])%list)
      as [more ->].
    exists (firstn 4 more). split; [reflexivity|].
    apply firstn_le_length.
Qed.

Lemma education_run_starts_on_keyword_line_witness :
  exists entries,
    Py.lookup
      (DataExtractionService.extract_structured_data
         ("Jane Doe" ++ Sample.nl ++ " Education " ++ Sample.nl ++ "MIT"))
      "education"
    = Some (Py.VStr (Py.join DataExtractionService.nl
                       (Py.strip " education " :: entries)))
    /\ (List.length entries <= 4)%nat.
Proof.
  apply (proj2 (education_run_starts_on_keyword_line
                  ("Jane Doe" ++ Sample.nl ++ " Education " ++ Sample.nl
                   ++ "MIT"))
           ["jane doe"] " education " ["mit"]).
  - reflexivity.
  - intros l [<- | []]. reflexivity.
  - reflexivity.
Defined.

(** X7. The skills run never keeps a keyword line: without a line that
    contains a skills keyword the result has no [skills] key, and a
    [skills] value is the comma-joined list of one to ten entries, each a
    non-blank stripped line of the lower-cased text that contains no
    skills, education or experience keyword. *)
Theorem skills_run_entries (text : string) :
  let lines := Py.split_lines (Py.lower text) in
  let skills :=
    Py.lookup (DataExtractionService.extract_structured_data text)
      "skills" in
  ((forall l, In l lines ->
      DataExtractionService.any_keyword
        DataExtractionService.skills_keywords l = false) ->
   skills = None)
  /\ (forall v,
         skills = Some v ->
         exists entries,
           v = Py.VStr (Py.join ", " entries)
           /\ (1 <= List.length entries <= 10)%nat
           /\ Forall (Runs.skill_entry lines) entries).
Proof.
  cbv zeta.
  destruct (structured_lookups text) as (_ & _ & _ & _ & Hskills & _).
  rewrite Hskills. split.
  - intros Hno.
    rewrite <- (app_nil_r (Py.split_lines (Py.lower text))).
    now rewrite (skills_loop_skips _ Hno).
  - intros v.
    pose proof (skills_loop_entries (Py.split_lines (Py.lower text))
                  (Py.split_lines (Py.lower text)) (fun l H => H)
                  false [] (Forall_nil _)) as Hall.
    destruct (DataExtractionService.skills_loop _ false []) as [|sk sks];
      [discriminate|].
    intros H. injection H as <-.
    exists (firstn 10 (sk :: sks)). split; [reflexivity|]. split.
    + split; [simpl; lia | apply firstn_le_length].
    + apply Forall_forall. intros e He.
      apply in_firstn_in in He.
      rewrite Forall_forall in Hall. now apply Hall.
Qed.

Lemma skills_run_entries_witness :
  Py.lookup
    (DataExtractionService.extract_structured_data
       ("Jane Doe" ++ Sample.nl ++ "jane@x.com"))
    "skills" = None
  /\ exists entries,
      Py.VStr "python, sql" = Py.VStr (Py.join ", " entries)
      /\ (1 <= List.length entries <= 10)%nat.
Proof.
  split.
  - apply (proj1 (skills_run_entries
                    ("Jane Doe" ++ Sample.nl ++ "jane@x.com"))).
    intros l Hl. vm_compute in Hl.
    repeat (destruct Hl as [<- | Hl]; [reflexivity|]). destruct Hl.
  - destruct (proj2 (skills_run_entries
                       ("Skills:" ++ Sample.nl ++ "Python" ++ Sample.nl
                        ++ "SQL"))
                (Py.VStr "python, sql") eq_refl)
      as (entries & Hv & Hlen & _).
    exists entries. split; [exact Hv | exact Hlen].
Defined.

(* ================================================================== *)
(** * What the OCR adapter returns *)
(* ================================================================== *)

Section OutcomeFacts.
Import OCRService.
Variable w : World.
Local Open Scope list_scope.

Lemma rstrip_idempotent (s : string) :
  Py.rstrip (Py.rstrip s) = Py.rstrip s.
Proof.
  induction s as [|c s IH]; simpl; auto.
  destruct (Py.rstrip s) as [|d r] eqn:E.
  - destruct (Py.isspace c) eqn:Hc; simpl; auto. now rewrite Hc.
  - simpl. simpl in IH. rewrite IH. reflexivity.
Qed.

Lemma lstrip_head (s : string) :
  Py.lstrip s = EmptyString
  \/ exists c t, Py.lstrip s = String c t /\ Py.isspace c = false.
Proof.
  induction s as [|c s IH]; simpl; auto.
  destruct (Py.isspace c) eqn:Hc; auto. right. eauto.
Qed.

(** Stripping twice is stripping once. *)
Lemma strip_idempotent (s : string) :
  Py.strip (Py.strip s) = Py.strip s.
Proof.
  unfold Py.strip.
  assert (Py.lstrip (Py.rstrip (Py.lstrip s)) = Py.rstrip (Py.lstrip s))
    as H.
  { destruct (lstrip_head s) as [-> | (c & t & -> & Hc)]; auto.
    simpl. destruct (Py.rstrip t); simpl; rewrite ?Hc; simpl;
      rewrite ?Hc; reflexivity. }
  rewrite H. apply rstrip_idempotent.
Qed.

Lemma extract_text_functional (pages : list Page) :
  forall t1 t2,
    Forall2 (fun page t => extract_text w page = Ok t) pages t1 ->
    Forall2 (fun page t => extract_text w page = Ok t) pages t2 ->
    t1 = t2.
Proof.
  induction pages as [|page pages IH]; intros t1 t2 H1 H2;
    inversion H1; inversion H2; subst; auto.
  f_equal; [congruence | now apply IH].
Qed.

(** Whether the PDF has a readable non-blank text layer can be told. *)
Lemma native_layer_decided (path : string) :
  (exists pages texts,
      Spec.readable w path pages texts
      /\ nonblank (Spec.text_layer texts) = true)
  \/ ~ (exists pages texts,
           Spec.readable w path pages texts
           /\ nonblank (Spec.text_layer texts) = true).
Proof.
  destruct (PdfReader w path) as [pages|e] eqn:Hopen.
  - destruct (native_pages_cases w pages) as [[texts H] | [e H]].
    + destruct (nonblank (Spec.text_layer texts)) eqn:Hnb.
      * left. exists pages, texts. split; [split|]; auto.
      * right. intros (pages' & texts' & [Hp Hf] & Hnb').
        rewrite Hopen in Hp. injection Hp as <-.
        rewrite (extract_text_functional _ _ _ Hf H) in Hnb'. congruence.
    + right. intros (pages' & texts' & [Hp Hf] & _).
      rewrite Hopen in Hp. injection Hp as <-.
      destruct (H (Frame EmptyString 0%Q 0 [])) as (f' & Hrun & _).
      rewrite (native_pages_ok w _ _ Hf) in Hrun. discriminate.
  - right. intros (pages & texts & [Hp _] & _). congruence.
Qed.

(** The three ways [extract_text_from_pdf] ends: with the text layer,
    with the recognized pages, or empty-handed. The text is stripped in
    each. *)
Lemma pdf_outcome (path : string) (l : log) :
  exists raw confidence n,
    fst (extract_text_from_pdf w path l) = Ok (Py.strip raw, confidence, n)
    /\ (confidence = 95%Q
        \/ exists images,
            (confidence
             == Spec.mean
                  (map (fun image => snd (Spec.page_result w image))
                     images))%Q).
Proof.
  destruct (native_layer_decided path)
    as [(pages & texts & Hr & Hnb) | Hno].
  - exists (Spec.text_layer texts), 95%Q, (List.length pages).
    split; [|now left].
    unfold extract_text_from_pdf, pdf_body, try_except, bind.
    rewrite (native_phase_returns w path pages texts l Hr Hnb).
    reflexivity.
  - destruct (native_phase_falls w path l Hno)
      as (f1 & Hfall & Hcalls & Htot).
    unfold extract_text_from_pdf, pdf_body.
    unfold try_except at 1. unfold bind at 1. rewrite Hfall.
    unfold bind, emit, modify, call, get.
    destruct (convert_from_path w path 300) as [images|e].
    + cbn [calls set_calls set_page_count all_text total_confidence
           page_count].
      match goal with
      | |- context [ocr_pages w images 0 ?f] =>
          destruct (ocr_pages_run w images 0%nat f) as [t ->]
      end.
      cbn [calls set_calls set_page_count all_text total_confidence
           page_count ret fst].
      rewrite Htot. eexists. eexists. eexists.
      split; [reflexivity|]. right. exists images.
      destruct images as [|x images]; [reflexivity | apply total_is_mean].
    + exists EmptyString, 0%Q, 0%nat. split; [reflexivity|].
      right. exists []. reflexivity.
Qed.

Lemma inject_Z_succ (n : nat) :
  (inject_Z (Z.of_nat (S n)) == inject_Z (Z.of_nat n) + 1)%Q.
Proof.
  rewrite Nat2Z.inj_succ. unfold Z.succ. rewrite inject_Z_plus.
  reflexivity.
Qed.

Lemma sum_bounds (l : list Q) :
  Forall (fun q => 0 <= q /\ q <= 100)%Q l ->
  (0 <= fold_right Qplus 0 l
   /\ fold_right Qplus 0 l <= 100 * inject_Z (Z.of_nat (List.length l)))%Q.
Proof.
  induction 1 as [|q l [Hq0 Hq1] _ [IH0 IH1]];
    simpl fold_right; simpl List.length.
  - change (inject_Z (Z.of_nat 0)) with 0%Q. split; lra.
  - rewrite inject_Z_succ. split; lra.
Qed.

(** The mean of values between 0 and 100 is between 0 and 100. *)
Lemma mean_bounds (l : list Q) :
  Forall (fun q => 0 <= q /\ q <= 100)%Q l ->
  (0 <= Spec.mean l /\ Spec.mean l <= 100)%Q.
Proof.
  intros H. destruct l as [|x l]; [simpl; split; lra|].
  destruct (sum_bounds _ H) as [H0 H1]. unfold Spec.mean.
  simpl List.length in *.
  assert (0 < inject_Z (Z.of_nat (S (List.length l))))%Q as Hpos.
  { change 0%Q with (inject_Z 0). rewrite <- Zlt_Qlt. lia. }
  split.
  - apply Qle_shift_div_l; auto; lra.
  - apply Qle_shift_div_r; auto.
Qed.

Hypothesis percent :
  forall image data,
    image_to_data_conf w image = Ok data ->
    Forall (fun conf => (conf <= 100)%Z) data.

Lemma page_confidence_bounds (image : Image) :
  (0 <= snd (Spec.page_result w image)
   /\ snd (Spec.page_result w image) <= 100)%Q.
Proof.
  unfold Spec.page_result. rewrite image_run.
  destruct (preprocess_image w image) as [processed|e];
    [|simpl; split; lra].
  destruct (image_to_data_conf w processed) as [data|e] eqn:Hdata;
    [|simpl; split; lra].
  destruct (image_to_string w processed) as [text|e];
    [|simpl; split; lra].
  cbn [fst snd]. rewrite average_is_mean. apply mean_bounds.
  apply Forall_forall. intros q Hq.
  apply in_map_iff in Hq as (conf & <- & Hin).
  apply filter_In in Hin as [Hin Hpos]. apply Z.ltb_lt in Hpos.
  pose proof (percent _ _ Hdata) as Hall. rewrite Forall_forall in Hall.
  specialize (Hall conf Hin).
  change 0%Q with (inject_Z 0). change 100%Q with (inject_Z 100).
  rewrite <- !Zle_Qle. lia.
Qed.

Lemma pdf_confidence_bounds (path : string) (l : log) (text : string)
    (confidence : Q) (n : nat) :
  fst (extract_text_from_pdf w path l) = Ok (text, confidence, n) ->
  (0 <= confidence /\ confidence <= 100)%Q.
Proof.
  destruct (pdf_outcome path l) as (raw & c & m & Hrun & Hc).
  rewrite Hrun. intros H. injection H as _ <- _.
  destruct Hc as [-> | [images ->]]; [split; lra|].
  apply mean_bounds. apply Forall_forall. intros q Hq.
  apply in_map_iff in Hq as (image & <- & _).
  apply page_confidence_bounds.
Qed.
End OutcomeFacts.

Lemma page_text_stripped (w : World) (image : Image) :
  exists raw, fst (Spec.page_result w image) = Py.strip raw.
Proof.
  unfold Spec.page_result. rewrite image_run.
  destruct (preprocess_image w image) as [processed|e];
    [|exists EmptyString; reflexivity].
  destruct (image_to_data_conf w processed) as [data|e];
    [|exists EmptyString; reflexivity].
  destruct (image_to_string w processed) as [text|e];
    [exists text | exists EmptyString]; reflexivity.
Qed.

(** X8. When the recognizer reports no per-token confidence above 100,
    the confidence [extract_text_from_document] returns is between 0 and
    100, whichever way the text was obtained: 95 for a text layer, a mean
    of per-page means for a rendered PDF, a mean of per-token values for
    an image, 0 on failure. *)
Theorem confidence_is_a_percentage (w : World) (path : string) (l : log)
    (text : string) (confidence : Q) (n : nat) :
  (forall image data,
      image_to_data_conf w image = Ok data ->
      Forall (fun conf => (conf <= 100)%Z) data) ->
  fst (OCRService.extract_text_from_document w path l)
    = Ok (text, confidence, n) ->
  (0 <= confidence /\ confidence <= 100)%Q.
Proof.
  intros Hpercent. unfold OCRService.extract_text_from_document.
  destruct (Py.lower (snd (os_path.splitext path)) =? ".pdf")%string.
  - apply pdf_confidence_bounds. exact Hpercent.
  - destruct (existsb _ OCRService.image_extensions); [|discriminate].
    unfold bind, OCRService.log_event, emit, modify, call.
    destruct (Image_open w path) as [image|e]; [|discriminate].
    rewrite image_run_page. simpl. intros H. injection H as _ <- _.
    apply page_confidence_bounds. exact Hpercent.
Qed.

Lemma confidence_is_a_percentage_witness :
  (0 <= 135 # 2 /\ 135 # 2 <= 100)%Q.
Proof.
  apply (confidence_is_a_percentage
           (Sample.world EmptyString [(-1)%Z; 0%Z; 90%Z; 45%Z])
           "photo.jpg" [] "page" (135 # 2) 1%nat).
  - intros image data H. injection H as <-.
    repeat constructor; lia.
  - vm_compute. reflexivity.
Defined.

(** X9. The text [extract_text_from_document] returns has no leading
    and no trailing whitespace: stripping it again changes nothing. *)
Theorem extracted_text_is_stripped (w : World) (path : string) (l : log)
    (text : string) (confidence : Q) (n : nat) :
  fst (OCRService.extract_text_from_document w path l)
    = Ok (text, confidence, n) ->
  Py.strip text = text.
Proof.
  unfold OCRService.extract_text_from_document.
  destruct (Py.lower (snd (os_path.splitext path)) =? ".pdf")%string.
  - destruct (pdf_outcome w path l) as (raw & c & m & Hrun & _).
    rewrite Hrun. intros H. injection H as <- _ _.
    apply strip_idempotent.
  - destruct (existsb _ OCRService.image_extensions); [|discriminate].
    unfold bind, OCRService.log_event, emit, modify, call.
    destruct (Image_open w path) as [image|e]; [|discriminate].
    rewrite image_run_page. simpl. intros H. injection H as <- _ _.
    destruct (page_text_stripped w image) as [raw ->].
    apply strip_idempotent.
Qed.

Lemma extracted_text_is_stripped_witness :
  Py.strip "page" = "page".
Proof.
  apply (extracted_text_is_stripped
           (Sample.world EmptyString [(-1)%Z; 0%Z; 90%Z; 45%Z])
           "photo.jpg" [] "page" (135 # 2) 1%nat).
  vm_compute. reflexivity.
Defined.

(* ================================================================== *)
(** * From the upload form to the OCR dispatch *)
(* ================================================================== *)

Section UploadFacts.
Import Upload.
Local Open Scope list_scope.

Lemma rfind_none (c : ascii) (s : string) :
  Py.any_char (Ascii.eqb c) s = false -> Py.rfind c s = None.
Proof.
  induction s as [|a s IH]; simpl; auto.
  intros H. apply orb_false_iff in H as [Ha Hs].
  rewrite (IH Hs), Ascii.eqb_sym, Ha. reflexivity.
Qed.

Lemma rfind_app (c : ascii) (a b : string) :
  Py.rfind c (a ++ b)%string
  = match Py.rfind c b with
    | Some i => Some (String.length a + i)%nat
    | None => Py.rfind c a
    end.
Proof.
  induction a as [|x a IH]; simpl.
  - destruct (Py.rfind c b); reflexivity.
  - rewrite IH. destruct (Py.rfind c b); reflexivity.
Qed.

Lemma rfind_head (c : ascii) (b : string) :
  Py.any_char (Ascii.eqb c) b = false ->
  Py.rfind c (String c b) = Some 0%nat.
Proof.
  intros H. simpl. now rewrite (rfind_none _ _ H), Ascii.eqb_refl.
Qed.

Lemma any_char_app (p : ascii -> bool) (a b : string) :
  Py.any_char p (a ++ b)%string = Py.any_char p a || Py.any_char p b.
Proof.
  induction a as [|x a IH]; simpl; auto. now rewrite IH, orb_assoc.
Qed.

(** The extension of [dir/stem.ext] is [.ext]. *)
Lemma splitext_stored (dir stem ext : string) :
  Py.any_char (Ascii.eqb "/") stem = false ->
  Py.any_char (Ascii.eqb "/") ext = false ->
  Py.any_char (Ascii.eqb ".") ext = false ->
  Py.any_char (fun c => negb (Ascii.eqb c ".")) stem = true ->
  os_path.splitext (dir ++ "/" ++ stem ++ "." ++ ext)%string
  = ((dir ++ "/" ++ stem)%string, ("." ++ ext)%string).
Proof.
  intros Hs1 Hs2 Hd Hstem. unfold os_path.splitext.
  assert (Py.rfind "/" (dir ++ "/" ++ stem ++ "." ++ ext)%string
          = Some (String.length dir)) as Hsep.
  { rewrite rfind_app.
    change ("/" ++ stem ++ "." ++ ext)%string
      with (String "/" (stem ++ "." ++ ext)%string).
    rewrite rfind_head; [f_equal; lia|].
    rewrite any_char_app, Hs1. simpl. exact Hs2. }
  assert (Py.rfind "." (dir ++ "/" ++ stem ++ "." ++ ext)%string
          = Some (String.length (dir ++ "/" ++ stem)%string)) as Hdot.
  { replace (dir ++ "/" ++ stem ++ "." ++ ext)%string
      with ((dir ++ "/" ++ stem) ++ String "." ext)%string
      by (now rewrite !string_app_assoc).
    rewrite rfind_app, (rfind_head _ _ Hd). f_equal. lia. }
  rewrite Hsep, Hdot. cbn [os_path.gt_index].
  assert (String.length (dir ++ "/" ++ stem)%string
          = (S (String.length dir) + String.length stem)%nat) as Hlen
      by (rewrite !string_length_app; simpl; lia).
  rewrite Hlen.
  replace (String.length dir <? S (String.length dir) + String.length stem)%nat
    with true by (symmetry; apply Nat.ltb_lt; lia).
  replace (S (String.length dir) + String.length stem - S (String.length dir))%nat
    with (String.length stem) by lia.
  assert (substring (S (String.length dir)) (String.length stem)
            (dir ++ "/" ++ stem ++ "." ++ ext)%string = stem) as Hmid.
  { replace (dir ++ "/" ++ stem ++ "." ++ ext)%string
      with ((dir ++ "/") ++ stem ++ ("." ++ ext))%string
      by (now rewrite !string_app_assoc).
    replace (S (String.length dir)) with (String.length (dir ++ "/")%string)
      by (rewrite string_length_app; simpl; lia).
    apply substring_middle. }
  rewrite Hmid, Hstem. f_equal.
  - rewrite <- Hlen.
    replace (dir ++ "/" ++ stem ++ "." ++ ext)%string
      with ((dir ++ "/" ++ stem) ++ ("." ++ ext))%string
      by (now rewrite !string_app_assoc).
    apply substring_prefix.
  - rewrite <- Hlen.
    replace (dir ++ "/" ++ stem ++ "." ++ ext)%string
      with ((dir ++ "/" ++ stem) ++ ("." ++ ext) ++ EmptyString)%string
      by (now rewrite string_app_nil_r, !string_app_assoc).
    replace (String.length
               ((dir ++ "/" ++ stem) ++ ("." ++ ext) ++ EmptyString)%string
             - String.length (dir ++ "/" ++ stem)%string)%nat
      with (String.length ("." ++ ext)%string)
      by (rewrite !string_length_app; simpl; lia).
    apply substring_middle.
Qed.
End UploadFacts.

Section StoredPathFacts.
Import Upload.
Local Open Scope list_scope.

Lemma split_dots_pieces (s : string) :
  Forall (fun piece => Py.any_char (Ascii.eqb ".") piece = false)
    (split_dots s).
Proof.
  induction s as [|c s IH]; simpl.
  - repeat constructor.
  - destruct (Ascii.eqb c ".") eqn:Hc.
    + constructor; [reflexivity | exact IH].
    + destruct (split_dots s) as [|l ls].
      * constructor; [|constructor].
        cbn [Py.any_char]. now rewrite Ascii.eqb_sym, Hc.
      * inversion IH; subst. constructor; auto.
        cbn [Py.any_char]. now rewrite Ascii.eqb_sym, Hc.
Qed.

Lemma last_piece_no_dot (filename : string) :
  Py.any_char (Ascii.eqb ".") (last_piece filename) = false.
Proof.
  unfold last_piece. pose proof (split_dots_pieces filename) as H.
  induction (split_dots filename) as [|x l IH]; [reflexivity|].
  inversion H; subst. destruct l; [assumption|]. now apply IH.
Qed.

Lemma ends_with_slash (s : string) :
  s <> EmptyString -> Py.endswith s "/" = true ->
  exists q, s = (q ++ "/")%string.
Proof.
  unfold Py.endswith. intros Hne H. apply andb_true_iff in H as [_ H].
  apply String.eqb_eq in H. simpl String.length in H.
  revert Hne H. induction s as [|c s IH]; [congruence|]. intros _ H.
  destruct s as [|d s].
  - simpl in H. exists EmptyString. exact H.
  - destruct IH as [q Hq]; [discriminate| |].
    + simpl String.length in *.
      replace (S (S (String.length s)) - 1)%nat
        with (S (S (String.length s) - 1)) in H by lia.
      exact H.
    + exists (String c q). simpl. now rewrite <- Hq.
Qed.

Lemma join2_nonempty (path b : string) :
  path <> EmptyString -> join2 path b <> EmptyString.
Proof.
  intros Hne. unfold join2.
  destruct (Py.startswith b "/") eqn:Hb.
  - destruct b; [discriminate | discriminate].
  - destruct ((path =? EmptyString)%string || Py.endswith path "/");
      destruct path; try congruence; discriminate.
Qed.

Lemma join2_shape (path b : string) :
  Py.startswith b "/" = false -> path <> EmptyString ->
  exists q, join2 path b = (q ++ "/" ++ b)%string.
Proof.
  intros Hb Hne. unfold join2. rewrite Hb.
  destruct (path =? EmptyString)%string eqn:He.
  - apply String.eqb_eq in He. contradiction.
  - simpl. destruct (Py.endswith path "/") eqn:Hs.
    + destruct (ends_with_slash _ Hne Hs) as [q ->].
      exists q. now rewrite string_app_assoc.
    + now exists path.
Qed.

Lemma all_chars_none (p q : ascii -> bool) (s : string) :
  (forall c, p c = true -> q c = false) ->
  Lang.all_chars p s = true -> Py.any_char q s = false.
Proof.
  intros Hpq. induction s as [|c s IH]; simpl; auto.
  intros H. apply andb_true_iff in H as [Hc Hs].
  now rewrite (Hpq c Hc), IH.
Qed.

Lemma uuid_facts (uuid : string) :
  is_uuid uuid = true ->
  Py.any_char (Ascii.eqb "/") uuid = false
  /\ Py.any_char (fun c => negb (Ascii.eqb c ".")) uuid = true
  /\ forall tail, Py.startswith (uuid ++ tail) "/" = false.
Proof.
  unfold is_uuid. intros H. apply andb_true_iff in H as [Hne Hall].
  split; [|split].
  - apply (all_chars_none (Re.one_of "0123456789abcdef-")); auto.
    intros c Hc. destruct (Ascii.eqb "/" c) eqn:E; auto.
    apply Ascii.eqb_eq in E. subst c. discriminate.
  - destruct uuid as [|c u]; [discriminate|].
    cbn [Lang.all_chars] in Hall. cbn [Py.any_char].
    apply andb_true_iff in Hall as [Hc _].
    destruct (Ascii.eqb c ".") eqn:E; auto.
    apply Ascii.eqb_eq in E. subst c. discriminate.
  - intros tail. destruct uuid as [|c u]; [discriminate|].
    cbn [Lang.all_chars] in Hall.
    change (Ascii.eqb "/" c && true = false).
    apply andb_true_iff in Hall as [Hc _].
    destruct (Ascii.eqb "/" c) eqn:E; auto.
    apply Ascii.eqb_eq in E. subst c. discriminate.
Qed.

(** Where an upload is stored: some directory, a slash, the identifier,
    a dot and the last dot-separated piece of the uploaded name. *)
Lemma stored_path_shape (media_root : string) (user_id : nat)
    (uuid filename : string) :
  is_uuid uuid = true ->
  exists dir,
    media_path media_root (document_upload_path user_id uuid filename)
    = (dir ++ "/" ++ uuid ++ "." ++ last_piece filename)%string.
Proof.
  intros Hu. destruct (uuid_facts _ Hu) as (_ & _ & Hstart).
  unfold media_path, document_upload_path, join. cbn [fold_left].
  assert (join2 "documents" (Py.str_of_nat user_id) <> EmptyString)
    as Hne by (apply join2_nonempty; discriminate).
  destruct (join2_shape (join2 "documents" (Py.str_of_nat user_id))
              (uuid ++ "." ++ last_piece filename)%string
              (Hstart _) Hne)
    as [q ->].
  unfold join2 at 1.
  destruct (Py.startswith _ "/"); [now exists q|].
  destruct ((media_root =? EmptyString)%string
            || Py.endswith media_root "/").
  - exists (media_root ++ q)%string. now rewrite string_app_assoc.
  - exists (media_root ++ "/" ++ q)%string.
    now rewrite !string_app_assoc.
Qed.

Lemma lower_char_slash (c : ascii) :
  Ascii.eqb "/" (Py.lower_char c) = Ascii.eqb "/" c.
Proof.
  destruct c as [[] [] [] [] [] [] [] []]; reflexivity.
Qed.

Lemma lower_no_slash (s : string) :
  Py.any_char (Ascii.eqb "/") (Py.lower s)
  = Py.any_char (Ascii.eqb "/") s.
Proof.
  induction s as [|c s IH]; [reflexivity|].
  cbn [Py.lower Py.any_char]. now rewrite lower_char_slash, IH.
Qed.

Lemma allowed_no_slash (ext : string) :
  existsb (String.eqb (Py.lower ext)) allowed_extensions = true ->
  Py.any_char (Ascii.eqb "/") ext = false.
Proof.
  intros H. rewrite <- lower_no_slash.
  apply existsb_exists in H as (x & Hin & Hx).
  apply String.eqb_eq in Hx. rewrite Hx.
  repeat (destruct Hin as [<- | Hin]; [reflexivity|]). destruct Hin.
Qed.
End StoredPathFacts.

Lemma stored_path_extension (media_root : string) (user_id : nat)
    (uuid filename : string) :
  Upload.is_uuid uuid = true ->
  Py.any_char (Ascii.eqb "/") (Upload.last_piece filename) = false ->
  os_path.splitext
    (Upload.media_path media_root
       (Upload.document_upload_path user_id uuid filename))
  = (fst (os_path.splitext
            (Upload.media_path media_root
               (Upload.document_upload_path user_id uuid filename))),
     ("." ++ Upload.last_piece filename)%string).
Proof.
  intros Hu Hslash.
  destruct (stored_path_shape media_root user_id uuid filename Hu)
    as [dir ->].
  destruct (uuid_facts _ Hu) as (Hus & Hud & _).
  rewrite splitext_stored; auto using last_piece_no_dot.
Qed.

(** X10. The path an upload is stored at keeps the last dot-separated
    piece of the uploaded name as its extension: [os.path.splitext] of
    the stored path gives back a dot and that piece, whatever the media
    root and the user, as long as the piece holds no slash. *)
Theorem stored_path_keeps_extension (media_root : string) (user_id : nat)
    (uuid filename : string) :
  Upload.is_uuid uuid = true ->
  Py.any_char (Ascii.eqb "/") (Upload.last_piece filename) = false ->
  snd (os_path.splitext
         (Upload.media_path media_root
            (Upload.document_upload_path user_id uuid filename)))
  = ("." ++ Upload.last_piece filename)%string.
Proof.
  intros Hu Hslash.
  now rewrite (stored_path_extension media_root user_id uuid filename
                 Hu Hslash).
Qed.

Lemma stored_path_keeps_extension_witness :
  snd (os_path.splitext
         (Upload.media_path "/srv/media"
            (Upload.document_upload_path 12 "3f2a-9c" "my.resume.PDF")))
  = ("." ++ Upload.last_piece "my.resume.PDF")%string.
Proof.
  apply (stored_path_keeps_extension "/srv/media" 12 "3f2a-9c"
           "my.resume.PDF"); reflexivity.
Defined.

(** X11. An upload the form accepts is at most 10 MB, and the OCR
    dispatch never rejects its stored path as an unsupported format: if
    [extract_text_from_document] raises on it, the exception is the one
    [Image.open] raised. *)
Theorem accepted_upload_is_dispatched (w : World) (media_root : string)
    (user_id : nat) (uuid : string) (f : Upload.uploaded_file) :
  Upload.name f <> EmptyString ->
  Upload.clean_original_document (Some f) = Upload.Cleaned (Some f) ->
  Upload.is_uuid uuid = true ->
  (Upload.size f <= 10485760)%N
  /\ forall l e,
      fst (OCRService.extract_text_from_document w
             (Upload.media_path media_root
                (Upload.document_upload_path user_id uuid (Upload.name f)))
             l) = Raise e ->
      Image_open w
        (Upload.media_path media_root
           (Upload.document_upload_path user_id uuid (Upload.name f)))
      = Raise e.
Proof.
  intros Hname Hclean Hu. unfold Upload.clean_original_document in Hclean.
  apply String.eqb_neq in Hname. rewrite Hname in Hclean.
  change (negb false) with true in Hclean. cbv iota in Hclean.
  destruct (10 * 1024 * 1024 <? Upload.size f)%N eqn:Hsize; [discriminate|].
  cbv zeta in Hclean.
  destruct (existsb _ Upload.allowed_extensions) eqn:Hext;
    [|discriminate].
  split; [apply N.ltb_ge in Hsize; exact Hsize|].
  intros l e.
  pose proof (stored_path_extension media_root user_id uuid
                (Upload.name f) Hu (allowed_no_slash _ Hext)) as Hsplit.
  unfold OCRService.extract_text_from_document. rewrite Hsplit.
  cbn [snd].
  change (Py.lower ("." ++ Upload.last_piece (Upload.name f)))
    with (String "." (Py.lower (Upload.last_piece (Upload.name f)))).
  apply existsb_exists in Hext as (x & Hin & Hx).
  apply String.eqb_eq in Hx. rewrite Hx.
  destruct Hin as [<- | Hin].
  - cbn [String.eqb Ascii.eqb Bool.eqb]. intros H.
    destruct (pdf_never_raises w
                (Upload.media_path media_root
                   (Upload.document_upload_path user_id uuid
                      (Upload.name f))) l) as [r Hr].
    rewrite Hr in H. discriminate.
  - assert ((String "." x =? ".pdf")%string = false
            /\ existsb (String.eqb (String "." x))
                 OCRService.image_extensions = true) as [Hpdf Himg].
    { repeat (destruct Hin as [<- | Hin]; [split; reflexivity|]).
      destruct Hin. }
    rewrite Hpdf, Himg.
    unfold bind, OCRService.log_event, emit, modify, call.
    destruct (Image_open w _) as [image|e']; [|simpl; congruence].
    rewrite image_run_page. simpl. discriminate.
Qed.

Lemma accepted_upload_is_dispatched_witness :
  (Upload.size (Upload.File "scan.of.me.PNG" 10485760) <= 10485760)%N
  /\ Image_open (Sample.world EmptyString [])
       (Upload.media_path "/srv/media"
          (Upload.document_upload_path 12 "3f2a-9c" "scan.of.me.PNG"))
     = Raise (LibraryError "cannot identify image file").
Proof.
  destruct (accepted_upload_is_dispatched (Sample.world EmptyString [])
              "/srv/media" 12 "3f2a-9c"
              (Upload.File "scan.of.me.PNG" 10485760)
              ltac:(discriminate) ltac:(reflexivity) ltac:(reflexivity))
    as [Hsize Hraise].
  split; [exact Hsize|].
  apply (Hraise []). reflexivity.
Defined.

(* ================================================================== *)
(** * The outcome of a run, and the job runner *)
(* ================================================================== *)

Section OutcomeOfRun.
Import DocumentProcessingService.
Local Open Scope list_scope.

(** What a run of [process_document] leaves, by what it returns. *)
Lemma process_document_outcome (w : World) (s : pd_state) :
  exists b s',
    process_document w s = (Ok b, s')
    /\ DocumentScan.id (document_scan s') = DocumentScan.id (document_scan s)
    /\ DocumentScan.original_document (document_scan s')
       = DocumentScan.original_document (document_scan s)
    /\ In (Scan_saved (document_scan s')) (history s')
    /\ ((b = true
         /\ DocumentScan.scan_status (document_scan s') = completed
         /\ table s' <> None
         /\ DocumentScan.extracted_text (document_scan s') <> None
         /\ DocumentScan.error_message (document_scan s')
            = DocumentScan.error_message (document_scan s))
        \/ (b = false
            /\ DocumentScan.scan_status (document_scan s') = failed
            /\ table s' = table s
            /\ exists detail,
                DocumentScan.error_message (document_scan s')
                = Some detail)).
Proof.
  pose proof (process_document_run w s) as Hrun. cbv zeta in Hrun.
  destruct (OCRService.extract_text_from_document w _ _)
    as [[[[text confidence] page_count] | e] l2].
  - destruct (table s) as [row|] eqn:Ht.
    + eexists. eexists. split; [exact Hrun|]. simpl.
      repeat split; auto.
      * apply in_or_app. left. apply in_or_app. right. now left.
      * left. repeat split; auto; discriminate.
    + destruct (invalid_keys _) eqn:Hinv.
      * eexists. eexists. split; [exact Hrun|]. simpl.
        repeat split; auto.
        -- apply in_or_app. left. apply in_or_app. right. now left.
        -- left. repeat split; auto; discriminate.
      * eexists. eexists. split; [exact Hrun|]. simpl.
        repeat split; auto.
        -- apply in_or_app. right. now left.
        -- right. repeat split; eauto.
  - eexists. eexists. split; [exact Hrun|]. simpl.
    repeat split; auto.
    + apply in_or_app. right. now left.
    + right. repeat split; eauto.
Qed.

Lemma reprocess_unfold (w : World) (s : pd_state) :
  Tasks.reprocess w s
  = process_document w
      (PdState (Tasks.reset (document_scan s)) (table s)
         (history s ++ [Scan_saved (Tasks.reset (document_scan s))])).
Proof. destruct s. reflexivity. Qed.
End OutcomeOfRun.

(** X12. [process_document] never raises, and what it returns tells how
    the scan was left: [True] with the status completed, a text stored,
    an ExtractedData row in place and the error detail untouched;
    [False] with the status failed, an error detail set and the row as
    it was. In both cases the scan as it ends was saved. *)
Theorem process_document_result_agrees (w : World)
    (s : DocumentProcessingService.pd_state) :
  exists b s',
    DocumentProcessingService.process_document w s = (Ok b, s')
    /\ In (Scan_saved (DocumentProcessingService.document_scan s'))
         (DocumentProcessingService.history s')
    /\ ((b = true
         /\ DocumentScan.scan_status
              (DocumentProcessingService.document_scan s') = completed
         /\ DocumentProcessingService.table s' <> None
         /\ DocumentScan.extracted_text
              (DocumentProcessingService.document_scan s') <> None
         /\ DocumentScan.error_message
              (DocumentProcessingService.document_scan s')
            = DocumentScan.error_message
                (DocumentProcessingService.document_scan s))
        \/ (b = false
            /\ DocumentScan.scan_status
                 (DocumentProcessingService.document_scan s') = failed
            /\ DocumentProcessingService.table s'
               = DocumentProcessingService.table s
            /\ exists detail,
                DocumentScan.error_message
                  (DocumentProcessingService.document_scan s')
                = Some detail)).
Proof.
  destruct (process_document_outcome w s)
    as (b & s' & Hrun & _ & _ & Hsaved & Hcases).
  exists b, s'. auto.
Qed.

Section CreateFacts.
Import Py DataExtractionService DocumentProcessingService.
Local Open Scope list_scope.

Lemma lookup_not_in (d : dict) (k : string) :
  ~ In k (map fst d) -> lookup d k = None.
Proof.
  induction d as [|[k' v] d IH]; simpl; auto.
  intros H. destruct (String.eqb k k') eqn:E.
  - apply String.eqb_eq in E. subst. tauto.
  - apply IH. tauto.
Qed.

Lemma lookup_in (d : dict) (k : string) :
  In k (map fst d) -> lookup d k <> None.
Proof.
  induction d as [|[k' v] d IH]; simpl; [tauto|].
  intros [-> | H].
  - now rewrite String.eqb_refl.
  - destruct (String.eqb k k'); [discriminate | auto].
Qed.

(** [d.update(other)] read key by key, for a dictionary [other]. *)
Lemma lookup_update (other : dict) :
  NoDup (map fst other) ->
  forall d k,
    lookup (update d other) k
    = match lookup other k with
      | Some v => Some v
      | None => lookup d k
      end.
Proof.
  unfold update.
  induction other as [|[k1 v1] rest IH]; intros Hnd d k; simpl; auto.
  inversion Hnd as [|? ? Hnotin Hnd']; subst.
  rewrite (IH Hnd'). destruct (String.eqb k k1) eqn:E.
  - apply String.eqb_eq in E. subst k1.
    now rewrite (lookup_not_in _ _ Hnotin), lookup_setitem_same.
  - destruct (lookup rest k); auto.
    apply lookup_setitem_other. intros ->.
    now rewrite String.eqb_refl in E.
Qed.

Lemma structured_keys (text : string) :
  NoDup (map fst (extract_structured_data text))
  /\ incl (map fst (extract_structured_data text))
       ["email"; "phone"; "full_name"; "dates_found"; "skills";
        "education"].
Proof.
  unfold extract_structured_data, extract_contact_info,
    extract_personal_info, extract_professional_info.
  destruct (Re.findall date_pattern text) as [|d ds];
    destruct (Re.findall email_pattern text) as [|e es];
    destruct (Re.findall phone_pattern text) as [|p ps];
    destruct (name_loop_shape (firstn 5 (split_lines text)))
      as [-> | [name ->]];
    destruct (skills_loop _ _ _) as [|sk sks];
    destruct (education_loop _ _ _) as [|ed eds];
    (split;
     [ cbn; repeat constructor; cbn; intuition discriminate
     | cbn; intros k Hk; cbn;
       repeat (destruct Hk as [<- | Hk]; [tauto|]); destruct Hk ]).
Qed.

(** Without a date in the text every key of the structured data names a
    field of the model. *)
Lemma no_dates_no_invalid_key (text : string) :
  Re.search date_pattern text = false ->
  invalid_keys (extract_structured_data text) = [].
Proof.
  intros Hs.
  assert (Re.findall date_pattern text = []) as Hnone.
  { destruct (Re.findall date_pattern text) eqn:E; auto.
    assert (Re.search date_pattern text = true) as H
        by (apply findall_nonempty_iff_search; rewrite E; discriminate).
    congruence. }
  destruct (structured_lookups text) as (_ & _ & _ & Hdates & _).
  rewrite Hnone in Hdates.
  destruct (structured_keys text) as [_ Hincl].
  unfold invalid_keys.
  destruct (filter _ _) as [|k ks] eqn:E; auto.
  assert (In k (k :: ks)) as Hin by now left.
  rewrite <- E in Hin. apply filter_In in Hin as [Hin Hbad].
  pose proof (Hincl k Hin) as Hsix.
  repeat (destruct Hsix as [<- | Hsix]; [try discriminate|]);
    try contradiction.
  exfalso. now apply (lookup_in _ _ Hin).
Qed.
End CreateFacts.

(** X13. A first run whose OCR call returns a text without a date
    succeeds, and the row it creates holds every extracted value as it
    was extracted, an empty one included, and NULL in every other column:
    on creation, unlike on update, a falsy value is stored. *)
Theorem first_run_without_date_creates_row (w : World)
    (s : DocumentProcessingService.pd_state)
    (text : string) (confidence : Q) (page_count : nat) (l2 : log) :
  DocumentProcessingService.table s = None ->
  OCRService.extract_text_from_document w
    (DocumentScan.original_document
       (DocumentProcessingService.document_scan s))
    (DocumentProcessingService.history s
     ++ [Scan_saved
           (DocumentScan.set_scan_status processing
              (DocumentProcessingService.document_scan s))])%list
  = (Ok (text, confidence, page_count), l2) ->
  Re.search DataExtractionService.date_pattern text = false ->
  exists s' row,
    DocumentProcessingService.process_document w s = (Ok true, s')
    /\ DocumentProcessingService.table s' = Some row
    /\ DocumentScan.scan_status
         (DocumentProcessingService.document_scan s') = completed
    /\ forall k,
        Py.lookup row k
        = match Py.lookup
                  (DataExtractionService.extract_structured_data text) k
          with
          | Some v => Some v
          | None => Py.lookup ExtractedData.blank k
          end.
Proof.
  intros Htable Hocr Hnodate.
  pose proof (process_document_run w s) as Hrun. cbv zeta in Hrun.
  rewrite Hocr, Htable, (no_dates_no_invalid_key _ Hnodate) in Hrun.
  eexists. eexists. split; [exact Hrun|]. simpl.
  split; [reflexivity | split; [reflexivity|]].
  intros k. apply lookup_update. apply structured_keys.
Qed.

Lemma first_run_without_date_creates_row_witness :
  exists s' row,
    DocumentProcessingService.process_document
      (Sample.world Sample.jane []) Sample.first_run = (Ok true, s')
    /\ DocumentProcessingService.table s' = Some row
    /\ Py.lookup row "phone" = Some (Py.VStr EmptyString).
Proof.
  destruct (first_run_without_date_creates_row
              (Sample.world Sample.jane []) Sample.first_run
              Sample.jane 95%Q 1%nat
              [Scan_saved
                 (DocumentScan.set_scan_status processing
                    (Sample.scan "resume.pdf"));
               PdfReader_opened "resume.pdf"]
              ltac:(reflexivity)
              ltac:(vm_compute; reflexivity)
              ltac:(vm_compute; reflexivity))
    as (s' & row & Hrun & Hrow & _ & Hlookup).
  exists s', row. split; [exact Hrun | split; [exact Hrow|]].
  rewrite Hlookup. reflexivity.
Defined.

Section RetryFacts.
Import DocumentProcessingService.
Local Open Scope list_scope.

Lemma reprocess_with_date_fails (w : World) (s : pd_state) (text : string) :
  table s = None ->
  Re.search DataExtractionService.date_pattern text = true ->
  (forall l, exists confidence page_count l',
      OCRService.extract_text_from_document w
        (DocumentScan.original_document (document_scan s)) l
      = (Ok (text, confidence, page_count), l')) ->
  exists s',
    Tasks.reprocess w s = (Ok false, s')
    /\ table s' = None
    /\ DocumentScan.original_document (document_scan s')
       = DocumentScan.original_document (document_scan s)
    /\ DocumentScan.scan_status (document_scan s') = failed.
Proof.
  intros Htable Hdate Hocr. rewrite reprocess_unfold, Htable.
  pose proof (process_document_run w
                (PdState (Tasks.reset (document_scan s)) None
                   (history s ++ [Scan_saved (Tasks.reset (document_scan s))])))
    as Hrun.
  cbv zeta in Hrun. cbn [document_scan table history] in Hrun.
  change (DocumentScan.original_document (Tasks.reset (document_scan s)))
    with (DocumentScan.original_document (document_scan s)) in Hrun.
  destruct (Hocr ((history s ++ [Scan_saved (Tasks.reset (document_scan s))])
                  ++ [Scan_saved
                        (DocumentScan.set_scan_status processing
                           (Tasks.reset (document_scan s)))]))
    as (confidence & page_count & l' & Hcall).
  rewrite Hcall in Hrun.
  destruct (structured_data_with_dates text Hdate) as (_ & _ & Hinv).
  rewrite Hinv in Hrun.
  eexists. split; [exact Hrun|]. simpl. auto.
Qed.
End RetryFacts.

(** X14. Reprocessing does not help a scan that has no ExtractedData row
    and whose text holds a date: however many times it is reset and
    processed again, the run returns [False], the scan ends failed and
    there is still no row. *)
Theorem reprocessing_never_succeeds (w : World)
    (s : DocumentProcessingService.pd_state) (text : string) :
  DocumentProcessingService.table s = None ->
  Re.search DataExtractionService.date_pattern text = true ->
  (forall l, exists confidence page_count l',
      OCRService.extract_text_from_document w
        (DocumentScan.original_document
           (DocumentProcessingService.document_scan s)) l
      = (Ok (text, confidence, page_count), l')) ->
  forall n,
    let before := Nat.iter n (fun st => snd (Tasks.reprocess w st)) s in
    fst (Tasks.reprocess w before) = Ok false
    /\ DocumentProcessingService.table (snd (Tasks.reprocess w before))
       = None
    /\ DocumentScan.scan_status
         (DocumentProcessingService.document_scan
            (snd (Tasks.reprocess w before))) = failed.
Proof.
  intros Htable Hdate Hocr n. cbv zeta.
  assert (DocumentProcessingService.table
            (Nat.iter n (fun st => snd (Tasks.reprocess w st)) s) = None
          /\ DocumentScan.original_document
               (DocumentProcessingService.document_scan
                  (Nat.iter n (fun st => snd (Tasks.reprocess w st)) s))
             = DocumentScan.original_document
                 (DocumentProcessingService.document_scan s)) as [Ht Hp].
  { induction n as [|n [IHt IHp]]; [auto|]. simpl.
    destruct (reprocess_with_date_fails w _ text IHt Hdate)
      as (s' & Hrun & Ht' & Hp' & _).
    - now rewrite IHp.
    - rewrite Hrun. simpl. split; [exact Ht' | congruence]. }
  destruct (reprocess_with_date_fails w _ text Ht Hdate)
    as (s' & Hrun & Ht' & _ & Hs').
  - now rewrite Hp.
  - rewrite Hrun. auto.
Qed.

Lemma reprocessing_never_succeeds_witness :
  fst (Tasks.reprocess (Sample.world Sample.born [])
         (Nat.iter 2
            (fun st => snd (Tasks.reprocess (Sample.world Sample.born []) st))
            Sample.first_run))
  = Ok false.
Proof.
  apply (reprocessing_never_succeeds (Sample.world Sample.born [])
           Sample.first_run Sample.born).
  - reflexivity.
  - vm_compute. reflexivity.
  - intros l. eexists. eexists. eexists. reflexivity.
Defined.

(* ================================================================== *)
(** * The background tasks *)
(* ================================================================== *)

(** X15. The task [process_document_async] on a scan that exists runs
    [process_document] once, leaving the scan as that run left it, and
    then always returns [False], whatever the run returned: both
    notifications are created with a keyword [user] that the
    Notification model does not have, so the creation raises and the
    handler takes over. The job is saved four times, at 0, 10 and 30
    percent and then as failed with that error as its error details, at
    100 percent when the run had succeeded and at 30 when it had not; no
    notification is created and no e-mail is sent. *)
Theorem async_task_always_reports_failure (w : World)
    (s : Tasks.task_state) (name : string) (send_email : bool) :
  exists b d' s' last_save,
    DocumentProcessingService.process_document w (Tasks.document s)
    = (Ok b, d')
    /\ Tasks.process_document_async w true name send_email s
       = (Ok false, s')
    /\ Tasks.document s' = d'
    /\ Tasks.job_saves s'
       = (Tasks.job_saves s
          ++ [Tasks.MkJob "scan" Tasks.job_processing 0 None None;
              Tasks.MkJob "scan" Tasks.job_processing 10 None None;
              Tasks.MkJob "scan" Tasks.job_processing 30 None None;
              last_save])%list
    /\ Tasks.job s' = Some last_save
    /\ Tasks.status last_save = Tasks.job_failed
    /\ Tasks.progress_percentage last_save = (if b then 100 else 30)%nat
    /\ Tasks.error_details last_save
       = Some (str_of_exn (Tasks.unexpected_keyword_error ["user"]))
    /\ Tasks.notifications s' = Tasks.notifications s
    /\ Tasks.emails s' = Tasks.emails s.
Proof.
  destruct (process_document_outcome w (Tasks.document s))
    as (b & d' & Hrun & _).
  exists b, d'. destruct s as [d j saves notes mails].
  cbn [Tasks.document] in Hrun.
  cbv beta iota zeta delta
    [Tasks.process_document_async negb try_except bind modify get ret raise
     zoom Tasks.save_job Tasks.bind_job Tasks.on_job Tasks.add_job_save
     Tasks.add_notification Tasks.add_email Tasks.set_document
     Tasks.document Tasks.job Tasks.job_saves Tasks.notifications
     Tasks.emails option_map].
  rewrite Hrun.
  change (Tasks.unexpected_keywords
            ["user"; "title"; "message"; "notification_type"])
    with ["user"].
  destruct b;
    cbv beta iota zeta delta
      [Tasks.Notification_objects_create try_except bind modify get ret
       raise Tasks.save_job Tasks.on_job Tasks.add_job_save
       Tasks.document Tasks.job Tasks.job_saves Tasks.notifications
       Tasks.emails option_map];
    eexists; eexists;
    (split; [reflexivity|]); (split; [reflexivity|]);
    (split; [reflexivity|]);
    (split; [rewrite <- !app_assoc; reflexivity|]);
    repeat split; reflexivity.
Qed.

Section BatchFacts.
Import DocumentProcessingService.
Local Open Scope list_scope.


End BatchFacts.


(* ================================================================== *)
(** * What the merged document is made of *)
(* ================================================================== *)

Section StoredFiles.
Import DocumentProcessingService.
Local Open Scope list_scope.

Lemma disk_write_read (path : string) (content : list Page) (d : disk) :
  disk_exists (disk_write path content d) path = true
  /\ disk_reader (disk_write path content d) path = Ok content.
Proof.
  unfold disk_exists, disk_reader, disk_write.
  now rewrite String.eqb_refl.
Qed.

Lemma disk_write_other (path p : string) (content : list Page) (d : disk) :
  p <> path ->
  disk_exists (disk_write path content d) p = disk_exists d p
  /\ disk_reader (disk_write path content d) p = disk_reader d p.
Proof.
  intros Hne. apply String.eqb_neq in Hne.
  unfold disk_exists, disk_reader, disk_write. now rewrite Hne.
Qed.

Lemma merge_documents_run (path_exists : string -> bool)
    (reader : string -> result (list Page))
    (cv_path application_form_path original_doc_path : string)
    (cv app orig : list Page) :
  path_exists cv_path = true -> reader cv_path = Ok cv ->
  path_exists application_form_path = true ->
  reader application_form_path = Ok app ->
  (if path_exists original_doc_path && Py.endswith original_doc_path ".pdf"
   then reader original_doc_path = Ok orig else orig = []) ->
  CVGenerationService.merge_documents path_exists reader
    cv_path application_form_path original_doc_path
  = Ok (cv ++ app ++ orig).
Proof.
  intros Hcv Hrcv Happ Hrapp Horig.
  unfold CVGenerationService.merge_documents,
    CVGenerationService.merge_body, bind, call, get, ret.
  rewrite Hcv, Hrcv, Happ, Hrapp.
  destruct (path_exists original_doc_path
            && Py.endswith original_doc_path ".pdf");
    rewrite Horig, ?add_pages_run; simpl;
    rewrite ?add_pages_run; simpl; rewrite ?add_pages_run; simpl;
    rewrite <- ?app_assoc, ?app_nil_r; reflexivity.
Qed.
End StoredFiles.

(** X17. When both documents are generated and the storage gives them
    two different paths, neither of them the path of the original, a run
    of [generate_cv_and_forms] returns [True] and the file it stores as
    the merged document holds the pages just generated for the CV, then
    those of the application form, then those of the original when that
    is a readable PDF on the disk, and nothing for it when it is absent
    or not a PDF. *)
Theorem merged_document_holds_the_generated_files (w : World)
    (source_document : DocumentScan.t) (row : ExtractedData.t)
    (s : DocumentProcessingService.gen_state)
    (cv_pages app_pages orig_pages : list Page)
    (cv_path app_path merged_path : string) :
  let cv_id :=
    Py.str_of_nat
      (GeneratedCV.id (DocumentProcessingService.generated_cv s)) in
  let original := DocumentScan.original_document source_document in
  _generate_modern_cv w row = Ok cv_pages ->
  generate_application_form w row = Ok app_pages ->
  storage_save w ("cv_" ++ cv_id ++ ".pdf") = Ok cv_path ->
  storage_save w ("application_" ++ cv_id ++ ".pdf") = Ok app_path ->
  storage_save w ("merged_" ++ cv_id ++ ".pdf") = Ok merged_path ->
  cv_path <> app_path ->
  original <> cv_path ->
  original <> app_path ->
  (if DocumentProcessingService.disk_exists
        (DocumentProcessingService.files s) original
      && Py.endswith original ".pdf"
   then DocumentProcessingService.disk_reader
          (DocumentProcessingService.files s) original = Ok orig_pages
   else orig_pages = []) ->
  let run :=
    DocumentProcessingService.generate_cv_and_forms w source_document
      (Some row) s in
  fst run = Ok true
  /\ GeneratedCV.merged_document
       (DocumentProcessingService.generated_cv (snd run))
     = Some merged_path
  /\ DocumentProcessingService.files (snd run) merged_path
     = Some (Ok (cv_pages ++ app_pages ++ orig_pages)%list).
Proof.
  intros cv_id original Hcv Happ Hscv Hsapp Hsmerged Hne Hocv Hoapp Horig.
  subst cv_id original. destruct s as [c d l].
  cbn [DocumentProcessingService.generated_cv
       DocumentProcessingService.files] in *.
  assert (CVGenerationService.merge_documents
            (DocumentProcessingService.disk_exists
               (DocumentProcessingService.disk_write app_path app_pages
                  (DocumentProcessingService.disk_write cv_path cv_pages d)))
            (DocumentProcessingService.disk_reader
               (DocumentProcessingService.disk_write app_path app_pages
                  (DocumentProcessingService.disk_write cv_path cv_pages d)))
            cv_path app_path (DocumentScan.original_document source_document)
          = Ok (cv_pages ++ app_pages ++ orig_pages)%list) as Hmerge.
  { destruct (disk_write_read app_path app_pages
                (DocumentProcessingService.disk_write cv_path cv_pages d))
      as [Hea Hra].
    destruct (disk_write_other app_path cv_path app_pages
                (DocumentProcessingService.disk_write cv_path cv_pages d)
                Hne) as [Hec Hrc].
    destruct (disk_write_read cv_path cv_pages d) as [Hec' Hrc'].
    destruct (disk_write_other app_path _ app_pages
                (DocumentProcessingService.disk_write cv_path cv_pages d)
                Hoapp) as [Heo Hro].
    destruct (disk_write_other cv_path _ cv_pages d Hocv) as [Heo' Hro'].
    apply merge_documents_run; try congruence.
    rewrite Heo, Hro, Heo', Hro'. exact Horig. }
  cbv beta iota zeta delta
    [DocumentProcessingService.generate_cv_and_forms try_except bind
     DocumentProcessingService.save_cv DocumentProcessingService.field_save
     emit modify get ret raise call
     DocumentProcessingService.on_cv DocumentProcessingService.on_files
     DocumentProcessingService.set_saves
     DocumentProcessingService.generated_cv DocumentProcessingService.files
     DocumentProcessingService.saves CVGenerationService.generate_cv
     DocumentProcessingService.related_extracted_data
     DocumentProcessingService.path_of].
  destruct c as [cid template cvf appf merged status detail].
  cbv beta iota zeta delta
    [GeneratedCV.id GeneratedCV.template_type
     GeneratedCV.set_generation_status] in *.
  rewrite Hcv, Hscv.
  cbv beta iota zeta delta
    [GeneratedCV.id GeneratedCV.template_type GeneratedCV.cv_file
     GeneratedCV.application_form GeneratedCV.merged_document
     GeneratedCV.set_generation_status GeneratedCV.set_cv_file
     GeneratedCV.set_application_form GeneratedCV.set_merged_document].
  rewrite Happ, Hsapp.
  cbv beta iota zeta delta
    [GeneratedCV.id GeneratedCV.template_type GeneratedCV.cv_file
     GeneratedCV.application_form GeneratedCV.merged_document
     GeneratedCV.set_generation_status GeneratedCV.set_cv_file
     GeneratedCV.set_application_form GeneratedCV.set_merged_document].
  rewrite Hmerge, Hsmerged.
  cbv beta iota zeta delta
    [fst snd DocumentProcessingService.generated_cv
     DocumentProcessingService.files
     GeneratedCV.id GeneratedCV.template_type GeneratedCV.cv_file
     GeneratedCV.application_form GeneratedCV.merged_document
     GeneratedCV.set_generation_status GeneratedCV.set_cv_file
     GeneratedCV.set_application_form GeneratedCV.set_merged_document].
  split; [reflexivity|]. split; [reflexivity|].
  unfold DocumentProcessingService.disk_write at 1.
  now rewrite String.eqb_refl.
Qed.

Lemma merged_document_holds_the_generated_files_witness :
  DocumentProcessingService.files
    (snd (DocumentProcessingService.generate_cv_and_forms
            (Sample.world EmptyString []) (Sample.scan "resume.pdf")
            (Some ExtractedData.blank)
            (DocumentProcessingService.GenState Sample.fresh_cv
               (fun p => if (p =? "resume.pdf")%string
                         then Some (Ok [1%nat]) else None)
               [])))
    "media/merged_5.pdf"
  = Some (Ok [10%nat; 11%nat; 12%nat; 1%nat]).
Proof.
  apply (merged_document_holds_the_generated_files
           (Sample.world EmptyString []) (Sample.scan "resume.pdf")
           ExtractedData.blank
           (DocumentProcessingService.GenState Sample.fresh_cv
              (fun p => if (p =? "resume.pdf")%string
                        then Some (Ok [1%nat]) else None)
              [])
           [10%nat; 11%nat] [12%nat] [1%nat]
           "media/cv_5.pdf" "media/application_5.pdf" "media/merged_5.pdf");
    try reflexivity; discriminate.
Defined.
